(** * xv6 write-ahead log (kernel/log.c): shallow embedding and properties

    The development follows kernel/log.c function by function.  A C [int]
    is a [Z] in the 32-bit two's complement range, and every [int]
    addition, subtraction and multiplication of log.c is followed by its
    wrap-around ([int_wrap]); so are the assignments of the [uint] fields
    of the superblock to [log.start] and [log.size], and an [int] passed
    as the [uint] block number of [bread] is converted ([to_uint]).  Loop
    counters run below [log.lh.n], an [int], and never wrap.  The block
    numbers of buffers ([uint] in struct buf, stored into the [int] array
    of the header, compared with [==] and passed back to [bread]) keep
    their 32-bit pattern throughout, so such a block number is modelled by
    its unsigned value.  A disk block is the list of its 32-bit words
    (BSIZE / 4 of them): the header block is accessed by the code through
    a cast to [struct logheader], i.e. word 0 is [n] and word 1+i is
    [block[i]]; data blocks are only ever copied whole.

    All buffers live on the single device [log.dev].  The sleep-lock of a
    buffer shows where code asks for a buffer while it holds one: [bread]
    is given the buffers its caller holds, and a call for one of them
    never returns.  The spinlock [log.lock] is not modelled: every locked
    region of log.c is one atomic step of the thread system below.

    Behind the log come the page allocator (kernel/kalloc.c) over a
    byte-addressed memory with little-endian 8-byte pointers, the console
    (kernel/console.c) with its ring buffer and [uint] indices, and the
    device-number macros of kernel/file.h. *)

From Stdlib Require Import ZArith Lia List String.

From stdpp Require Import base tactics option list list_numbers functions gmap fin_maps.

Local Open Scope Z_scope.

(** ** Data model *)

(** [struct logheader { int n; int block[LOGSIZE]; }] *)
Record logheader := LogHeader {
  lh_n : Z;
  lh_block : list Z
}.

(** [struct log] without its spinlock. *)
Record log_t := Log {
  log_start : Z;
  log_size : Z;
  log_outstanding : Z;
  log_committing : Z;
  log_dev : Z;
  log_lh : logheader
}.

(** What the log does to its collaborators, in program order: block
    writes, pin and unpin calls of the buffer cache, and the sleep and
    wakeup calls on the channel [&log]. *)
Inductive event :=
  | EvBwrite (blockno : Z) (data : list Z)
  | EvBpin (blockno : Z)
  | EvBunpin (blockno : Z)
  | EvSleep
  | EvWakeup.

(** The kernel state the log code touches: the global [log], the disk, the
    buffer cache (block number to cached payload), the pin count of every
    block, the history of events, and the killed flag of the calling
    process (set by an external kill; log.c never reads it). *)
Record kstate := KState {
  k_log : log_t;
  k_disk : Z -> list Z;
  k_bcache : gmap Z (list Z);
  k_pin : Z -> Z;
  k_trace : list event;
  k_killed : bool
}.

Definition set_log (l : log_t) (s : kstate) : kstate :=
  KState l (k_disk s) (k_bcache s) (k_pin s) (k_trace s) (k_killed s).

Definition set_disk (d : Z -> list Z) (s : kstate) : kstate :=
  KState (k_log s) d (k_bcache s) (k_pin s) (k_trace s) (k_killed s).

Definition set_bcache (c : gmap Z (list Z)) (s : kstate) : kstate :=
  KState (k_log s) (k_disk s) c (k_pin s) (k_trace s) (k_killed s).

Definition set_pin (p : Z -> Z) (s : kstate) : kstate :=
  KState (k_log s) (k_disk s) (k_bcache s) p (k_trace s) (k_killed s).

Definition emit (e : event) (s : kstate) : kstate :=
  KState (k_log s) (k_disk s) (k_bcache s) (k_pin s) (k_trace s ++ [e]) (k_killed s).

Definition set_lh (h : logheader) (l : log_t) : log_t :=
  Log (log_start l) (log_size l) (log_outstanding l) (log_committing l) (log_dev l) h.

Definition set_outstanding (v : Z) (l : log_t) : log_t :=
  Log (log_start l) (log_size l) v (log_committing l) (log_dev l) (log_lh l).

Definition set_committing (v : Z) (l : log_t) : log_t :=
  Log (log_start l) (log_size l) (log_outstanding l) v (log_dev l) (log_lh l).

(** C [int] arithmetic: 32 bits, two's complement. *)
Definition int_ok (z : Z) : Prop := -2147483648 <= z < 2147483648.

Definition int_wrap (z : Z) : Z := (z + 2147483648) mod 4294967296 - 2147483648.

(** The conversion of an [int] to a [uint] parameter. *)
Definition to_uint (z : Z) : Z := z mod 4294967296.

(** ** The monad of kernel code: state, [panic] and undefined behaviour *)

(** How a call ends: it returns ([Ok]), it stops the kernel in [panic], it
    runs into undefined behaviour of C ([Fault]), or it never returns
    because it sleeps on a buffer that will not be released ([Blocked]). *)
Inductive result (A : Type) :=
  | Ok (a : A)
  | Panic (msg : string)
  | Fault
  | Blocked.

Arguments Ok {A} a.

Arguments Panic {A} msg.

Arguments Fault {A}.

Arguments Blocked {A}.

Definition M (A : Type) : Type := kstate -> result (A * kstate).

#[global] Instance M_ret : MRet M := fun A a s => Ok (a, s).

#[global] Instance M_bind : MBind M := fun A B f m s =>
  match m s with
  | Ok (a, s') => f a s'
  | Panic msg => Panic msg
  | Fault => Fault
  | Blocked => Blocked
  end.

Definition panic {A : Type} (msg : string) : M A := fun _ => Panic msg.

Definition fault {A : Type} : M A := fun _ => Fault.

Definition get_log : M log_t := fun s => Ok (k_log s, s).

Definition put_log (l : log_t) : M unit := fun s => Ok (tt, set_log l s).

Definition of_option {A : Type} (o : option A) : M A :=
  match o with Some a => mret a | None => fault end.

(** [for (i = i0; i < i0 + iters; i++) body(i)]: the loops of log.c run up
    to [log.lh.n], which no loop body assigns, so the trip count is fixed
    on entry. *)
Fixpoint for_loop (body : Z -> M unit) (i : Z) (iters : nat) : M unit :=
  match iters with
  | O => mret tt
  | S k => body i ;; for_loop body (i + 1) k
  end.

(** C array accesses: an index outside the array is undefined behaviour. *)
Definition arr_get (a : list Z) (i : Z) : option Z :=
  if 0 <=? i then a !! Z.to_nat i else None.

Definition arr_set (a : list Z) (i v : Z) : option (list Z) :=
  if (0 <=? i) && (i <? Z.of_nat (length a)) then Some (<[Z.to_nat i := v]> a)
  else None.

(** ** The buffer cache (bio.c) *)

(** What a [bread] of block [b] returns: the cached payload if the block is
    cached, the disk contents otherwise. *)
Definition bview (s : kstate) (b : Z) : list Z :=
  default (k_disk s b) (k_bcache s !! b).

(** Modelled from the spec: bio.c is not among the sources.  [bread] is the
    spec's read-block: it returns a locked handle of the buffer of the
    block, loading the block from disk when it is not cached, and it may
    block until the holder of the buffer releases it.  A buffer is
    identified by its block number, which is the [b->blockno] of the
    handle.  [held] are the buffers the calling code holds locked at the
    call, those it has got from [bread] and not yet given to [brelse]:
    asking for one of them waits for a release that cannot come, and the
    call never returns ([Blocked]).  A buffer that another thread holds
    only delays the call. *)
Definition bread (held : list Z) (blockno : Z) : M Z := fun s =>
  if decide (blockno ∈ held) then Blocked
  else
    match k_bcache s !! blockno with
    | Some _ => Ok (blockno, s)
    | None => Ok (blockno, set_bcache (<[blockno := k_disk s blockno]> (k_bcache s)) s)
    end.

(** [b->data] of a buffer obtained from [bread]. *)
Definition buf_data (b : Z) : M (list Z) := fun s =>
  match k_bcache s !! b with
  | Some d => Ok (d, s)
  | None => Fault
  end.

(** Assignment to [b->data]. *)
Definition buf_store (b : Z) (d : list Z) : M unit := fun s =>
  match k_bcache s !! b with
  | Some _ => Ok (tt, set_bcache (<[b := d]> (k_bcache s)) s)
  | None => Fault
  end.

(** [memmove(dst->data, src->data, BSIZE)] *)
Definition memmove_data (dst src : Z) : M unit :=
  d ← buf_data src; buf_store dst d.

(** Modelled from the spec: bio.c is not among the sources.  [bwrite] is the
    spec's write-block, a synchronous write of the buffer's current payload
    to its home location. *)
Definition disk_write (b : Z) (d : list Z) : M unit := fun s =>
  Ok (tt, emit (EvBwrite b d) (set_disk (<[b := d]> (k_disk s)) s)).

Definition bwrite (b : Z) : M unit :=
  d ← buf_data b; disk_write b d.

(** Modelled from the spec: bio.c is not among the sources.  release-block
    gives up the caller's reference and lock; the payload stays cached. *)
Definition brelse (b : Z) : M unit := mret tt.

(** Modelled from the spec: bio.c is not among the sources.  pin and unpin
    adjust the pin count of the buffer by one. *)
Definition bpin (b : Z) : M unit := fun s =>
  Ok (tt, emit (EvBpin b) (set_pin (<[b := k_pin s b + 1]> (k_pin s)) s)).

Definition bunpin (b : Z) : M unit := fun s =>
  Ok (tt, emit (EvBunpin b) (set_pin (<[b := k_pin s b - 1]> (k_pin s)) s)).

(** Modelled from the spec: proc.c is not among the sources.  [sleep] gives
    up the lock and suspends the caller on the channel; [wakeup] makes all
    sleepers of the channel runnable.  Both are recorded as events. *)
Definition sleep_log : M unit := fun s => Ok (tt, emit EvSleep s).

Definition wakeup_log : M unit := fun s => Ok (tt, emit EvWakeup s).

(** Fields of the header block seen through [(struct logheader * ) buf->data]. *)
Definition hdr_get_n (buf : Z) : M Z :=
  d ← buf_data buf; of_option (arr_get d 0).

Definition hdr_get_block (buf i : Z) : M Z :=
  d ← buf_data buf; of_option (arr_get d (1 + i)).

Definition hdr_set_n (buf v : Z) : M unit :=
  d ← buf_data buf; d' ← of_option (arr_set d 0 v); buf_store buf d'.

Definition hdr_set_block (buf i v : Z) : M unit :=
  d ← buf_data buf; d' ← of_option (arr_set d (1 + i) v); buf_store buf d'.

(** Accessors of the in-memory header [log.lh]. *)
Definition set_lh_n (v : Z) : M unit :=
  l ← get_log; put_log (set_lh (LogHeader v (lh_block (log_lh l))) l).

Definition lh_block_get (i : Z) : M Z :=
  l ← get_log; of_option (arr_get (lh_block (log_lh l)) i).

Definition lh_block_set (i v : Z) : M unit :=
  l ← get_log;
  a ← of_option (arr_set (lh_block (log_lh l)) i v);
  put_log (set_lh (LogHeader (lh_n (log_lh l)) a) l).

(** ** kernel/log.c *)

Section LogC.

(** Modelled from the spec: param.h and fs.h are not among the sources;
    LOGSIZE, MAXOPBLOCKS and BSIZE are the build-time constants the spec
    calls LOG_CAPACITY, MAX_BLOCKS_PER_OP and the block size. *)
Variables LOGSIZE MAXOPBLOCKS BSIZE : Z.

(** [sizeof(struct logheader)]: one [int] and an array of LOGSIZE [int]s. *)
Definition sizeof_logheader : Z := 4 * (1 + LOGSIZE).

(** [install_trans]: one iteration of the loop. *)
Definition install_trans_body (recovering : Z) (tail : Z) : M unit :=
  l ← get_log;
  lbuf ← bread [] (to_uint (int_wrap (int_wrap (log_start l + tail) + 1)));
  blockno ← lh_block_get tail;
  dbuf ← bread [lbuf] blockno;
  memmove_data dbuf lbuf;;
  bwrite dbuf;;
  (if recovering =? 0 then bunpin dbuf else mret tt);;
  brelse lbuf;;
  brelse dbuf.

Definition install_trans (recovering : Z) : M unit :=
  l ← get_log;
  for_loop (install_trans_body recovering) 0 (Z.to_nat (lh_n (log_lh l))).

Definition read_head : M unit :=
  l ← get_log;
  buf ← bread [] (to_uint (log_start l));
  nv ← hdr_get_n buf;
  set_lh_n nv;;
  for_loop (fun i => v ← hdr_get_block buf i; lh_block_set i v) 0 (Z.to_nat nv);;
  brelse buf.

Definition write_head : M unit :=
  l ← get_log;
  buf ← bread [] (to_uint (log_start l));
  hdr_set_n buf (lh_n (log_lh l));;
  for_loop (fun i => v ← lh_block_get i; hdr_set_block buf i v) 0
           (Z.to_nat (lh_n (log_lh l)));;
  bwrite buf;;
  brelse buf.

Definition recover_from_log : M unit :=
  read_head;;
  install_trans 1;;
  set_lh_n 0;;
  write_head.

(** [initlog(dev, sb)] with [sb->logstart] and [sb->nlog], both [uint],
    stored into the [int] fields [log.start] and [log.size]. *)
Definition initlog (dev sb_logstart sb_nlog : Z) : M unit :=
  if BSIZE <=? sizeof_logheader then panic "initlog: too big logheader"
  else
    l ← get_log;
    put_log (Log (int_wrap sb_logstart) (int_wrap sb_nlog)
                 (log_outstanding l) (log_committing l) dev (log_lh l));;
    recover_from_log.

(** One pass through the body of the [while(1)] of [begin_op], entered with
    the lock held: [true] when the caller was admitted and left the loop,
    [false] when it went to sleep on [&log] (it re-enters the loop when it
    is woken, whatever woke it). *)
Definition begin_op_iter : M bool :=
  l ← get_log;
  if negb (log_committing l =? 0) then
    sleep_log;; mret false
  else if int_wrap (lh_n (log_lh l)
                      + int_wrap (int_wrap (log_outstanding l + 1) * MAXOPBLOCKS))
            >? LOGSIZE then
    sleep_log;; mret false
  else
    put_log (set_outstanding (int_wrap (log_outstanding l + 1)) l);; mret true.

(** [commit] and its first phase. *)
Definition write_log_body (tail : Z) : M unit :=
  l ← get_log;
  to ← bread [] (to_uint (int_wrap (int_wrap (log_start l + tail) + 1)));
  blockno ← lh_block_get tail;
  from ← bread [to] blockno;
  memmove_data to from;;
  bwrite to;;
  brelse from;;
  brelse to.

Definition write_log : M unit :=
  l ← get_log;
  for_loop write_log_body 0 (Z.to_nat (lh_n (log_lh l))).

Definition commit : M unit :=
  l ← get_log;
  if lh_n (log_lh l) >? 0 then
    write_log;;
    write_head;;
    install_trans 0;;
    set_lh_n 0;;
    write_head
  else mret tt.

(** The first locked region of [end_op]; the result is [do_commit]. *)
Definition end_op_locked : M bool :=
  l ← get_log;
  put_log (set_outstanding (int_wrap (log_outstanding l - 1)) l);;
  l ← get_log;
  if negb (log_committing l =? 0) then panic "log.committing"
  else if log_outstanding l =? 0 then
    put_log (set_committing 1 l);; mret true
  else
    wakeup_log;; mret false.

(** The second locked region of [end_op]. *)
Definition end_op_clear : M unit :=
  l ← get_log;
  put_log (set_committing 0 l);;
  wakeup_log.

(** The rest of [end_op] when [do_commit] is set: [commit] runs with the
    lock released, then the second locked region. *)
Definition end_op_commit : M unit :=
  commit;;
  end_op_clear.

Definition end_op : M unit :=
  do_commit ← end_op_locked;
  if do_commit : bool then end_op_commit else mret tt.

(** The scan of [log_write]: the first [i < n] with [block[i] == blockno],
    or [n]; [None] when it reads outside the array. *)
Fixpoint absorb_scan (a : list Z) (blockno : Z) (i : Z) (iters : nat) : option Z :=
  match iters with
  | O => Some i
  | S k =>
      match arr_get a i with
      | Some v => if v =? blockno then Some i else absorb_scan a blockno (i + 1) k
      | None => None
      end
  end.

Definition log_write (b : Z) : M unit :=
  l ← get_log;
  if (LOGSIZE <=? lh_n (log_lh l)) || (int_wrap (log_size l - 1) <=? lh_n (log_lh l)) then
    panic "too big a transaction"
  else if log_outstanding l <? 1 then
    panic "log_write outside of trans"
  else
    i ← of_option (absorb_scan (lh_block (log_lh l)) b 0 (Z.to_nat (lh_n (log_lh l))));
    lh_block_set i b;;
    (if i =? lh_n (log_lh l) then
       bpin b;; set_lh_n (int_wrap (lh_n (log_lh l) + 1))
     else mret tt).

End LogC.

(** ** Callers, crashes and the thread system *)

(** A filesystem operation inside its transaction: it reads a block,
    changes the payload and logs the buffer ([bread], modify [bp->data],
    [log_write(bp)], [brelse(bp)], as the comment above [log_write] asks). *)
Definition tx_write (LOGSIZE : Z) (w : Z * list Z) : M unit :=
  bp ← bread [] (fst w);
  buf_store bp (snd w);;
  log_write LOGSIZE bp;;
  brelse bp.

Fixpoint tx_writes (LOGSIZE : Z) (ws : list (Z * list Z)) : M unit :=
  match ws with
  | [] => mret tt
  | w :: ws' => tx_write LOGSIZE w ;; tx_writes LOGSIZE ws'
  end.

(** The disk after a crash: block writes are synchronous and ordered, so
    the disk holds exactly the writes issued so far. *)
Fixpoint crash_disk (d : Z -> list Z) (evs : list event) : Z -> list Z :=
  match evs with
  | [] => d
  | EvBwrite b x :: evs' => crash_disk (<[b := x]> d) evs'
  | _ :: evs' => crash_disk d evs'
  end.

(** Memory at boot: the global [log] is zero-initialised, nothing is cached
    or pinned. *)
Definition boot_state (LOGSIZE : Z) (d : Z -> list Z) : kstate :=
  KState (Log 0 0 0 0 0 (LogHeader 0 (replicate (Z.to_nat LOGSIZE) 0)))
         d ∅ (fun _ => 0) [] false.

(** Where a thread is with respect to the log. *)
Inductive tstate :=
  | TIdle                      (* outside begin_op .. end_op *)
  | TBegin                     (* inside begin_op, asleep or about to retry *)
  | TInOp (logged : list Z)    (* admitted; the distinct blocks it has logged *)
  | TCommit                    (* in end_op with do_commit set, before commit() *)
  | TClear.                    (* commit() has returned, log.committing still set *)

Record sys := Sys {
  sys_k : kstate;
  sys_threads : list tstate
}.

Definition note_logged (b : Z) (lg : list Z) : list Z :=
  if decide (b ∈ lg) then lg else b :: lg.

(** One atomic step of one thread [t]: a region of log.c run under
    [log.lock], a buffer update by a caller inside its transaction, or the
    call of [commit], which runs without the lock.  Taking [commit] as one
    step loses no interleaving: while a thread is about to commit, every
    step of another thread is a pass through [begin_op] that goes to
    sleep (lemma [commit_runs_alone]).  A panic or a fault halts the
    kernel: there is no step. *)
Inductive sys_step (LOGSIZE MAXOPBLOCKS : Z) : sys -> sys -> Prop :=
  | step_begin_admit t k k' ts :
      ts !! t = Some TIdle \/ ts !! t = Some TBegin ->
      begin_op_iter LOGSIZE MAXOPBLOCKS k = Ok (true, k') ->
      sys_step LOGSIZE MAXOPBLOCKS (Sys k ts) (Sys k' (<[t := TInOp []]> ts))
  | step_begin_sleep t k k' ts :
      ts !! t = Some TIdle \/ ts !! t = Some TBegin ->
      begin_op_iter LOGSIZE MAXOPBLOCKS k = Ok (false, k') ->
      sys_step LOGSIZE MAXOPBLOCKS (Sys k ts) (Sys k' (<[t := TBegin]> ts))
  | step_modify t lg b d k k' ts :
      ts !! t = Some (TInOp lg) ->
      (bp ← bread [] b; buf_store bp d) k = Ok (tt, k') ->
      sys_step LOGSIZE MAXOPBLOCKS (Sys k ts) (Sys k' ts)
  | step_log_write t lg b k k' ts :
      ts !! t = Some (TInOp lg) ->
      log_write LOGSIZE b k = Ok (tt, k') ->
      sys_step LOGSIZE MAXOPBLOCKS (Sys k ts)
               (Sys k' (<[t := TInOp (note_logged b lg)]> ts))
  | step_end_locked t lg do_commit k k' ts :
      ts !! t = Some (TInOp lg) ->
      end_op_locked k = Ok (do_commit, k') ->
      sys_step LOGSIZE MAXOPBLOCKS (Sys k ts)
               (Sys k' (<[t := if do_commit : bool then TCommit else TIdle]> ts))
  | step_commit t k k' ts :
      ts !! t = Some TCommit ->
      commit k = Ok (tt, k') ->
      sys_step LOGSIZE MAXOPBLOCKS (Sys k ts) (Sys k' (<[t := TClear]> ts))
  | step_end_clear t k k' ts :
      ts !! t = Some TClear ->
      end_op_clear k = Ok (tt, k') ->
      sys_step LOGSIZE MAXOPBLOCKS (Sys k ts) (Sys k' (<[t := TIdle]> ts)).

(** The system right after [initlog]: the log is empty and no thread is in
    a filesystem operation. *)
Definition sys_init (LOGSIZE : Z) (s : sys) : Prop :=
  lh_n (log_lh (k_log (sys_k s))) = 0 /\
  length (lh_block (log_lh (k_log (sys_k s)))) = Z.to_nat LOGSIZE /\
  log_outstanding (k_log (sys_k s)) = 0 /\
  log_committing (k_log (sys_k s)) = 0 /\
  Forall (fun t => t = TIdle) (sys_threads s).

(** Every open transaction has logged at most MAXOPBLOCKS distinct blocks. *)
Definition within_budget (MAXOPBLOCKS : Z) (s : sys) : Prop :=
  forall t lg, sys_threads s !! t = Some (TInOp lg) ->
               Z.of_nat (length lg) <= MAXOPBLOCKS.

Definition budget_step (LOGSIZE MAXOPBLOCKS : Z) (s s' : sys) : Prop :=
  sys_step LOGSIZE MAXOPBLOCKS s s' /\ within_budget MAXOPBLOCKS s'.

(** Sums over the thread table. *)
Definition tsum (w : tstate -> Z) (ts : list tstate) : Z :=
  foldr (fun t acc => w t + acc) 0 ts.

Definition w_inop (t : tstate) : Z := match t with TInOp _ => 1 | _ => 0 end.

Definition w_commit (t : tstate) : Z :=
  match t with TCommit | TClear => 1 | _ => 0 end.


(** The log space still held in reserve for an open transaction: the
    MAXOPBLOCKS slots it was admitted with, less the blocks it has logged. *)
Definition w_reserved (MAXOPBLOCKS : Z) (t : tstate) : Z :=
  match t with
  | TInOp lg => MAXOPBLOCKS - Z.of_nat (length lg)
  | _ => 0
  end.

(** ** What the code is specified against *)

(** The logged block numbers of a header: its first [n] slots. *)
Definition logged (l : log_t) : list Z :=
  take (Z.to_nat (lh_n (log_lh l))) (lh_block (log_lh l)).

(** [block[i]] of the in-memory header (0 outside the array). *)
Definition blk (l : log_t) (i : Z) : Z :=
  default 0 (lh_block (log_lh l) !! Z.to_nat i).

(** The header block after [write_head]: the count, the logged block
    numbers, and the old words of the block behind them. *)
Definition hdr_encode (h : logheader) (old : list Z) : list Z :=
  lh_n h :: take (Z.to_nat (lh_n h)) (lh_block h)
         ++ drop (S (Z.to_nat (lh_n h))) old.

(** Copying the payload of [src] over the buffer of [dst] and writing [dst]
    out: what one iteration of [write_log] and of [install_trans] does. *)
Definition copy_post (unpin : bool) (src dst : Z) (s s' : kstate) : Prop :=
  k_log s' = k_log s /\ k_killed s' = k_killed s /\
  (forall b, k_disk s' b = if decide (b = dst) then bview s src else k_disk s b) /\
  (forall b, bview s' b = if decide (b = dst) then bview s src else bview s b) /\
  k_trace s' = k_trace s ++ EvBwrite dst (bview s src)
                          :: (if unpin then [EvBunpin dst] else []) /\
  (forall b, k_pin s' b = if unpin && bool_decide (b = dst)
                          then k_pin s b - 1 else k_pin s b).

(** The events of one copy and of a run of copies [0 .. k-1]. *)
Definition copy_events (unpin : bool) (dst : Z) (d : list Z) : list event :=
  EvBwrite dst d :: (if unpin then [EvBunpin dst] else []).

Definition copy_trace (unpin : bool) (src dst : Z -> Z) (view : Z -> list Z)
    (k : Z) : list event :=
  flat_map (fun j => copy_events unpin (dst j) (view (src j))) (seqZ 0 k).

(** The state after [k] copies with pairwise distinct destinations, none of
    which is a source. *)
Definition copied (unpin : bool) (src dst : Z -> Z) (k : Z) (s s' : kstate) : Prop :=
  k_log s' = k_log s /\ k_killed s' = k_killed s /\
  (forall j, 0 <= j < k ->
     k_disk s' (dst j) = bview s (src j) /\ bview s' (dst j) = bview s (src j) /\
     k_pin s' (dst j) = if unpin then k_pin s (dst j) - 1 else k_pin s (dst j)) /\
  (forall b, (forall j, 0 <= j < k -> dst j <> b) ->
     k_disk s' b = k_disk s b /\ bview s' b = bview s b /\ k_pin s' b = k_pin s b) /\
  k_trace s' = k_trace s ++ copy_trace unpin src dst (bview s) k.

(** The state while [write_head] fills the header buffer: only the cached
    payload [d] of the header block differs from the state [s0]. *)
Definition hdr_filling (s0 s1 : kstate) (d : list Z) : Prop :=
  k_log s1 = k_log s0 /\ k_disk s1 = k_disk s0 /\ k_pin s1 = k_pin s0 /\
  k_trace s1 = k_trace s0 /\ k_killed s1 = k_killed s0 /\
  k_bcache s1 !! log_start (k_log s0) = Some d /\
  (forall b, b <> log_start (k_log s0) -> bview s1 b = bview s0 b).

(** ** The commit engine *)

(** Log slot [j] lives in disk block [log.start + j + 1]. *)
Definition slot (l : log_t) (j : Z) : Z := log_start l + j + 1.

(** A block number that is neither the header block nor a log slot in use. *)
Definition outside_log (l : log_t) (b : Z) : Prop :=
  b < log_start l \/ log_start l + lh_n (log_lh l) < b.

(** What [commit] needs from the state it is called in: the logged block
    numbers fit the array and are pairwise distinct, the log slots in use
    have block numbers an [int] can hold, the home blocks lie outside the
    log (the log area belongs to the log alone), and the header block has
    room for the count and the list. *)
Definition commit_ready (s : kstate) : Prop :=
  0 <= lh_n (log_lh (k_log s)) /\
  (Z.to_nat (lh_n (log_lh (k_log s))) <= length (lh_block (log_lh (k_log s))))%nat /\
  (0 <= log_start (k_log s) /\
   log_start (k_log s) + lh_n (log_lh (k_log s)) < 2147483648) /\
  NoDup (logged (k_log s)) /\
  (forall b, b ∈ logged (k_log s) -> outside_log (k_log s) b) /\
  (Z.to_nat (lh_n (log_lh (k_log s))) < length (bview s (log_start (k_log s))))%nat.

(** The header block written at the commit point and the one written when
    the log is cleared. *)
Definition hdr_commit (s : kstate) : list Z :=
  hdr_encode (log_lh (k_log s)) (bview s (log_start (k_log s))).

Definition hdr_clear (s : kstate) : list Z :=
  hdr_encode (LogHeader 0 (lh_block (log_lh (k_log s)))) (hdr_commit s).

(** The four phases of [commit], as the events they produce. *)
Definition phase_write_log (s : kstate) : list event :=
  flat_map (fun j => [EvBwrite (slot (k_log s) j) (bview s (blk (k_log s) j))])
           (seqZ 0 (lh_n (log_lh (k_log s)))).

Definition phase_install (unpin : bool) (s : kstate) : list event :=
  flat_map (fun j => copy_events unpin (blk (k_log s) j) (bview s (blk (k_log s) j)))
           (seqZ 0 (lh_n (log_lh (k_log s)))).

Definition commit_trace (s : kstate) : list event :=
  phase_write_log s
  ++ [EvBwrite (log_start (k_log s)) (hdr_commit s)]
  ++ phase_install true s
  ++ [EvBwrite (log_start (k_log s)) (hdr_clear s)].

(** The state [commit] returns in, relative to the state [s] it was called
    in: the logged payloads are on disk at their home blocks and in their
    log slots, the header block holds a zero count, every other block is
    untouched, every logged block has been unpinned once, and the
    in-memory count is zero. *)
Definition committed (s s' : kstate) : Prop :=
  k_log s' = set_lh (LogHeader 0 (lh_block (log_lh (k_log s)))) (k_log s) /\
  k_killed s' = k_killed s /\
  k_trace s' = k_trace s ++ commit_trace s /\
  (forall j, 0 <= j < lh_n (log_lh (k_log s)) ->
     k_disk s' (blk (k_log s) j) = bview s (blk (k_log s) j) /\
     bview s' (blk (k_log s) j) = bview s (blk (k_log s) j) /\
     k_pin s' (blk (k_log s) j) = k_pin s (blk (k_log s) j) - 1 /\
     k_disk s' (slot (k_log s) j) = bview s (blk (k_log s) j)) /\
  k_disk s' (log_start (k_log s)) = hdr_clear s /\
  bview s' (log_start (k_log s)) = hdr_clear s /\
  (forall b, b ∉ logged (k_log s) -> k_pin s' b = k_pin s b) /\
  (forall b, b ∉ logged (k_log s) -> outside_log (k_log s) b ->
     k_disk s' b = k_disk s b /\ bview s' b = bview s b).

(** ** The recovery engine *)

(** The block numbers a header block [H] with count [n] lists. *)
Definition hdr_blocks (n : Z) (H : list Z) : list Z :=
  take (Z.to_nat n) (drop 1 H).

Definition hdr_blk (H : list Z) (j : Z) : Z :=
  default 0 (H !! S (Z.to_nat j)).

(** The state [recover_from_log] returns in when the header block [H] on
    disk lists [n] distinct home blocks outside the log. *)
Definition recovered (n : Z) (s s' : kstate) : Prop :=
  let st := log_start (k_log s) in
  let H := bview s st in
  k_log s' = set_lh (LogHeader 0 (hdr_blocks n H ++
               drop (Z.to_nat n) (lh_block (log_lh (k_log s))))) (k_log s) /\
  k_killed s' = k_killed s /\
  (forall b, k_pin s' b = k_pin s b) /\
  k_trace s' = k_trace s
    ++ flat_map (fun j => [EvBwrite (hdr_blk H j) (bview s (st + j + 1))]) (seqZ 0 n)
    ++ [EvBwrite st (0 :: drop 1 H)] /\
  (forall j, 0 <= j < n -> k_disk s' (hdr_blk H j) = bview s (st + j + 1)) /\
  k_disk s' st = 0 :: drop 1 H /\
  (forall b, b ∉ hdr_blocks n H -> b <> st -> k_disk s' b = k_disk s b).

(** What a call of [log_write] that gets past its two panics does: an
    absorbed write leaves the log and the pins alone; a new block is
    appended at slot [n] and pinned. *)
Definition log_write_post (b : Z) (s s' : kstate) : Prop :=
  k_disk s' = k_disk s /\ k_bcache s' = k_bcache s /\ k_killed s' = k_killed s /\
  (((b ∈ logged (k_log s)) /\ k_log s' = k_log s /\ k_pin s' = k_pin s /\
    k_trace s' = k_trace s)
   \/
   ((b ∉ logged (k_log s)) /\
    k_log s' = set_lh (LogHeader (lh_n (log_lh (k_log s)) + 1)
                 (<[Z.to_nat (lh_n (log_lh (k_log s))) := b]>
                    (lh_block (log_lh (k_log s))))) (k_log s) /\
    k_pin s' = <[b := k_pin s b + 1]> (k_pin s) /\
    k_trace s' = k_trace s ++ [EvBpin b])).

(** The invariant of the in-memory header between calls: the count is
    within the array, the block numbers of the log area, [log.size] and
    [log.size - 1] are within the range of an [int], the logged block
    numbers are pairwise distinct and name blocks outside the log area,
    and the slots in use lie within the log area. *)
Definition log_wf (LOGSIZE : Z) (l : log_t) : Prop :=
  0 <= lh_n (log_lh l) <= LOGSIZE /\
  length (lh_block (log_lh l)) = Z.to_nat LOGSIZE /\
  (0 <= log_start l /\ log_start l + LOGSIZE < 2147483648 /\
   -2147483648 < log_size l < 2147483648) /\
  NoDup (logged l) /\
  (lh_n (log_lh l) = 0 \/ lh_n (log_lh l) < log_size l) /\
  (forall b, b ∈ logged l -> b < log_start l \/ log_start l + log_size l <= b).

(** What one [tx_write] does. *)
Definition tx_write_post (b : Z) (d : list Z) (s s' : kstate) : Prop :=
  k_disk s' = k_disk s /\ k_killed s' = k_killed s /\
  (forall b', bview s' b' = if decide (b' = b) then d else bview s b') /\
  (((b ∈ logged (k_log s)) /\ k_log s' = k_log s /\ k_pin s' = k_pin s /\
    k_trace s' = k_trace s)
   \/
   ((b ∉ logged (k_log s)) /\
    k_log s' = set_lh (LogHeader (lh_n (log_lh (k_log s)) + 1)
                 (<[Z.to_nat (lh_n (log_lh (k_log s))) := b]>
                    (lh_block (log_lh (k_log s))))) (k_log s) /\
    k_pin s' = <[b := k_pin s b + 1]> (k_pin s) /\
    k_trace s' = k_trace s ++ [EvBpin b])).

(** The payloads callers have left in the cache. *)
Fixpoint apply_writes (ws : list (Z * list Z)) (v : Z -> list Z) : Z -> list Z :=
  match ws with
  | [] => v
  | w :: ws' => apply_writes ws' (<[fst w := snd w]> v)
  end.

(** What a run of [tx_writes] does: nothing reaches the disk; the blocks
    that were not yet logged are appended to the header in the order of
    their first write, and each of them is pinned once. *)
Definition tx_post (LOGSIZE : Z) (ws : list (Z * list Z)) (s s' : kstate) : Prop :=
  log_wf LOGSIZE (k_log s') /\
  k_disk s' = k_disk s /\ k_killed s' = k_killed s /\
  log_start (k_log s') = log_start (k_log s) /\
  log_size (k_log s') = log_size (k_log s) /\
  log_outstanding (k_log s') = log_outstanding (k_log s) /\
  log_committing (k_log s') = log_committing (k_log s) /\
  (forall b, bview s' b = apply_writes ws (bview s) b) /\
  exists ps,
    logged (k_log s') = logged (k_log s) ++ ps /\
    k_trace s' = k_trace s ++ (EvBpin <$> ps) /\
    (forall b, k_pin s' b = k_pin s b + (if decide (b ∈ ps) then 1 else 0)) /\
    (forall b, b ∈ ps -> b ∈ ws.*1).

(** ** Crashes *)

Definition writes_block (b : Z) (e : event) : Prop :=
  match e with EvBwrite x _ => x = b | _ => False end.

(** The state [initlog] runs recovery in after a reboot on disk [d], for a
    superblock whose [logstart] and [nlog] fit an [int]. *)
Definition mounted (LOGSIZE dev sb_logstart sb_nlog : Z) (d : Z -> list Z) : kstate :=
  set_log (Log sb_logstart sb_nlog 0 0 dev
               (LogHeader 0 (replicate (Z.to_nat LOGSIZE) 0)))
          (boot_state LOGSIZE d).

(** ** Code that leaves the global [log] alone *)

Definition keeps_log {A : Type} (m : M A) : Prop :=
  forall s a s', m s = Ok (a, s') -> k_log s' = k_log s.

(** ** Invariants of the thread system *)

(** The operands of the admission test of [begin_op] are within the range
    of an [int]. *)
Definition admission_in_range (MAXOPBLOCKS : Z) (l : log_t) : Prop :=
  int_ok (log_outstanding l + 1) /\
  int_ok ((log_outstanding l + 1) * MAXOPBLOCKS) /\
  int_ok (lh_n (log_lh l) + (log_outstanding l + 1) * MAXOPBLOCKS).

(** [outstanding] counts the threads inside a transaction, [committing] the
    threads inside [commit] (at most one, and then no transaction is
    open); the count stays within the header array and within the data
    slots of the log; the transactions admitted so far were granted at
    most LOGSIZE blocks; the blocks a thread has logged are in the
    header. *)
Definition sys_inv (LOGSIZE MAXOPBLOCKS : Z) (s : sys) : Prop :=
  let l := k_log (sys_k s) in
  0 <= lh_n (log_lh l) <= LOGSIZE /\
  length (lh_block (log_lh l)) = Z.to_nat LOGSIZE /\
  (lh_n (log_lh l) = 0 \/ lh_n (log_lh l) <= int_wrap (log_size l - 1)) /\
  log_outstanding l * MAXOPBLOCKS <= LOGSIZE /\
  log_outstanding l = tsum w_inop (sys_threads s) /\
  log_committing l = tsum w_commit (sys_threads s) /\
  (log_committing l = 0 \/ (log_committing l = 1 /\ log_outstanding l = 0)) /\
  (forall t lg, sys_threads s !! t = Some (TInOp lg) ->
     NoDup lg /\ forall b, b ∈ lg -> b ∈ logged l).

(** With every transaction within its budget, the count and the space
    still held in reserve fit the log. *)
Definition budget_inv (LOGSIZE MAXOPBLOCKS : Z) (s : sys) : Prop :=
  sys_inv LOGSIZE MAXOPBLOCKS s /\ within_budget MAXOPBLOCKS s /\
  lh_n (log_lh (k_log (sys_k s))) + tsum (w_reserved MAXOPBLOCKS) (sys_threads s)
    <= LOGSIZE.

(** ** Cancellation *)

(** Modelled from the spec: proc.c is not among the sources.  The external
    cancellation signal of the spec is the kill of the waiting process,
    which sets its killed flag and makes it runnable. *)
Definition set_killed (v : bool) (s : kstate) : kstate :=
  KState (k_log s) (k_disk s) (k_bcache s) (k_pin s) (k_trace s) v.

(** The kernel state of a process that an external kill has just woken
    from its sleep in [begin_op], while the log is idle and empty. *)
Definition killed_waiter : kstate :=
  KState (Log 2 30 0 0 1 (LogHeader 0 (replicate 30 0)))
         (fun _ => replicate 256 0) ∅ (fun _ => 0) [EvSleep] true.

(** ** A small machine to run the code on

    LOGSIZE = 3 and BSIZE = 32 (8 words a block); the log lives in blocks
    20 (header) to 23, the files in blocks 5 and 9. *)

Definition ex_disk : Z -> list Z :=
  fun b => if b =? 20 then replicate 8 0 else replicate 8 b.

Definition ex_s0 : kstate :=
  KState (Log 20 4 1 0 1 (LogHeader 0 [0; 0; 0])) ex_disk ∅ (fun _ => 0) [] false.

Definition ex_ws : list (Z * list Z) :=
  [(5, replicate 8 70); (9, replicate 8 80); (5, replicate 8 90)].

Definition run_state {A : Type} (m : M A) (s : kstate) : kstate :=
  match m s with Ok (_, s') => s' | _ => s end.

(** The state at the end of the transaction, when [commit] is called. *)
Definition ex_s1 : kstate := run_state (tx_writes 3 ex_ws) ex_s0.

(** A disk left by a crash after the commit point: the header lists blocks
    5 and 9, whose new payloads are in log slots 21 and 22. *)
Definition ex_crashed : Z -> list Z :=
  fun b => if b =? 20 then [2; 5; 9; 0; 0; 0; 0; 0]
           else if b =? 21 then replicate 8 90
           else if b =? 22 then replicate 8 80
           else replicate 8 b.

(** Two threads and a log area of LOGSIZE = 3 blocks. *)
Definition ex_k0 : kstate :=
  KState (Log 20 3 0 0 1 (LogHeader 0 [0; 0; 0])) ex_disk ∅ (fun _ => 0) [] false.

Definition ex_sys0 : sys := Sys ex_k0 [TIdle; TIdle].

Definition ex_k1 : kstate := run_state (begin_op_iter 3 1) ex_k0.

Definition ex_k2 : kstate := run_state (log_write 3 5) ex_k1.

Definition ex_k3 : kstate := run_state end_op_locked ex_k2.

Definition ex_sys2 : sys := Sys ex_k2 [TInOp [5]; TIdle].

Definition ex_sys3 : sys := Sys ex_k3 [TCommit; TIdle].

Definition ex_k4 : kstate := run_state commit ex_k3.

Definition ex_k5 : kstate := run_state end_op_clear ex_k4.

Definition ex_sys5 : sys := Sys ex_k5 [TIdle; TIdle].

(** Three admitted transactions, one of which has logged a block. *)
Definition ex_three_open : kstate :=
  run_state (log_write 3 5)
    (run_state (begin_op_iter 3 1)
       (run_state (begin_op_iter 3 1) (run_state (begin_op_iter 3 1) ex_k0))).

(** A log whose two data slots are both in use. *)
Definition ex_full : kstate :=
  KState (Log 20 3 1 0 1 (LogHeader 2 [5; 9; 0])) ex_disk ∅ (fun _ => 0) [] false.

(** ** Sequences of calls *)

(** [k] calls of [end_op] in a row, by the threads that close their
    transactions one after the other. *)
Fixpoint end_ops (k : nat) : M unit :=
  match k with
  | O => mret tt
  | S k' => end_op ;; end_ops k'
  end.

(** Code that leaves [log.start], [log.size], [log.dev], [log.outstanding]
    and [log.committing] alone. *)
Definition keeps_geometry {A : Type} (m : M A) : Prop :=
  forall s a s', m s = Ok (a, s') ->
    log_start (k_log s') = log_start (k_log s) /\
    log_size (k_log s') = log_size (k_log s) /\
    log_dev (k_log s') = log_dev (k_log s) /\
    log_outstanding (k_log s') = log_outstanding (k_log s) /\
    log_committing (k_log s') = log_committing (k_log s).


(** ** kernel/kalloc.c *)

(** Physical memory is an array of bytes indexed by address; a pointer is
    the address it holds, 0 for the null pointer.  RISC-V is little-endian:
    the 8 bytes of a pointer are stored lowest byte first. *)
Fixpoint le_bytes (n : nat) (v : Z) : list Z :=
  match n with
  | O => []
  | S k => v mod 256 :: le_bytes k (v / 256)
  end.

Fixpoint le_value (bs : list Z) : Z :=
  match bs with
  | [] => 0
  | b :: bs' => b + 256 * le_value bs'
  end.

Definition store_bytes (m : Z -> Z) (a : Z) (bs : list Z) : Z -> Z :=
  fun x => if (a <=? x) && (x <? a + Z.of_nat (length bs))
           then default 0 (bs !! Z.to_nat (x - a)) else m x.

Definition load_bytes (m : Z -> Z) (a : Z) (n : nat) : list Z :=
  (fun i => m (a + i)) <$> seqZ 0 (Z.of_nat n).

(** Writing and reading a [struct run *] at address [a]. *)
Definition store_ptr (m : Z -> Z) (a v : Z) : Z -> Z := store_bytes m a (le_bytes 8 v).

Definition load_ptr (m : Z -> Z) (a : Z) : Z := le_value (load_bytes m a 8).

(** string.c is not among the sources; [memset(dst, c, n)] is taken with
    the meaning of the C library function: [n] bytes from [dst] on are set
    to [(unsigned char)c]. *)
Definition memset (m : Z -> Z) (dst c n : Z) : Z -> Z :=
  fun x => if (dst <=? x) && (x <? dst + n) then c mod 256 else m x.

(** The allocator's state: [kmem.freelist] and the memory its [struct run]
    nodes live in.  The spinlock [kmem.lock] is not modelled: [kfree] and
    [kalloc] are run one at a time. *)
Record kmem_t := Kmem {
  km_freelist : Z;
  km_mem : Z -> Z
}.

(** riscv.h is not among the sources; the page size is the one the opening
    comment of kalloc.c gives: whole 4096-byte pages. *)
Definition PGSIZE : Z := 4096.

Section KallocC.

(** memlayout.h, riscv.h and kernel.ld are not among the sources: [kend] is
    the linker symbol [end], the first address after the kernel, PHYSTOP
    the end of physical memory, and PGROUNDUP the macro that rounds an
    address up to a page boundary. *)
Variables (kend PHYSTOP : Z) (PGROUNDUP : Z -> Z).

Definition kfree (pa : Z) (s : kmem_t) : result (unit * kmem_t) :=
  if negb (pa mod PGSIZE =? 0) || (pa <? kend) || (PHYSTOP <=? pa) then
    Panic "kfree"
  else
    let m1 := memset (km_mem s) pa 1 PGSIZE in
    let r := pa in
    let m2 := store_ptr m1 r (km_freelist s) in
    Ok (tt, Kmem r m2).

Definition kalloc (s : kmem_t) : result (Z * kmem_t) :=
  let r := km_freelist s in
  let s1 := if r =? 0 then s else Kmem (load_ptr (km_mem s) r) (km_mem s) in
  if r =? 0 then Ok (r, s1)
  else Ok (r, Kmem (km_freelist s1) (memset (km_mem s1) r 5 PGSIZE)).

(** The loop of [freerange], from the rounded-up start [p].  The pointer
    [p + PGSIZE] must exist: past the end of the 64-bit address space the
    behaviour is undefined.  [None] when the fuel runs out before the loop
    ends. *)
Fixpoint freerange_loop (fuel : nat) (p pa_end : Z) (s : kmem_t)
    : option (result (unit * kmem_t)) :=
  match fuel with
  | O => None
  | S k =>
      if 18446744073709551616 <=? p + PGSIZE then Some Fault
      else if p + PGSIZE <=? pa_end then
        match kfree p s with
        | Ok (_, s') => freerange_loop k (p + PGSIZE) pa_end s'
        | Panic msg => Some (Panic msg)
        | Fault => Some Fault
        | Blocked => Some Blocked
        end
      else Some (Ok (tt, s))
  end.

(** Every iteration moves [p] up by a page, so [pa_end - p] iterations and
    one more test are enough. *)
Definition freerange (pa_start pa_end : Z) (s : kmem_t)
    : option (result (unit * kmem_t)) :=
  let p := PGROUNDUP (pa_start mod 18446744073709551616) in
  freerange_loop (S (Z.to_nat (pa_end - p))) p pa_end s.

Definition kinit (s : kmem_t) : option (result (unit * kmem_t)) :=
  freerange kend PHYSTOP s.

End KallocC.

(** ** What the allocator is specified against *)

(** A page the allocator may hold: page-aligned, inside the memory after
    the kernel. *)
Definition page_ok (kend PHYSTOP p : Z) : Prop :=
  p mod PGSIZE = 0 /\ kend <= p < PHYSTOP.

(** The free list as a list of pages: [head] points to the first, each
    page's first 8 bytes point to the next, the last holds the null
    pointer. *)
Fixpoint freelist_rep (m : Z -> Z) (head : Z) (pages : list Z) : Prop :=
  match pages with
  | [] => head = 0
  | p :: ps => head = p /\ p <> 0 /\ freelist_rep m (load_ptr m p) ps
  end.

(** The allocator's invariant: the free list is a list of pairwise distinct
    pages the allocator may hold. *)
Definition kmem_inv (kend PHYSTOP : Z) (s : kmem_t) (pages : list Z) : Prop :=
  freelist_rep (km_mem s) (km_freelist s) pages /\
  NoDup pages /\ Forall (page_ok kend PHYSTOP) pages.

(** [k] pages in a row from [p] on. *)
Fixpoint page_seq (p : Z) (k : nat) : list Z :=
  match k with
  | O => []
  | S k' => p :: page_seq (p + PGSIZE) k'
  end.

(** [k] calls of [kalloc] in a row: the pages returned, first call first. *)
Fixpoint kallocs (k : nat) (s : kmem_t) : list Z * kmem_t :=
  match k with
  | O => ([], s)
  | S k' =>
      match kalloc s with
      | Ok (r, s') => let '(rs, s'') := kallocs k' s' in (r :: rs, s'')
      | _ => ([], s)
      end
  end.

(** ** kernel/console.c *)

(** What the console does to its collaborators, in program order: the
    characters handed to [uartputc_sync] and to [uartputc], calls of
    [procdump], bytes copied out to the caller of [consoleread], and the
    sleep and wakeup calls on the channel [&cons.r]. *)
Inductive con_event :=
  | CoPutcSync (c : Z)
  | CoPutc (c : Z)
  | CoProcdump
  | CoCopyout (dst : Z) (c : Z)
  | CoSleep
  | CoWakeup.

(** The global [cons] without its spinlock, the history of events, and the
    killed flag of the process that reads.  [buf] holds [char]s, which are
    unsigned in the RISC-V ABI: values 0 to 255.  [r], [w] and [e] are
    [uint]s and wrap around at 2^32. *)
Record con_t := Con {
  c_buf : list Z;
  c_r : Z;
  c_w : Z;
  c_e : Z;
  c_out : list con_event;
  c_killed : bool
}.

Definition INPUT_BUF_SIZE : Z := 128.

Definition BACKSPACE : Z := 256.

(** [C(x)], Control-x: [(x) - '@']. *)
Definition ctrl (x : Z) : Z := x - 64.

Definition con_emit (e : con_event) (s : con_t) : con_t :=
  Con (c_buf s) (c_r s) (c_w s) (c_e s) (c_out s ++ [e]) (c_killed s).

Definition con_set_r (v : Z) (s : con_t) : con_t :=
  Con (c_buf s) v (c_w s) (c_e s) (c_out s) (c_killed s).

Definition con_set_w (v : Z) (s : con_t) : con_t :=
  Con (c_buf s) (c_r s) v (c_e s) (c_out s) (c_killed s).

Definition con_set_e (v : Z) (s : con_t) : con_t :=
  Con (c_buf s) (c_r s) (c_w s) v (c_out s) (c_killed s).

Definition con_set_buf (b : list Z) (s : con_t) : con_t :=
  Con b (c_r s) (c_w s) (c_e s) (c_out s) (c_killed s).

(** [cons.buf[i % INPUT_BUF_SIZE]], read and written. *)
Definition con_buf_get (s : con_t) (i : Z) : Z :=
  default 0 (c_buf s !! Z.to_nat (i mod INPUT_BUF_SIZE)).

Definition con_buf_put (i c : Z) (s : con_t) : con_t :=
  con_set_buf (<[Z.to_nat (i mod INPUT_BUF_SIZE) := c mod 256]> (c_buf s)) s.

Definition consputc (c : Z) (s : con_t) : con_t :=
  if c =? BACKSPACE then
    con_emit (CoPutcSync 8) (con_emit (CoPutcSync 32) (con_emit (CoPutcSync 8) s))
  else con_emit (CoPutcSync c) s.

(** The loop of the kill-line case of [consoleintr].  Every iteration
    takes [cons.e] one step towards [cons.w], so the distance between them
    is fuel enough; [None] when the fuel runs out. *)
Fixpoint kill_line (fuel : nat) (s : con_t) : option con_t :=
  if negb (c_e s =? c_w s) && negb (con_buf_get s (to_uint (c_e s - 1)) =? 10) then
    match fuel with
    | O => None
    | S k => kill_line k (consputc BACKSPACE (con_set_e (to_uint (c_e s - 1)) s))
    end
  else Some s.

Definition consoleintr (c : Z) (s : con_t) : option con_t :=
  if c =? ctrl 80 then Some (con_emit CoProcdump s)
  else if c =? ctrl 85 then kill_line (Z.to_nat (to_uint (c_e s - c_w s))) s
  else if (c =? ctrl 72) || (c =? 127) then
    if negb (c_e s =? c_w s) then
      Some (consputc BACKSPACE (con_set_e (to_uint (c_e s - 1)) s))
    else Some s
  else if negb (c =? 0) && (to_uint (c_e s - c_r s) <? INPUT_BUF_SIZE) then
    let c := if c =? 13 then 10 else c in
    let s1 := consputc c s in
    let s2 := con_set_e (to_uint (c_e s1 + 1)) (con_buf_put (c_e s1) c s1) in
    if (c =? 10) || (c =? ctrl 68) || (to_uint (c_e s2 - c_r s2) =? INPUT_BUF_SIZE) then
      Some (con_emit CoWakeup (con_set_w (c_e s2) s2))
    else Some s2
  else Some s.

(** How a call of [consoleread] ends: it returns, or it is asleep in
    [sleep(&cons.r, &cons.lock)] with its locals [n] and [dst]; when it is
    woken it goes on at the test of the inner loop. *)
Inductive read_result :=
  | RDone (ret : Z)
  | RSleep (n dst : Z).

Section ConsoleC.

(** proc.c is not among the sources.  [either_copyout] and [either_copyin]
    move one byte to or from the caller's buffer and return -1 when the
    address is bad: [copyout_ok user_dst dst] tells whether the copy to
    [dst] succeeds, [copyin user_src src] is the byte at [src], if any. *)
Variables (copyout_ok : Z -> Z -> bool) (copyin : Z -> Z -> option Z).

(** [return target - n]: a [uint] difference, returned as an [int]. *)
Definition consoleread_ret (target n : Z) : Z := int_wrap (to_uint (target - n)).

(** The outer loop of [consoleread].  Every iteration that goes round
    again has decremented [n], so [n] is fuel enough. *)
Fixpoint consoleread_loop (fuel : nat) (user_dst target n dst : Z) (s : con_t)
    : option (read_result * con_t) :=
  if n >? 0 then
    if c_r s =? c_w s then
      if c_killed s then Some (RDone (-1), s)
      else Some (RSleep n dst, con_emit CoSleep s)
    else
      match fuel with
      | O => None
      | S k =>
          let c := con_buf_get s (c_r s) in
          let s1 := con_set_r (to_uint (c_r s + 1)) s in
          if c =? ctrl 68 then
            if to_uint n <? target then
              Some (RDone (consoleread_ret target n),
                    con_set_r (to_uint (c_r s1 - 1)) s1)
            else Some (RDone (consoleread_ret target n), s1)
          else if negb (copyout_ok user_dst dst) then
            Some (RDone (consoleread_ret target n), s1)
          else
            let s2 := con_emit (CoCopyout dst c) s1 in
            let dst' := (dst + 1) mod 18446744073709551616 in
            let n' := int_wrap (n - 1) in
            if c =? 10 then Some (RDone (consoleread_ret target n'), s2)
            else consoleread_loop k user_dst target n' dst' s2
      end
  else Some (RDone (consoleread_ret target n), s).

Definition consoleread (user_dst dst n : Z) (s : con_t)
    : option (read_result * con_t) :=
  consoleread_loop (Z.to_nat n) user_dst (to_uint n) n dst s.

(** [consolewrite]: the loop runs at most [n] times. *)
Fixpoint consolewrite_loop (iters : nat) (user_src src i : Z) (s : con_t)
    : Z * con_t :=
  match iters with
  | O => (i, s)
  | S k =>
      match copyin user_src ((src + i) mod 18446744073709551616) with
      | None => (i, s)
      | Some c => consolewrite_loop k user_src src (int_wrap (i + 1)) (con_emit (CoPutc c) s)
      end
  end.

Definition consolewrite (user_src src n : Z) (s : con_t) : Z * con_t :=
  consolewrite_loop (Z.to_nat n) user_src src 0 s.

End ConsoleC.

(** ** What the console is specified against *)

(** The [k] characters of the ring buffer from index [from] on, oldest
    first. *)
Fixpoint con_span (s : con_t) (from : Z) (k : nat) : list Z :=
  match k with
  | O => []
  | S k' => con_buf_get s from :: con_span s (from + 1) k'
  end.

(** The bytes of [l] copied out one by one to [dst], [dst + 1], ... *)
Fixpoint copyouts (dst : Z) (l : list Z) : list con_event :=
  match l with
  | [] => []
  | c :: l' => CoCopyout dst c :: copyouts ((dst + 1) mod 18446744073709551616) l'
  end.

(** The echo of one erased character. *)
Definition erase_echo : list con_event := [CoPutcSync 8; CoPutcSync 32; CoPutcSync 8].

(** The console's invariant: the buffer has its 128 cells, the indices are
    [uint]s in the order r, w, e with at most 128 characters between [r]
    and [e], and the characters typed since the last commit hold neither a
    newline nor a Control-D. *)
Definition cons_inv (s : con_t) : Prop :=
  length (c_buf s) = 128%nat /\
  0 <= c_r s < 4294967296 /\ 0 <= c_w s < 4294967296 /\ 0 <= c_e s < 4294967296 /\
  to_uint (c_w s - c_r s) + to_uint (c_e s - c_w s) = to_uint (c_e s - c_r s) /\
  to_uint (c_e s - c_r s) <= 128 /\
  (forall i, 0 <= i < to_uint (c_e s - c_w s) ->
     con_buf_get s (c_w s + i) <> 10 /\ con_buf_get s (c_w s + i) <> 4).

(** An input character that [consoleintr] stores as it is and that does
    not end the line. *)
Definition plain_char (c : Z) : Prop :=
  0 < c < 256 /\ c <> 16 /\ c <> 21 /\ c <> 8 /\ c <> 127 /\
  c <> 13 /\ c <> 10 /\ c <> 4.

(** The interrupt handler called on each character of [cs] in turn. *)
Fixpoint consoleintrs (cs : list Z) (s : con_t) : option con_t :=
  match cs with
  | [] => Some s
  | c :: cs' =>
      match consoleintr c s with
      | Some s' => consoleintrs cs' s'
      | None => None
      end
  end.

(** ** kernel/file.h *)

(** The device-number macros.  [dev] is a [uint], as in [struct inode];
    the arguments of [mkdev] are [int]s (the [short] fields [major] and
    [minor] are promoted), so the shift is an [int] shift, and the cast to
    [uint] is the last step. *)
Definition major (dev : Z) : Z := Z.land (Z.shiftr dev 16) 65535.

Definition minor (dev : Z) : Z := Z.land dev 65535.

Definition mkdev (m n : Z) : Z := to_uint (Z.lor (int_wrap (Z.shiftl m 16)) n).

(** ** More small instances *)

(** A header block that lists log slot 0, block 21, as the home block of
    the payload that is in that slot. *)
Definition ex_self_home : Z -> list Z :=
  fun b => if b =? 20 then [1; 21; 0; 0; 0; 0; 0; 0] else replicate 8 b.

(** Three threads on the log of LOGSIZE = 3: at boot, and after all three
    have been admitted with MAXOPBLOCKS = 1 and the first has logged block
    5. *)
Definition ex_sys0_three : sys := Sys ex_k0 [TIdle; TIdle; TIdle].

Definition ex_sys_three_open : sys :=
  Sys ex_three_open [TInOp [5]; TInOp []; TInOp []].

(** A header block whose count is larger than the array of the header,
    and one whose count is negative. *)
Definition ex_bad_count : Z -> list Z :=
  fun b => if b =? 20 then [7; 5; 9; 0; 0; 0; 0; 0] else replicate 8 b.

Definition ex_neg_count : Z -> list Z :=
  fun b => if b =? 20 then [-1; 5; 9; 0; 0; 0; 0; 0] else replicate 8 b.

(** A kernel that ends at address 8292 in a memory of five pages: the
    allocator owns the pages at 12288 and 16384. *)
Definition ex_kend : Z := 8292.

Definition ex_PHYSTOP : Z := 20480.

Definition ex_PGROUNDUP (a : Z) : Z := (a + PGSIZE - 1) / PGSIZE * PGSIZE.

Definition ex_kmem0 : kmem_t := Kmem 0 (fun _ => 0).

(** The allocator after [kfree] of the page at 12288. *)
Definition ex_kmem1 : kmem_t :=
  Kmem 12288 (store_ptr (memset (fun _ => 0) 12288 1 PGSIZE) 12288 0).

(** An empty console whose indices are about to wrap around, and the
    letters h and i. *)
Definition ex_con0 : con_t :=
  Con (replicate 128 0) 4294967295 4294967295 4294967295 [] false.

Definition ex_hi : list Z := [104; 105].

(** A console on which [hi] has been typed and not yet committed. *)
Definition ex_con_pending : con_t :=
  Con ([104; 105] ++ replicate 126 0) 0 0 2 [] false.

(** A console with the committed line [hi\n], and one whose committed
    input [hi] has no newline and whose reader has been killed. *)
Definition ex_con_line : con_t :=
  Con ([104; 105; 10] ++ replicate 125 0) 0 3 3 [] false.

Definition ex_con_dry : con_t :=
  Con ([104; 105] ++ replicate 126 0) 0 2 2 [] true.

(** A caller's buffer that is readable and writable below address 1002. *)
Definition ex_copyout_ok (user_dst dst : Z) : bool := dst <? 1002.

Definition ex_copyin (user_src src : Z) : option Z :=
  if src <? 1002 then Some (src - 900) else None.

(** ** Machine integers *)

Lemma int_wrap_id z : int_ok z -> int_wrap z = z.
Proof.
  unfold int_ok, int_wrap. intros Hz.
  rewrite Z.mod_small by lia. lia.
Qed.

Lemma int_wrap_ok z : int_ok (int_wrap z).
Proof.
  unfold int_ok, int_wrap.
  pose proof (Z.mod_pos_bound (z + 2147483648) 4294967296 ltac:(lia)). lia.
Qed.

Lemma to_uint_id z : 0 <= z < 4294967296 -> to_uint z = z.
Proof. unfold to_uint. intros Hz. by rewrite Z.mod_small. Qed.

(** The block of a log slot, as the code computes it. *)
Lemma slot_code st tail :
  0 <= st -> 0 <= tail -> st + tail + 1 < 2147483648 ->
  to_uint (int_wrap (int_wrap (st + tail) + 1)) = st + tail + 1.
Proof.
  intros Hst Htail Hmax.
  rewrite (int_wrap_id (st + tail)) by (unfold int_ok; lia).
  rewrite int_wrap_id by (unfold int_ok; lia).
  apply to_uint_id. lia.
Qed.

(** ** Reasoning about monadic code *)

Lemma bind_ok {A B : Type} (m : M A) (f : A -> M B) s a s1 :
  m s = Ok (a, s1) -> (m ≫= f) s = f a s1.
Proof. intros H. unfold mbind, M_bind. by rewrite H. Qed.

Lemma bind_inv {A B : Type} (m : M A) (f : A -> M B) s b s2 :
  (m ≫= f) s = Ok (b, s2) ->
  exists a s1, m s = Ok (a, s1) /\ f a s1 = Ok (b, s2).
Proof.
  unfold mbind, M_bind. destruct (m s) as [[a s1]| | |]; [|done..].
  intros H. by exists a, s1.
Qed.

(** The rule for counted loops: an invariant indexed by the number of
    completed iterations. *)
Lemma for_loop_inv (body : Z -> M unit) (Inv : nat -> kstate -> Prop) :
  forall iters i s,
    Inv O s ->
    (forall j s1, (j < iters)%nat -> Inv j s1 ->
       exists s2, body (i + Z.of_nat j) s1 = Ok (tt, s2) /\ Inv (S j) s2) ->
    exists s', for_loop body i iters s = Ok (tt, s') /\ Inv iters s'.
Proof.
  intros iters. revert Inv. induction iters as [|k IH]; intros Inv i s H0 Hstep.
  - exists s. done.
  - destruct (Hstep O s) as (s1 & Hb & H1); [lia | done |].
    rewrite Z.add_0_r in Hb.
    destruct (IH (fun j => Inv (S j)) (i + 1) s1) as (s' & Hl & Hk); [done | |].
    + intros j s2 Hj Hinv.
      destruct (Hstep (S j) s2) as (s3 & Hb3 & H3); [lia | done |].
      exists s3. split; [|done].
      rewrite <- Hb3. f_equal. lia.
    + exists s'. split; [|done].
      simpl. by rewrite (bind_ok _ _ _ _ _ Hb).
Qed.

(** ** The buffer cache seen through [bview] *)

Lemma bread_held_ok held b s :
  b ∉ held ->
  exists s', bread held b s = Ok (b, s') /\
    k_bcache s' !! b = Some (bview s b) /\
    (forall b' d, k_bcache s !! b' = Some d -> k_bcache s' !! b' = Some d) /\
    k_log s' = k_log s /\ k_disk s' = k_disk s /\ k_pin s' = k_pin s /\
    k_trace s' = k_trace s /\ k_killed s' = k_killed s /\
    (forall b', bview s' b' = bview s b').
Proof.
  intros Hheld. unfold bread, bview.
  destruct (decide (b ∈ held)) as [|_]; [done|].
  destruct (k_bcache s !! b) as [d|] eqn:E.
  - exists s. rewrite E. done.
  - eexists. split; [done|]. simpl. rewrite lookup_insert_eq.
    repeat split; try done.
    + intros b' d Hb'. rewrite lookup_insert_ne; [done|]. congruence.
    + intros b'. destruct (decide (b = b')) as [->|Hne].
      * by rewrite lookup_insert_eq, E.
      * by rewrite lookup_insert_ne.
Qed.

Lemma bread_ok b s :
  exists s', bread [] b s = Ok (b, s') /\
    k_bcache s' !! b = Some (bview s b) /\
    (forall b' d, k_bcache s !! b' = Some d -> k_bcache s' !! b' = Some d) /\
    k_log s' = k_log s /\ k_disk s' = k_disk s /\ k_pin s' = k_pin s /\
    k_trace s' = k_trace s /\ k_killed s' = k_killed s /\
    (forall b', bview s' b' = bview s b').
Proof. apply bread_held_ok, not_elem_of_nil. Qed.

Lemma bread_blocked b s : bread [b] b s = Blocked.
Proof.
  unfold bread. destruct (decide (b ∈ [b])) as [|Hn]; [done|].
  exfalso. apply Hn. by left.
Qed.

Lemma copy_step_ok (unpin : bool) (src dst : Z) s s2 :
  k_bcache s2 !! src = Some (bview s src) ->
  is_Some (k_bcache s2 !! dst) ->
  (forall b, bview s2 b = bview s b) ->
  k_log s2 = k_log s -> k_disk s2 = k_disk s -> k_pin s2 = k_pin s ->
  k_trace s2 = k_trace s -> k_killed s2 = k_killed s ->
  exists s',
    (memmove_data dst src;; bwrite dst;;
     (if unpin then bunpin dst else mret tt)) s2 = Ok (tt, s') /\
    copy_post unpin src dst s s'.
Proof.
  intros Hsrc [d0 Hdst] Hv Hl Hd Hp Ht Hk.
  unfold memmove_data, bwrite, buf_data, buf_store, disk_write, mbind, M_bind, mret, M_ret.
  rewrite Hsrc, Hdst. simpl. rewrite lookup_insert_eq.
  assert (Hview : forall b x, default x (<[dst := bview s src]> (k_bcache s2) !! b) =
                    if decide (b = dst) then bview s src else
                      default x (k_bcache s2 !! b)).
  { intros b x. destruct (decide (b = dst)) as [->|Hne].
    - by rewrite lookup_insert_eq.
    - by rewrite lookup_insert_ne. }
  assert (Hdisk : forall b, <[dst := bview s src]> (k_disk s2) b =
                    if decide (b = dst) then bview s src else k_disk s b).
  { intros b. destruct (decide (b = dst)) as [->|Hne].
    - by rewrite fn_lookup_insert.
    - rewrite fn_lookup_insert_ne by done. by rewrite Hd. }
  destruct unpin; simpl; eexists; (split; [reflexivity|]);
    unfold copy_post; simpl; (split; [done|]); (split; [done|]);
    (split; [exact Hdisk|]); (split; [|split]).
  - intros b. unfold bview at 1. simpl. rewrite Hview.
    destruct (decide (b = dst)) as [->|Hne]; [done|].
    rewrite fn_lookup_insert_ne by done. apply Hv.
  - rewrite Ht, <- app_assoc. done.
  - intros b. destruct (decide (b = dst)) as [->|Hne].
    + rewrite bool_decide_eq_true_2 by done. rewrite fn_lookup_insert. by rewrite Hp.
    + rewrite bool_decide_eq_false_2 by done. rewrite fn_lookup_insert_ne by done.
      by rewrite Hp.
  - intros b. unfold bview at 1. simpl. rewrite Hview.
    destruct (decide (b = dst)) as [->|Hne]; [done|].
    rewrite fn_lookup_insert_ne by done. apply Hv.
  - by rewrite Ht.
  - intros b. by rewrite Hp.
Qed.

Lemma lh_block_get_ok i s v :
  arr_get (lh_block (log_lh (k_log s))) i = Some v ->
  lh_block_get i s = Ok (v, s).
Proof.
  intros H. unfold lh_block_get, get_log, mbind, M_bind. by rewrite H.
Qed.

Lemma arr_get_blk l i :
  0 <= i < Z.of_nat (length (lh_block (log_lh l))) ->
  arr_get (lh_block (log_lh l)) i = Some (blk l i).
Proof.
  intros Hi. unfold arr_get, blk.
  destruct (Z.leb_spec 0 i); [|lia].
  destruct (lookup_lt_is_Some_2 (lh_block (log_lh l)) (Z.to_nat i)) as [v Hv]; [lia|].
  by rewrite Hv.
Qed.

Lemma install_trans_body_ok recovering tail s :
  0 <= tail < Z.of_nat (length (lh_block (log_lh (k_log s)))) ->
  0 <= log_start (k_log s) ->
  log_start (k_log s) + tail + 1 < 2147483648 ->
  blk (k_log s) tail <> log_start (k_log s) + tail + 1 ->
  exists s', install_trans_body recovering tail s = Ok (tt, s') /\
    copy_post (recovering =? 0) (log_start (k_log s) + tail + 1)
              (blk (k_log s) tail) s s'.
Proof.
  intros Hi Hst Hmax Hself. unfold install_trans_body.
  rewrite (bind_ok get_log _ s (k_log s) s) by done.
  rewrite slot_code by lia.
  destruct (bread_ok (log_start (k_log s) + tail + 1) s)
    as (s1 & Hb1 & Hc1 & Hk1 & Hl1 & Hd1 & Hp1 & Ht1 & Hkl1 & Hv1).
  rewrite (bind_ok _ _ _ _ _ Hb1).
  rewrite (bind_ok _ _ s1 (blk (k_log s) tail) s1)
    by (apply lh_block_get_ok; rewrite Hl1; by apply arr_get_blk).
  destruct (bread_held_ok [log_start (k_log s) + tail + 1] (blk (k_log s) tail) s1)
    as (s2 & Hb2 & Hc2 & Hk2 & Hl2 & Hd2 & Hp2 & Ht2 & Hkl2 & Hv2).
  { intros Hin. by apply list_elem_of_singleton in Hin. }
  rewrite (bind_ok _ _ _ _ _ Hb2).
  destruct (copy_step_ok (recovering =? 0) (log_start (k_log s) + tail + 1)
              (blk (k_log s) tail) s s2) as (s' & Hrun & Hpost).
  - by apply Hk2.
  - by eexists.
  - intros b. by rewrite Hv2, Hv1.
  - congruence.
  - congruence.
  - congruence.
  - congruence.
  - congruence.
  - exists s'. split; [|done].
    unfold brelse. revert Hrun. unfold mbind, M_bind, mret, M_ret.
    destruct (memmove_data _ _ s2) as [[[] s3]| | |]; [|done..].
    destruct (bwrite _ s3) as [[[] s4]| | |]; [|done..].
    destruct (recovering =? 0).
    + destruct (bunpin _ s4) as [[[] s5]| | |]; [|done..]. done.
    + done.
Qed.

Lemma write_log_body_ok tail s :
  0 <= tail < Z.of_nat (length (lh_block (log_lh (k_log s)))) ->
  0 <= log_start (k_log s) ->
  log_start (k_log s) + tail + 1 < 2147483648 ->
  blk (k_log s) tail <> log_start (k_log s) + tail + 1 ->
  exists s', write_log_body tail s = Ok (tt, s') /\
    copy_post false (blk (k_log s) tail) (log_start (k_log s) + tail + 1) s s'.
Proof.
  intros Hi Hst Hmax Hself. unfold write_log_body.
  rewrite (bind_ok get_log _ s (k_log s) s) by done.
  rewrite slot_code by lia.
  destruct (bread_ok (log_start (k_log s) + tail + 1) s)
    as (s1 & Hb1 & Hc1 & Hk1 & Hl1 & Hd1 & Hp1 & Ht1 & Hkl1 & Hv1).
  rewrite (bind_ok _ _ _ _ _ Hb1).
  rewrite (bind_ok _ _ s1 (blk (k_log s) tail) s1)
    by (apply lh_block_get_ok; rewrite Hl1; by apply arr_get_blk).
  destruct (bread_held_ok [log_start (k_log s) + tail + 1] (blk (k_log s) tail) s1)
    as (s2 & Hb2 & Hc2 & Hk2 & Hl2 & Hd2 & Hp2 & Ht2 & Hkl2 & Hv2).
  { intros Hin. by apply list_elem_of_singleton in Hin. }
  rewrite (bind_ok _ _ _ _ _ Hb2).
  destruct (copy_step_ok false (blk (k_log s) tail)
              (log_start (k_log s) + tail + 1) s s2) as (s' & Hrun & Hpost).
  - by rewrite Hc2, Hv1.
  - eexists. by apply Hk2.
  - intros b. by rewrite Hv2, Hv1.
  - congruence.
  - congruence.
  - congruence.
  - congruence.
  - congruence.
  - exists s'. split; [|done].
    unfold brelse. revert Hrun. unfold mbind, M_bind, mret, M_ret.
    destruct (memmove_data _ _ s2) as [[[] s3]| | |]; [|done..].
    destruct (bwrite _ s3) as [[[] s4]| | |]; [|done..]. done.
Qed.

Lemma seqZ_snoc (m : nat) : seqZ 0 (Z.of_nat (S m)) = seqZ 0 (Z.of_nat m) ++ [Z.of_nat m].
Proof.
  replace (Z.of_nat (S m)) with (Z.of_nat m + 1) by lia.
  rewrite seqZ_app by lia. f_equal.
Qed.

Lemma copy_trace_snoc unpin src dst view (m : nat) :
  copy_trace unpin src dst view (Z.of_nat (S m)) =
  copy_trace unpin src dst view (Z.of_nat m)
    ++ copy_events unpin (dst (Z.of_nat m)) (view (src (Z.of_nat m))).
Proof.
  unfold copy_trace. rewrite seqZ_snoc, flat_map_app. simpl.
  by rewrite app_nil_r.
Qed.

Lemma copy_loop_ok (body : Z -> M unit) (unpin : bool) (src dst : Z -> Z)
    (iters : nat) (s : kstate) :
  (forall j s1, 0 <= j < Z.of_nat iters -> k_log s1 = k_log s ->
     exists s2, body j s1 = Ok (tt, s2) /\ copy_post unpin (src j) (dst j) s1 s2) ->
  (forall i j, 0 <= i < Z.of_nat iters -> 0 <= j < Z.of_nat iters ->
     dst i = dst j -> i = j) ->
  (forall i j, 0 <= i < Z.of_nat iters -> 0 <= j < Z.of_nat iters ->
     src i <> dst j) ->
  exists s', for_loop body 0 iters s = Ok (tt, s') /\
             copied unpin src dst (Z.of_nat iters) s s'.
Proof.
  intros Hbody Hinj Hsep.
  apply (for_loop_inv body (fun m s1 => copied unpin src dst (Z.of_nat m) s s1)).
  - unfold copied, copy_trace. repeat split; try done; try lia.
    by rewrite app_nil_r.
  - intros m s1 Hm (Hl & Hk & Hdst & Hoth & Htr).
    destruct (Hbody (Z.of_nat m) s1) as (s2 & Hrun & Hl2 & Hk2 & Hd2 & Hv2 & Ht2 & Hp2);
      [lia | done |].
    exists s2. split; [by rewrite Z.add_0_l|].
    assert (Hsrc : bview s1 (src (Z.of_nat m)) = bview s (src (Z.of_nat m))).
    { apply Hoth. intros j Hj Heq. apply (Hsep (Z.of_nat m) j); [lia | lia | done]. }
    unfold copied. split; [congruence|]. split; [congruence|]. split; [|split].
    + intros j Hj. rewrite Hd2, Hv2, Hp2.
      destruct (decide (dst j = dst (Z.of_nat m))) as [He|Hne].
      * assert (j = Z.of_nat m) as -> by (apply Hinj; [lia | lia | done]).
        rewrite bool_decide_eq_true_2 by done. rewrite Hsrc.
        destruct unpin; simpl; repeat split; try done.
        all: destruct (Hoth (dst (Z.of_nat m))) as (_ & _ & Hpin); [|by rewrite Hpin].
        all: intros j' Hj' Heq; apply Hinj in Heq; lia.
      * rewrite bool_decide_eq_false_2 by done. rewrite andb_false_r.
        assert (j <> Z.of_nat m) by congruence.
        apply Hdst. lia.
    + intros b Hb. rewrite Hd2, Hv2, Hp2.
      destruct (decide (b = dst (Z.of_nat m))) as [->|Hne].
      * exfalso. apply (Hb (Z.of_nat m)); [lia | done].
      * rewrite bool_decide_eq_false_2 by done. rewrite andb_false_r.
        apply Hoth. intros j Hj. apply Hb. lia.
    + rewrite Ht2, Htr, copy_trace_snoc, Hsrc, <- app_assoc. done.
Qed.

(** ** The header codec *)

Lemma insert_hdr_slot (n v : Z) (B d0 : list Z) (m : nat) :
  B !! m = Some v -> (S m < length d0)%nat ->
  <[S m := v]> (n :: take m B ++ drop (S m) d0) =
  n :: take (S m) B ++ drop (S (S m)) d0.
Proof.
  intros HB Hd. simpl. f_equal.
  assert (HmB : (m < length B)%nat) by (by eapply lookup_lt_Some).
  rewrite insert_app_r_alt by (rewrite length_take; lia).
  rewrite length_take, Nat.min_l by lia. rewrite Nat.sub_diag.
  destruct (lookup_lt_is_Some_2 d0 (S m)) as [y Hy]; [lia|].
  rewrite (drop_S d0 y (S m)) by done. simpl.
  rewrite (take_S_r B m v) by done. by rewrite <- app_assoc.
Qed.

Lemma insert_lh_slot (v : Z) (D B : list Z) (m : nat) :
  D !! m = Some v -> (m < length B)%nat ->
  <[m := v]> (take m D ++ drop m B) = take (S m) D ++ drop (S m) B.
Proof.
  intros HD HB.
  assert (HmD : (m < length D)%nat) by (by eapply lookup_lt_Some).
  rewrite insert_app_r_alt by (rewrite length_take; lia).
  rewrite length_take, Nat.min_l by lia. rewrite Nat.sub_diag.
  destruct (lookup_lt_is_Some_2 B m) as [y Hy]; [lia|].
  rewrite (drop_S B y m) by done. simpl.
  rewrite (take_S_r D m v) by done. by rewrite <- app_assoc.
Qed.

Lemma hdr_filling_store s0 s1 d d' :
  hdr_filling s0 s1 d ->
  exists s2, buf_store (log_start (k_log s0)) d' s1 = Ok (tt, s2) /\
             hdr_filling s0 s2 d'.
Proof.
  intros (Hl & Hd & Hp & Ht & Hk & Hc & Hv).
  unfold buf_store. rewrite Hc. eexists. split; [done|].
  unfold hdr_filling. simpl. rewrite lookup_insert_eq.
  repeat split; try done.
  intros b Hb. rewrite <- (Hv b Hb). unfold bview. simpl.
  by rewrite lookup_insert_ne.
Qed.

Lemma write_head_ok s :
  0 <= log_start (k_log s) < 4294967296 ->
  (Z.to_nat (lh_n (log_lh (k_log s))) <= length (lh_block (log_lh (k_log s))))%nat ->
  (Z.to_nat (lh_n (log_lh (k_log s))) < length (bview s (log_start (k_log s))))%nat ->
  exists s', write_head s = Ok (tt, s') /\
    k_log s' = k_log s /\ k_killed s' = k_killed s /\ k_pin s' = k_pin s /\
    k_trace s' = k_trace s ++
      [EvBwrite (log_start (k_log s))
                (hdr_encode (log_lh (k_log s)) (bview s (log_start (k_log s))))] /\
    (forall b, k_disk s' b =
       if decide (b = log_start (k_log s))
       then hdr_encode (log_lh (k_log s)) (bview s (log_start (k_log s)))
       else k_disk s b) /\
    (forall b, bview s' b =
       if decide (b = log_start (k_log s))
       then hdr_encode (log_lh (k_log s)) (bview s (log_start (k_log s)))
       else bview s b).
Proof.
  intros Hu HnB Hnd.
  set (L := k_log s). set (st := log_start L). set (n := lh_n (log_lh L)).
  set (B := lh_block (log_lh L)). set (d0 := bview s st).
  fold L st n B d0 in Hu, HnB, Hnd.
  unfold write_head. rewrite (bind_ok get_log _ s L s) by done.
  fold st n. rewrite (to_uint_id st Hu).
  destruct (bread_ok st s) as (s1 & Hb1 & Hc1 & Hk1 & Hl1 & Hd1 & Hp1 & Ht1 & Hkl1 & Hv1).
  rewrite (bind_ok _ _ _ _ _ Hb1).
  assert (Hf1 : hdr_filling s s1 d0) by (unfold hdr_filling; auto 10).
  (* hb->n = log.lh.n *)
  destruct (hdr_filling_store s s1 d0 (<[O := n]> d0) Hf1) as (s2 & Hst2 & Hf2).
  assert (Hsetn : hdr_set_n st n s1 = Ok (tt, s2)).
  { unfold hdr_set_n, buf_data. unfold mbind at 1, M_bind at 1.
    fold L st d0 in Hc1. rewrite Hc1.
    unfold arr_set. simpl. destruct (Z.ltb_spec 0 (Z.of_nat (length d0))); [|lia].
    simpl. unfold mbind, M_bind, mret, M_ret. exact Hst2. }
  rewrite (bind_ok _ _ _ _ _ Hsetn).
  assert (Hd0 : <[O := n]> d0 = n :: take O B ++ drop 1 d0).
  { destruct d0; [simpl in Hnd; lia | done]. }
  rewrite Hd0 in Hf2.
  (* the loop over the logged block numbers *)
  destruct (for_loop_inv
    (fun i => v ← lh_block_get i; hdr_set_block st i v)
    (fun m s3 => hdr_filling s s3 (n :: take m B ++ drop (S m) d0))
    (Z.to_nat n) 0 s2 Hf2) as (s3 & Hloop & Hf3).
  { intros j s3 Hj Hf. rewrite Z.add_0_l.
    destruct (lookup_lt_is_Some_2 B j) as [v Hv]; [lia|].
    assert (Hget : lh_block_get (Z.of_nat j) s3 = Ok (v, s3)).
    { apply lh_block_get_ok. destruct Hf as (-> & _). fold L B.
      unfold arr_get. destruct (Z.leb_spec 0 (Z.of_nat j)); [|lia].
      by rewrite Nat2Z.id. }
    rewrite (bind_ok _ _ _ _ _ Hget).
    destruct (hdr_filling_store s s3 _ (n :: take (S j) B ++ drop (S (S j)) d0) Hf)
      as (s4 & Hst4 & Hf4).
    exists s4. split; [|done].
    unfold hdr_set_block, buf_data. unfold mbind at 1, M_bind at 1.
    destruct Hf as (_ & _ & _ & _ & _ & Hc & _). fold L st in Hc. rewrite Hc.
    unfold arr_set.
    destruct (Z.leb_spec 0 (1 + Z.of_nat j)); [|lia].
    destruct (Z.ltb_spec (1 + Z.of_nat j)
                (Z.of_nat (length (n :: take j B ++ drop (S j) d0)))) as [_|Hge].
    - simpl andb. cbv iota. unfold of_option. unfold mbind, M_bind, mret, M_ret.
      replace (Z.to_nat (1 + Z.of_nat j)) with (S j) by lia.
      rewrite insert_hdr_slot by (done || lia). exact Hst4.
    - exfalso. revert Hge. simpl. rewrite length_app, length_take, length_drop. lia. }
  rewrite (bind_ok _ _ _ _ _ Hloop).
  destruct Hf3 as (Hl3 & Hd3 & Hp3 & Ht3 & Hk3 & Hc3 & Hv3).
  fold L st in Hc3.
  unfold bwrite, buf_data, disk_write, brelse, mbind, M_bind, mret, M_ret.
  rewrite Hc3. eexists. split; [reflexivity|]. simpl.
  unfold hdr_encode. fold L n B d0.
  repeat split; try done.
  - by rewrite Ht3.
  - intros b. destruct (decide (b = st)) as [->|Hne].
    + by rewrite fn_lookup_insert.
    + rewrite fn_lookup_insert_ne by done. by rewrite Hd3.
  - intros b. destruct (decide (b = st)) as [->|Hne].
    + unfold bview. simpl. by rewrite Hc3.
    + rewrite <- (Hv3 b Hne). unfold bview. simpl.
      by rewrite fn_lookup_insert_ne.
Qed.

Lemma read_head_ok s nv :
  0 <= log_start (k_log s) < 4294967296 ->
  bview s (log_start (k_log s)) !! O = Some nv ->
  (Z.to_nat nv < length (bview s (log_start (k_log s))))%nat ->
  (Z.to_nat nv <= length (lh_block (log_lh (k_log s))))%nat ->
  exists s', read_head s = Ok (tt, s') /\
    k_log s' = set_lh (LogHeader nv
                 (take (Z.to_nat nv) (drop 1 (bview s (log_start (k_log s))))
                  ++ drop (Z.to_nat nv) (lh_block (log_lh (k_log s))))) (k_log s) /\
    k_disk s' = k_disk s /\ k_pin s' = k_pin s /\ k_trace s' = k_trace s /\
    k_killed s' = k_killed s /\ (forall b, bview s' b = bview s b).
Proof.
  intros Hu Hn Hnd HnB.
  set (L := k_log s). set (st := log_start L).
  set (B := lh_block (log_lh L)). set (d := bview s st).
  fold L st B d in Hu, Hn, Hnd, HnB.
  unfold read_head. rewrite (bind_ok get_log _ s L s) by done. fold st.
  rewrite (to_uint_id st Hu).
  destruct (bread_ok st s) as (s1 & Hb1 & Hc1 & Hk1 & Hl1 & Hd1 & Hp1 & Ht1 & Hkl1 & Hv1).
  rewrite (bind_ok _ _ _ _ _ Hb1). fold d in Hc1.
  assert (Hgetn : hdr_get_n st s1 = Ok (nv, s1)).
  { unfold hdr_get_n, buf_data, mbind, M_bind. rewrite Hc1.
    change (arr_get d 0) with (d !! O). by rewrite Hn. }
  rewrite (bind_ok _ _ _ _ _ Hgetn).
  set (Inv := fun (m : nat) (s3 : kstate) =>
    k_log s3 = set_lh (LogHeader nv (take m (drop 1 d) ++ drop m B)) L /\
    k_bcache s3 !! st = Some d /\ k_disk s3 = k_disk s /\ k_pin s3 = k_pin s /\
    k_trace s3 = k_trace s /\ k_killed s3 = k_killed s /\
    (forall b, bview s3 b = bview s b)).
  assert (Hsetn : exists s2, set_lh_n nv s1 = Ok (tt, s2) /\ Inv O s2).
  { unfold set_lh_n, get_log, put_log, mbind, M_bind. eexists. split; [done|].
    unfold Inv. simpl. rewrite Hl1. fold L B. rewrite drop_0.
    repeat split; done. }
  destruct Hsetn as (s2 & Hsetn & Hinv2).
  rewrite (bind_ok _ _ _ _ _ Hsetn).
  destruct (for_loop_inv
    (fun i => v ← hdr_get_block st i; lh_block_set i v) Inv
    (Z.to_nat nv) 0 s2 Hinv2) as (s3 & Hloop & Hinv3).
  { intros j s3 Hj (Hl3 & Hc3 & Hd3 & Hp3 & Ht3 & Hk3 & Hv3). rewrite Z.add_0_l.
    destruct (lookup_lt_is_Some_2 d (S j)) as [v Hv]; [lia|].
    assert (Hget : hdr_get_block st (Z.of_nat j) s3 = Ok (v, s3)).
    { unfold hdr_get_block, buf_data, mbind, M_bind. rewrite Hc3.
      unfold arr_get. destruct (Z.leb_spec 0 (1 + Z.of_nat j)); [|lia].
      replace (Z.to_nat (1 + Z.of_nat j)) with (S j) by lia. by rewrite Hv. }
    rewrite (bind_ok _ _ _ _ _ Hget).
    unfold lh_block_set, get_log, put_log, mbind, M_bind. rewrite Hl3. simpl.
    unfold arr_set.
    destruct (Z.leb_spec 0 (Z.of_nat j)); [|lia].
    destruct (Z.ltb_spec (Z.of_nat j)
                (Z.of_nat (length (take j (drop 1 d) ++ drop j B)))) as [_|Hge].
    - simpl. eexists. split; [done|]. unfold Inv. simpl.
      rewrite Nat2Z.id.
      rewrite insert_lh_slot by (by rewrite ?lookup_drop || lia).
      repeat split; done.
    - exfalso. revert Hge. rewrite length_app, length_take, !length_drop. lia. }
  rewrite (bind_ok _ _ _ _ _ Hloop).
  exists s3. split; [done|].
  destruct Hinv3 as (Hl3 & Hc3 & Hd3 & Hp3 & Ht3 & Hk3 & Hv3). done.
Qed.

Lemma blk_lookup l j :
  0 <= j < lh_n (log_lh l) ->
  (Z.to_nat (lh_n (log_lh l)) <= length (lh_block (log_lh l)))%nat ->
  logged l !! Z.to_nat j = Some (blk l j).
Proof.
  intros Hj Hlen. unfold logged, blk.
  rewrite lookup_take_lt by lia.
  destruct (lookup_lt_is_Some_2 (lh_block (log_lh l)) (Z.to_nat j)) as [v Hv]; [lia|].
  by rewrite Hv.
Qed.

Lemma blk_logged l j :
  0 <= j < lh_n (log_lh l) ->
  (Z.to_nat (lh_n (log_lh l)) <= length (lh_block (log_lh l)))%nat ->
  blk l j ∈ logged l.
Proof. intros. eapply list_elem_of_lookup_2. by apply blk_lookup. Qed.

Lemma blk_inj l i j :
  NoDup (logged l) ->
  (Z.to_nat (lh_n (log_lh l)) <= length (lh_block (log_lh l)))%nat ->
  0 <= i < lh_n (log_lh l) -> 0 <= j < lh_n (log_lh l) ->
  blk l i = blk l j -> i = j.
Proof.
  intros Hnd Hlen Hi Hj Heq.
  assert (Z.to_nat i = Z.to_nat j); [|lia].
  eapply (NoDup_lookup (logged l)); [done | by apply blk_lookup |].
  rewrite Heq. by apply blk_lookup.
Qed.

Lemma logged_blk l b :
  (Z.to_nat (lh_n (log_lh l)) <= length (lh_block (log_lh l)))%nat ->
  b ∈ logged l -> exists j, 0 <= j < lh_n (log_lh l) /\ blk l j = b.
Proof.
  intros Hlen Hb. apply list_elem_of_lookup_1 in Hb as [i Hi].
  assert (Hlt : (i < length (logged l))%nat) by (by eapply lookup_lt_Some).
  unfold logged in Hlt. rewrite length_take in Hlt.
  exists (Z.of_nat i). split; [lia|].
  assert (H := blk_lookup l (Z.of_nat i)). rewrite Nat2Z.id in H.
  rewrite H in Hi by lia. congruence.
Qed.

Lemma flat_map_seqZ_ext {A : Type} (f g : Z -> list A) (k : Z) :
  (forall j, 0 <= j < k -> f j = g j) ->
  flat_map f (seqZ 0 k) = flat_map g (seqZ 0 k).
Proof.
  intros H. rewrite !flat_map_concat_map. f_equal.
  apply map_ext_in. intros j Hj. apply H.
  apply list_elem_of_In, elem_of_seqZ in Hj. lia.
Qed.

Lemma write_log_ok s :
  0 <= lh_n (log_lh (k_log s)) ->
  (Z.to_nat (lh_n (log_lh (k_log s))) <= length (lh_block (log_lh (k_log s))))%nat ->
  0 <= log_start (k_log s) ->
  log_start (k_log s) + lh_n (log_lh (k_log s)) < 2147483648 ->
  (forall b, b ∈ logged (k_log s) -> outside_log (k_log s) b) ->
  exists s', write_log s = Ok (tt, s') /\
    copied false (blk (k_log s)) (slot (k_log s)) (lh_n (log_lh (k_log s))) s s'.
Proof.
  intros Hn Hlen Hst Hmax Hout. unfold write_log.
  rewrite (bind_ok get_log _ s (k_log s) s) by done.
  destruct (copy_loop_ok write_log_body false (blk (k_log s)) (slot (k_log s))
              (Z.to_nat (lh_n (log_lh (k_log s)))) s) as (s' & Hrun & Hc).
  - intros j s1 Hj Hl.
    destruct (write_log_body_ok j s1) as (s2 & Hb & Hp); [rewrite Hl; lia..| |].
    { rewrite Hl. destruct (Hout (blk (k_log s) j)) as [Ho|Ho];
        [apply blk_logged; lia|lia|lia]. }
    exists s2. rewrite Hl in Hp. done.
  - unfold slot. intros; lia.
  - intros i j Hi Hj Heq.
    destruct (Hout (blk (k_log s) i)) as [Ho|Ho].
    + apply blk_logged; lia.
    + unfold slot in Heq. lia.
    + unfold slot in Heq. lia.
  - exists s'. rewrite Z2Nat.id in Hc by done. done.
Qed.

Lemma install_trans_ok recovering s :
  0 <= lh_n (log_lh (k_log s)) ->
  (Z.to_nat (lh_n (log_lh (k_log s))) <= length (lh_block (log_lh (k_log s))))%nat ->
  0 <= log_start (k_log s) ->
  log_start (k_log s) + lh_n (log_lh (k_log s)) < 2147483648 ->
  NoDup (logged (k_log s)) ->
  (forall b, b ∈ logged (k_log s) -> outside_log (k_log s) b) ->
  exists s', install_trans recovering s = Ok (tt, s') /\
    copied (recovering =? 0) (slot (k_log s)) (blk (k_log s))
           (lh_n (log_lh (k_log s))) s s'.
Proof.
  intros Hn Hlen Hst Hmax Hnd Hout. unfold install_trans.
  rewrite (bind_ok get_log _ s (k_log s) s) by done.
  destruct (copy_loop_ok (install_trans_body recovering) (recovering =? 0)
              (slot (k_log s)) (blk (k_log s))
              (Z.to_nat (lh_n (log_lh (k_log s)))) s) as (s' & Hrun & Hc).
  - intros j s1 Hj Hl.
    destruct (install_trans_body_ok recovering j s1) as (s2 & Hb & Hp);
      [rewrite Hl; lia..| |].
    { rewrite Hl. destruct (Hout (blk (k_log s) j)) as [Ho|Ho];
        [apply blk_logged; lia|lia|lia]. }
    exists s2. rewrite Hl in Hp. done.
  - intros i j Hi Hj. apply blk_inj; (done || lia).
  - intros i j Hi Hj Heq.
    destruct (Hout (blk (k_log s) j)) as [Ho|Ho].
    + apply blk_logged; lia.
    + unfold slot in Heq. lia.
    + unfold slot in Heq. lia.
  - exists s'. rewrite Z2Nat.id in Hc by done. done.
Qed.

Lemma hdr_encode_length h old : (0 < length (hdr_encode h old))%nat.
Proof. unfold hdr_encode. simpl. lia. Qed.

Lemma commit_noop s :
  lh_n (log_lh (k_log s)) = 0 -> commit s = Ok (tt, s).
Proof.
  intros Hn. unfold commit. rewrite (bind_ok get_log _ s (k_log s) s) by done.
  by rewrite Hn.
Qed.

Lemma commit_ok s :
  commit_ready s -> 0 < lh_n (log_lh (k_log s)) ->
  exists s', commit s = Ok (tt, s') /\ committed s s'.
Proof.
  intros (Hn & Hlen & (Hst0 & Hmax) & Hnd & Hout & Hhdr) Hpos.
  set (L := k_log s) in *. set (st := log_start L) in *.
  set (n := lh_n (log_lh L)) in *. set (B := lh_block (log_lh L)) in *.
  assert (Hslot_ne : forall j, 0 <= j < n -> slot L j <> st)
    by (unfold slot; fold st; intros; lia).
  assert (Hblk_out : forall j, 0 <= j < n -> outside_log L (blk L j))
    by (intros; apply Hout, blk_logged; done).
  assert (Hblk_ne : forall j, 0 <= j < n -> blk L j <> st).
  { intros j Hj. destruct (Hblk_out j Hj) as [H|H]; fold st n in H; lia. }
  assert (Hblk_slot : forall i j, 0 <= i < n -> 0 <= j < n -> slot L i <> blk L j).
  { intros i j Hi Hj. destruct (Hblk_out j Hj) as [H|H];
      fold st n in H; unfold slot; fold st; lia. }
  unfold commit. rewrite (bind_ok get_log _ s L s) by done. fold n.
  destruct (Z.gtb_spec n 0) as [_|]; [|lia].
  (* phase 1 *)
  destruct (write_log_ok s Hn Hlen Hst0 Hmax Hout)
    as (s1 & Hrun1 & Hl1 & Hk1 & Hdst1 & Hoth1 & Ht1).
  fold L n in Hl1, Hdst1, Hoth1, Ht1.
  rewrite (bind_ok _ _ _ _ _ Hrun1).
  assert (Hst1 : bview s1 st = bview s st).
  { apply Hoth1. intros j Hj. by apply Hslot_ne. }
  (* phase 2 *)
  destruct (write_head_ok s1) as (s2 & Hrun2 & Hl2 & Hk2 & Hp2 & Ht2 & Hd2 & Hv2).
  { rewrite Hl1. fold st. lia. }
  { rewrite Hl1. done. }
  { rewrite Hl1. fold st n. rewrite Hst1. done. }
  rewrite Hl1 in Hl2, Ht2, Hd2, Hv2. fold st in Ht2, Hd2, Hv2. rewrite Hst1 in Ht2, Hd2, Hv2.
  change (hdr_encode (log_lh L) (bview s st)) with (hdr_commit s) in Ht2, Hd2, Hv2.
  rewrite (bind_ok _ _ _ _ _ Hrun2).
  (* phase 3 *)
  destruct (install_trans_ok 0 s2) as (s3 & Hrun3 & Hl3 & Hk3 & Hdst3 & Hoth3 & Ht3);
    try (rewrite Hl2; done).
  rewrite Hl2 in Hl3, Hdst3, Hoth3, Ht3. fold n in Hdst3, Hoth3, Ht3.
  rewrite (bind_ok _ _ _ _ _ Hrun3).
  assert (Hslot2 : forall j, 0 <= j < n -> bview s2 (slot L j) = bview s (blk L j)).
  { intros j Hj. rewrite Hv2. destruct (decide (slot L j = st)) as [He|_].
    - by apply Hslot_ne in He.
    - by apply Hdst1. }
  (* phase 4 *)
  assert (Hrun4 : set_lh_n 0 s3 = Ok (tt, set_log (set_lh (LogHeader 0 B) L) s3)).
  { unfold set_lh_n, get_log, put_log, mbind, M_bind. by rewrite Hl3. }
  rewrite (bind_ok _ _ _ _ _ Hrun4).
  set (s4 := set_log (set_lh (LogHeader 0 B) L) s3) in *.
  assert (Hst3 : bview s3 st = hdr_commit s).
  { destruct (Hoth3 st) as (_ & -> & _).
    - intros j Hj. by apply Hblk_ne.
    - rewrite Hv2. by destruct (decide (st = st)). }
  destruct (write_head_ok s4) as (s5 & Hrun5 & Hl5 & Hk5 & Hp5 & Ht5 & Hd5 & Hv5).
  { simpl. fold st. lia. }
  { simpl. lia. }
  { simpl. fold st. change (bview s4 st) with (bview s3 st). rewrite Hst3.
    apply hdr_encode_length. }
  simpl in Hl5, Ht5, Hd5, Hv5. fold st in Ht5, Hd5, Hv5.
  change (bview s4 st) with (bview s3 st) in Ht5, Hd5, Hv5.
  rewrite Hst3 in Ht5, Hd5, Hv5.
  change (hdr_encode (LogHeader 0 B) (hdr_commit s)) with (hdr_clear s) in Ht5, Hd5, Hv5.
  exists s5. split; [exact Hrun5|].
  unfold committed. fold L st n B.
  split; [done|]. split; [simpl in Hk5; congruence|]. split; [|split; [|split; [|split; [|split]]]].
  - rewrite Ht5. simpl. rewrite Ht3, Ht2, Ht1. unfold commit_trace.
    rewrite <- !app_assoc. f_equal. fold L st n. f_equal. simpl. f_equal.
    f_equal. unfold copy_trace, phase_install. fold L n.
    apply flat_map_seqZ_ext. intros j Hj. by rewrite Hslot2.
  - intros j Hj.
    destruct (Hdst3 j Hj) as (Hd3 & Hv3 & Hp3).
    rewrite Hd5, Hv5, Hp5. simpl.
    destruct (decide (blk L j = st)) as [He|_]; [by apply Hblk_ne in He|].
    destruct (decide (slot L j = st)) as [He|_]; [by apply Hslot_ne in He|].
    change (k_disk s4) with (k_disk s3). change (bview s4) with (bview s3).
    rewrite Hd3, Hv3, Hp3, Hslot2 by done. simpl.
    destruct (Hoth1 (blk L j)) as (_ & _ & Hp1).
    { intros i Hi. by apply Hblk_slot. }
    rewrite Hp2, Hp1. repeat split; try done.
    rewrite Hd5.
    destruct (decide (slot L j = st)) as [He|_]; [by apply Hslot_ne in He|].
    change (k_disk s4) with (k_disk s3).
    destruct (Hoth3 (slot L j)) as (-> & _ & _).
    { intros i Hi He. by apply (Hblk_slot j i). }
    rewrite Hd2. destruct (decide (slot L j = st)) as [He|_]; [by apply Hslot_ne in He|].
    by apply Hdst1.
  - rewrite Hd5. by destruct (decide (st = st)).
  - rewrite Hv5. by destruct (decide (st = st)).
  - intros b Hb. rewrite Hp5. simpl.
    destruct (Hoth3 b) as (_ & _ & ->).
    { intros j Hj He. apply Hb. rewrite <- He. by apply blk_logged. }
    rewrite Hp2.
    destruct (decide (0 <= b - st - 1 < n)) as [Hj|Hno].
    + destruct (Hdst1 _ Hj) as (_ & _ & Hp1).
      replace (slot L (b - st - 1)) with b in Hp1 by (unfold slot; fold st; lia).
      done.
    + apply Hoth1. intros j Hj He. apply Hno. unfold slot in He. fold st in He. lia.
  - intros b Hb Hob. rewrite Hd5, Hv5.
    assert (b <> st) by (destruct Hob as [H|H]; fold st n in H; lia).
    destruct (decide (b = st)) as [|_]; [done|].
    change (k_disk s4) with (k_disk s3). change (bview s4) with (bview s3).
    destruct (Hoth3 b) as (-> & -> & _).
    { intros j Hj He. apply Hb. rewrite <- He. by apply blk_logged. }
    rewrite Hd2, Hv2. destruct (decide (b = st)) as [|_]; [done|].
    destruct (Hoth1 b) as (-> & -> & _); [|done].
    intros j Hj He. unfold slot in He. fold st in He.
    destruct Hob as [H'|H']; fold st n in H'; lia.
Qed.

Lemma recover_ok s n :
  bview s (log_start (k_log s)) !! O = Some n ->
  0 <= n ->
  (Z.to_nat n < length (bview s (log_start (k_log s))))%nat ->
  (Z.to_nat n <= length (lh_block (log_lh (k_log s))))%nat ->
  0 <= log_start (k_log s) ->
  log_start (k_log s) + n < 2147483648 ->
  NoDup (hdr_blocks n (bview s (log_start (k_log s)))) ->
  (forall b, b ∈ hdr_blocks n (bview s (log_start (k_log s))) ->
     b < log_start (k_log s) \/ log_start (k_log s) + n < b) ->
  exists s', recover_from_log s = Ok (tt, s') /\ recovered n s s'.
Proof.
  intros Hn0 Hn Hlen HlenB Hst0 Hmax Hnd Hout.
  set (L := k_log s) in *. set (st := log_start L) in *.
  set (H := bview s st) in *. set (B := lh_block (log_lh L)) in *.
  unfold recover_from_log.
  destruct (read_head_ok s n ltac:(fold L st; lia) Hn0 Hlen HlenB)
    as (s1 & Hrun1 & Hl1 & Hd1 & Hp1 & Ht1 & Hk1 & Hv1).
  fold L st H B in Hl1. fold (hdr_blocks n H) in Hl1.
  rewrite (bind_ok _ _ _ _ _ Hrun1).
  set (B' := hdr_blocks n H ++ drop (Z.to_nat n) B) in *.
  assert (HlenH : length (hdr_blocks n H) = Z.to_nat n).
  { unfold hdr_blocks. rewrite length_take, length_drop. lia. }
  assert (Hlogged1 : logged (k_log s1) = hdr_blocks n H).
  { rewrite Hl1. unfold logged. simpl. unfold B'.
    rewrite take_app_length'; done. }
  assert (Hblk1 : forall j, 0 <= j < n -> blk (k_log s1) j = hdr_blk H j).
  { intros j Hj. rewrite Hl1. unfold blk, hdr_blk. simpl. unfold B'.
    rewrite lookup_app_l by lia. unfold hdr_blocks.
    rewrite lookup_take_lt by lia. by rewrite lookup_drop. }
  destruct (install_trans_ok 1 s1) as (s2 & Hrun2 & Hl2 & Hk2 & Hdst2 & Hoth2 & Ht2).
  { rewrite Hl1. done. }
  { rewrite Hl1. simpl. unfold B'. rewrite length_app, length_drop. lia. }
  { rewrite Hl1. done. }
  { rewrite Hl1. done. }
  { by rewrite Hlogged1. }
  { rewrite Hlogged1. rewrite Hl1. unfold outside_log. simpl. done. }
  rewrite (bind_ok _ _ _ _ _ Hrun2).
  assert (Hn1 : lh_n (log_lh (k_log s1)) = n) by (by rewrite Hl1).
  assert (Hst1 : log_start (k_log s1) = st) by (by rewrite Hl1).
  rewrite Hn1 in Hdst2, Hoth2, Ht2.
  assert (Hrun3 : set_lh_n 0 s2 = Ok (tt, set_log (set_lh (LogHeader 0 B') L) s2)).
  { unfold set_lh_n, get_log, put_log, mbind, M_bind. by rewrite Hl2, Hl1. }
  rewrite (bind_ok _ _ _ _ _ Hrun3).
  set (s3 := set_log (set_lh (LogHeader 0 B') L) s2) in *.
  assert (Hne_st : forall j, 0 <= j < n -> blk (k_log s1) j <> st).
  { intros j Hj. destruct (Hout (blk (k_log s1) j)) as [Ho|Ho]; [|lia..].
    rewrite <- Hlogged1. apply blk_logged; rewrite ?Hn1; [done|].
    rewrite Hl1. simpl. unfold B'. rewrite length_app, length_drop. lia. }
  assert (Hst2 : bview s2 st = H).
  { destruct (Hoth2 st) as (_ & -> & _); [|by rewrite Hv1].
    intros j Hj. by apply Hne_st. }
  destruct (write_head_ok s3) as (s4 & Hrun4 & Hl4 & Hk4 & Hp4 & Ht4 & Hd4 & Hv4).
  { simpl. fold st. lia. }
  { simpl. lia. }
  { simpl. fold st. change (bview s3 st) with (bview s2 st). rewrite Hst2. lia. }
  simpl in Hl4, Ht4, Hd4, Hv4, Hk4. fold st in Ht4, Hd4, Hv4.
  change (bview s3 st) with (bview s2 st) in Ht4, Hd4, Hv4. rewrite Hst2 in Ht4, Hd4, Hv4.
  change (hdr_encode (LogHeader 0 B') H) with (0 :: drop 1 H) in Ht4, Hd4, Hv4.
  exists s4. split; [exact Hrun4|].
  unfold recovered. fold L st H B B'.
  split; [done|]. split; [congruence|]. split; [|split; [|split; [|split]]].
  - intros b. rewrite Hp4. simpl. rewrite <- Hp1.
    destruct (decide (b ∈ logged (k_log s1))) as [Hin|Hnin].
    + apply logged_blk in Hin as (j & Hj & <-).
      * rewrite Hn1 in Hj. by destruct (Hdst2 j Hj) as (_ & _ & ->).
      * rewrite Hl1. simpl. unfold B'. rewrite length_app, length_drop. lia.
    + apply Hoth2. intros j Hj He. apply Hnin. rewrite <- He.
      apply blk_logged; rewrite ?Hn1; [done|].
      rewrite Hl1. simpl. unfold B'. rewrite length_app, length_drop. lia.
  - rewrite Ht4. simpl. rewrite Ht2, Ht1, <- app_assoc. do 2 f_equal.
    unfold copy_trace. apply flat_map_seqZ_ext. intros j Hj.
    unfold copy_events. simpl. unfold slot. rewrite Hst1, Hv1, Hblk1 by done. done.
  - intros j Hj. rewrite Hd4.
    destruct (decide (hdr_blk H j = st)) as [He|_].
    { rewrite <- Hblk1 in He by done. by apply Hne_st in He. }
    change (k_disk s3) with (k_disk s2).
    destruct (Hdst2 j Hj) as (Hd & _). rewrite Hblk1 in Hd by done.
    rewrite Hd. unfold slot. by rewrite Hst1, Hv1.
  - rewrite Hd4. by destruct (decide (st = st)).
  - intros b Hb Hbst. rewrite Hd4. destruct (decide (b = st)); [done|].
    change (k_disk s3) with (k_disk s2). rewrite <- Hd1.
    apply Hoth2. intros j Hj He. apply Hb. rewrite <- Hlogged1, <- He.
    apply blk_logged; rewrite ?Hn1; [done|].
    rewrite Hl1. simpl. unfold B'. rewrite length_app, length_drop. lia.
Qed.

(** Recovery in general: whatever block numbers the header on disk lists,
    as long as its count fits the in-memory array, blocks are not empty,
    and no log slot is listed as the home block of its own payload (there
    [install_trans] asks for the buffer it holds and sleeps for ever, see
    [recover_blocked]).  The header block ends up with a zero count. *)
Lemma recover_total s n :
  bview s (log_start (k_log s)) !! O = Some n ->
  (Z.to_nat n < length (bview s (log_start (k_log s))))%nat ->
  (Z.to_nat n <= length (lh_block (log_lh (k_log s))))%nat ->
  0 <= log_start (k_log s) < 2147483648 ->
  log_start (k_log s) + n < 2147483648 ->
  (forall b, (0 < length (bview s b))%nat) ->
  (forall j, 0 <= j < n ->
     hdr_blk (bview s (log_start (k_log s))) j <> log_start (k_log s) + j + 1) ->
  exists s', recover_from_log s = Ok (tt, s') /\
    log_start (k_log s') = log_start (k_log s) /\
    lh_n (log_lh (k_log s')) = 0 /\
    length (lh_block (log_lh (k_log s'))) = length (lh_block (log_lh (k_log s))) /\
    k_disk s' (log_start (k_log s)) !! O = Some 0 /\
    bview s' (log_start (k_log s)) = k_disk s' (log_start (k_log s)) /\
    (forall b, (0 < length (bview s' b))%nat) /\
    log_outstanding (k_log s') = log_outstanding (k_log s) /\
    log_committing (k_log s') = log_committing (k_log s).
Proof.
  intros Hn0 Hlen HlenB Hst0 Hmax Hpos Hself.
  set (L := k_log s) in *. set (st := log_start L) in *.
  set (H := bview s st) in *. set (B := lh_block (log_lh L)) in *.
  unfold recover_from_log.
  destruct (read_head_ok s n ltac:(fold L st; lia) Hn0 Hlen HlenB)
    as (s1 & Hrun1 & Hl1 & Hd1 & Hp1 & Ht1 & Hk1 & Hv1).
  fold L st H B in Hl1.
  rewrite (bind_ok _ _ _ _ _ Hrun1).
  set (B' := take (Z.to_nat n) (drop 1 H) ++ drop (Z.to_nat n) B) in *.
  assert (HlenB' : length B' = length B).
  { unfold B'. rewrite length_app, length_take, !length_drop. lia. }
  assert (Hblk1 : forall j, 0 <= j < n -> blk (k_log s1) j = hdr_blk H j).
  { intros j Hj. rewrite Hl1. unfold blk, hdr_blk. simpl. fold B'. unfold B'.
    rewrite lookup_app_l by (rewrite length_take, length_drop; lia).
    rewrite lookup_take_lt by lia. by rewrite lookup_drop. }
  assert (Hrun2 : exists s2, install_trans 1 s1 = Ok (tt, s2) /\
            k_log s2 = k_log s1 /\ (forall b, (0 < length (bview s2 b))%nat)).
  { unfold install_trans. rewrite (bind_ok get_log _ s1 (k_log s1) s1) by done.
    apply (for_loop_inv (install_trans_body 1)
             (fun _ s2 => k_log s2 = k_log s1 /\
                          (forall b, (0 < length (bview s2 b))%nat))).
    - split; [done|]. intros b. by rewrite Hv1.
    - intros j s2 Hj (Hl2 & Hpos2). rewrite Z.add_0_l.
      destruct (install_trans_body_ok 1 (Z.of_nat j) s2)
        as (s3 & Hb & Hl3 & _ & _ & Hv3 & _).
      { rewrite Hl2, Hl1. simpl. fold B'. rewrite Hl1 in Hj. simpl in Hj. lia. }
      { rewrite Hl2, Hl1. simpl. fold st. lia. }
      { rewrite Hl2, Hl1. simpl. fold st. rewrite Hl1 in Hj. simpl in Hj. lia. }
      { rewrite Hl1 in Hj. simpl in Hj. rewrite Hl2, Hblk1 by lia.
        rewrite Hl1. simpl. fold st. apply Hself. lia. }
      exists s3. split; [done|]. split; [congruence|].
      intros b. rewrite Hv3. by destruct (decide _). }
  destruct Hrun2 as (s2 & Hrun2 & Hl2 & Hpos2).
  rewrite (bind_ok _ _ _ _ _ Hrun2).
  assert (Hrun3 : set_lh_n 0 s2 = Ok (tt, set_log (set_lh (LogHeader 0 B') L) s2)).
  { unfold set_lh_n, get_log, put_log, mbind, M_bind. by rewrite Hl2, Hl1. }
  rewrite (bind_ok _ _ _ _ _ Hrun3).
  set (s3 := set_log (set_lh (LogHeader 0 B') L) s2) in *.
  destruct (write_head_ok s3) as (s4 & Hrun4 & Hl4 & Hk4 & Hp4 & Ht4 & Hd4 & Hv4).
  { simpl. fold st. lia. }
  { simpl. lia. }
  { simpl. apply (Hpos2 st). }
  simpl in Hl4, Hd4, Hv4. fold st in Hd4, Hv4.
  exists s4. split; [exact Hrun4|].
  rewrite Hl4. simpl. fold st. repeat split; try done.
  - rewrite Hd4. by destruct (decide (st = st)).
  - rewrite Hd4, Hv4. by destruct (decide (st = st)).
  - intros b. rewrite Hv4. destruct (decide (b = st)); [apply hdr_encode_length|].
    apply (Hpos2 b).
Qed.


Lemma for_loop_app (body : Z -> M unit) (a : nat) : forall (b : nat) i s,
  for_loop body i (a + b) s =
  match for_loop body i a s with
  | Ok (_, s') => for_loop body (i + Z.of_nat a) b s'
  | Panic msg => Panic msg
  | Fault => Fault
  | Blocked => Blocked
  end.
Proof.
  induction a as [|a IH]; intros b i s.
  - simpl. by rewrite Z.add_0_r.
  - simpl. unfold mbind, M_bind. destruct (body i s) as [[[] s1]| | |]; try done.
    rewrite IH. by replace (i + 1 + Z.of_nat a) with (i + Z.of_nat (S a)) by lia.
Qed.

(** The iteration of [install_trans] for a slot that the header lists as
    its own home block: the second [bread] asks for the buffer the first
    one returned. *)
Lemma install_trans_body_blocked recovering tail s :
  0 <= tail < Z.of_nat (length (lh_block (log_lh (k_log s)))) ->
  0 <= log_start (k_log s) ->
  log_start (k_log s) + tail + 1 < 2147483648 ->
  blk (k_log s) tail = log_start (k_log s) + tail + 1 ->
  install_trans_body recovering tail s = Blocked.
Proof.
  intros Hi Hst Hmax Hself. unfold install_trans_body.
  rewrite (bind_ok get_log _ s (k_log s) s) by done.
  rewrite slot_code by lia.
  destruct (bread_ok (log_start (k_log s) + tail + 1) s) as (s1 & Hb1 & _ & _ & Hl1 & _).
  rewrite (bind_ok _ _ _ _ _ Hb1).
  rewrite (bind_ok _ _ s1 (blk (k_log s) tail) s1)
    by (apply lh_block_get_ok; rewrite Hl1; by apply arr_get_blk).
  rewrite Hself. unfold mbind, M_bind. by rewrite bread_blocked.
Qed.

(** Recovery on a header that lists a slot as its own home block never
    returns. *)
Lemma recover_blocked s n j0 :
  bview s (log_start (k_log s)) !! O = Some n ->
  (Z.to_nat n < length (bview s (log_start (k_log s))))%nat ->
  (Z.to_nat n <= length (lh_block (log_lh (k_log s))))%nat ->
  0 <= log_start (k_log s) < 2147483648 ->
  log_start (k_log s) + n < 2147483648 ->
  (forall b, (0 < length (bview s b))%nat) ->
  0 <= j0 < n ->
  hdr_blk (bview s (log_start (k_log s))) j0 = log_start (k_log s) + j0 + 1 ->
  (forall j, 0 <= j < j0 ->
     hdr_blk (bview s (log_start (k_log s))) j <> log_start (k_log s) + j + 1) ->
  recover_from_log s = Blocked.
Proof.
  intros Hn0 Hlen HlenB Hst0 Hmax Hpos Hj0 Hhit Hself.
  set (L := k_log s) in *. set (st := log_start L) in *.
  set (H := bview s st) in *. set (B := lh_block (log_lh L)) in *.
  unfold recover_from_log.
  destruct (read_head_ok s n ltac:(fold L st; lia) Hn0 Hlen HlenB)
    as (s1 & Hrun1 & Hl1 & Hd1 & Hp1 & Ht1 & Hk1 & Hv1).
  fold L st H B in Hl1.
  rewrite (bind_ok _ _ _ _ _ Hrun1).
  set (B' := take (Z.to_nat n) (drop 1 H) ++ drop (Z.to_nat n) B) in *.
  assert (HlenB' : length B' = length B).
  { unfold B'. rewrite length_app, length_take, !length_drop. lia. }
  assert (Hblk1 : forall j, 0 <= j < n -> blk (k_log s1) j = hdr_blk H j).
  { intros j Hj. rewrite Hl1. unfold blk, hdr_blk. simpl. fold B'. unfold B'.
    rewrite lookup_app_l by (rewrite length_take, length_drop; lia).
    rewrite lookup_take_lt by lia. by rewrite lookup_drop. }
  assert (Hblocked : install_trans 1 s1 = Blocked).
  { unfold install_trans. rewrite (bind_ok get_log _ s1 (k_log s1) s1) by done.
    rewrite Hl1. simpl lh_n.
    replace (Z.to_nat n) with (Z.to_nat j0 + S (Z.to_nat (n - j0 - 1)))%nat by lia.
    rewrite for_loop_app.
    destruct (for_loop_inv (install_trans_body 1)
                (fun _ s2 => k_log s2 = k_log s1 /\
                             (forall b, (0 < length (bview s2 b))%nat))
                (Z.to_nat j0) 0 s1) as (s2 & Hrun2 & Hl2 & Hpos2).
    - split; [done|]. intros b. by rewrite Hv1.
    - intros j s2 Hj (Hl2 & Hpos2). rewrite Z.add_0_l.
      destruct (install_trans_body_ok 1 (Z.of_nat j) s2)
        as (s3 & Hb & Hl3 & _ & _ & Hv3 & _).
      { rewrite Hl2, Hl1. simpl. fold B'. lia. }
      { rewrite Hl2, Hl1. simpl. fold st. lia. }
      { rewrite Hl2, Hl1. simpl. fold st. lia. }
      { rewrite Hl2, Hblk1 by lia. rewrite Hl1. simpl. fold st. apply Hself. lia. }
      exists s3. split; [done|]. split; [congruence|].
      intros b. rewrite Hv3. by destruct (decide _).
    - rewrite Hrun2. simpl for_loop. unfold mbind, M_bind.
      rewrite install_trans_body_blocked; [done|..].
      + rewrite Hl2, Hl1. simpl. fold B'. lia.
      + rewrite Hl2, Hl1. simpl. fold st. lia.
      + rewrite Hl2, Hl1. simpl. fold st. lia.
      + rewrite Hl2, Hblk1 by lia. rewrite Hl1. simpl. fold st.
        rewrite Z.add_0_l, Z2Nat.id by lia. exact Hhit. }
  unfold mbind, M_bind. by rewrite Hblocked.
Qed.

(** Recovery over a header block with a zero count installs nothing and
    rewrites the header block with its own contents. *)
Lemma recover_noop s :
  bview s (log_start (k_log s)) !! O = Some 0 ->
  bview s (log_start (k_log s)) = k_disk s (log_start (k_log s)) ->
  0 <= log_start (k_log s) < 2147483648 ->
  exists s', recover_from_log s = Ok (tt, s') /\
    (forall b, k_disk s' b = k_disk s b) /\
    (forall b, k_pin s' b = k_pin s b) /\
    lh_n (log_lh (k_log s')) = 0 /\
    k_trace s' = k_trace s ++
      [EvBwrite (log_start (k_log s)) (k_disk s (log_start (k_log s)))].
Proof.
  intros H0 Hcoh Hst.
  assert (Hlen : (0 < length (bview s (log_start (k_log s))))%nat).
  { apply lookup_lt_Some in H0. lia. }
  destruct (recover_ok s 0) as (s' & Hrun & Hl & Hk & Hp & Ht & _ & Hd & Hoth);
    try done; try (simpl; lia).
  { unfold hdr_blocks. simpl. constructor. }
  { unfold hdr_blocks. simpl. intros b Hb. by apply elem_of_nil in Hb. }
  assert (Hsame : 0 :: drop 1 (bview s (log_start (k_log s))) =
                  k_disk s (log_start (k_log s))).
  { rewrite <- Hcoh. destruct (bview s (log_start (k_log s))) as [|x d]; [done|].
    simpl in *. rewrite drop_0. congruence. }
  exists s'. split; [done|]. rewrite Hl. simpl. repeat split; try done.
  - intros b. destruct (decide (b = log_start (k_log s))) as [->|Hne].
    + by rewrite Hd.
    + apply Hoth; [|done]. unfold hdr_blocks. simpl. apply not_elem_of_nil.
  - rewrite Ht. simpl. by rewrite Hsame.
Qed.

(** ** [log_write] *)

Lemma absorb_scan_spec (B : list Z) (b : Z) :
  forall (iters i : nat), (i + iters <= length B)%nat ->
  exists r : nat,
    absorb_scan B b (Z.of_nat i) iters = Some (Z.of_nat r) /\
    (i <= r <= i + iters)%nat /\
    (forall j, (i <= j < r)%nat -> B !! j <> Some b) /\
    ((r < i + iters)%nat -> B !! r = Some b).
Proof.
  induction iters as [|k IH]; intros i Hlen.
  - exists i. simpl. split; [done|]. split; [lia|]. split; intros; lia.
  - simpl. unfold arr_get. destruct (Z.leb_spec 0 (Z.of_nat i)); [|lia].
    rewrite Nat2Z.id.
    destruct (lookup_lt_is_Some_2 B i) as [v Hv]; [lia|]. rewrite Hv.
    destruct (Z.eqb_spec v b) as [->|Hne].
    + exists i. split; [done|]. split; [lia|]. split; [intros; lia | done].
    + destruct (IH (S i)) as (r & Hr & Hrange & Hbefore & Hat); [lia|].
      exists r. replace (Z.of_nat i + 1) with (Z.of_nat (S i)) by lia.
      split; [done|]. split; [lia|]. split.
      * intros j Hj. destruct (decide (j = i)) as [->|]; [congruence|].
        apply Hbefore. lia.
      * intros Hlt. apply Hat. lia.
Qed.

Lemma log_eta (l : log_t) : set_lh (LogHeader (lh_n (log_lh l)) (lh_block (log_lh l))) l = l.
Proof. by destruct l as [? ? ? ? ? []]. Qed.

Lemma lh_block_set_ok i v s :
  0 <= i < Z.of_nat (length (lh_block (log_lh (k_log s)))) ->
  lh_block_set i v s =
  Ok (tt, set_log (set_lh (LogHeader (lh_n (log_lh (k_log s)))
                     (<[Z.to_nat i := v]> (lh_block (log_lh (k_log s)))))
                   (k_log s)) s).
Proof.
  intros Hi. unfold lh_block_set, get_log, put_log, arr_set, mbind, M_bind.
  destruct (Z.leb_spec 0 i); [|lia].
  destruct (Z.ltb_spec i (Z.of_nat (length (lh_block (log_lh (k_log s)))))); [|lia].
  done.
Qed.

Lemma log_write_ok LOGSIZE b s :
  0 <= lh_n (log_lh (k_log s)) ->
  lh_n (log_lh (k_log s)) < LOGSIZE ->
  lh_n (log_lh (k_log s)) < int_wrap (log_size (k_log s) - 1) ->
  1 <= log_outstanding (k_log s) ->
  (Z.to_nat (lh_n (log_lh (k_log s))) < length (lh_block (log_lh (k_log s))))%nat ->
  exists s', log_write LOGSIZE b s = Ok (tt, s') /\ log_write_post b s s'.
Proof.
  intros Hn HnL Hns Hout Hlen.
  assert (Hinc : int_wrap (lh_n (log_lh (k_log s)) + 1) = lh_n (log_lh (k_log s)) + 1).
  { apply int_wrap_id. pose proof (int_wrap_ok (log_size (k_log s) - 1)).
    unfold int_ok in *. lia. }
  unfold log_write. rewrite (bind_ok get_log _ s (k_log s) s) by done.
  rewrite Hinc.
  destruct (Z.leb_spec LOGSIZE (lh_n (log_lh (k_log s)))); [lia|].
  destruct (Z.leb_spec (int_wrap (log_size (k_log s) - 1)) (lh_n (log_lh (k_log s)))); [lia|].
  destruct (Z.ltb_spec (log_outstanding (k_log s)) 1); [lia|]. cbn [orb].
  destruct (absorb_scan_spec (lh_block (log_lh (k_log s))) b
              (Z.to_nat (lh_n (log_lh (k_log s)))) O)
    as (r & Hscan & Hr & Hbefore & Hat); [lia|].
  change (Z.of_nat 0) with 0 in Hscan. rewrite Hscan.
  unfold of_option. rewrite (bind_ok (mret (Z.of_nat r)) _ s (Z.of_nat r) s) by done.
  rewrite (bind_ok _ _ _ _ _ (lh_block_set_ok (Z.of_nat r) b s ltac:(lia))).
  rewrite Nat2Z.id.
  destruct (Z.eqb_spec (Z.of_nat r) (lh_n (log_lh (k_log s)))) as [Heq|Hne].
  - (* a new block *)
    assert (Hnin : b ∉ logged (k_log s)).
    { intros Hin. apply list_elem_of_lookup_1 in Hin as [j Hj].
      unfold logged in Hj.
      apply lookup_take_Some in Hj as [Hj Hlt].
      apply (Hbefore j); [lia | done]. }
    unfold mbind, M_bind, mret, M_ret, bpin, set_lh_n, get_log, put_log. simpl.
    eexists. split; [reflexivity|].
    unfold log_write_post. simpl. repeat split; try done. right.
    replace r with (Z.to_nat (lh_n (log_lh (k_log s)))) by lia.
    repeat split; done.
  - (* absorbed *)
    assert (Hrn : (r < Z.to_nat (lh_n (log_lh (k_log s))))%nat) by lia.
    assert (HBr : lh_block (log_lh (k_log s)) !! r = Some b) by (apply Hat; lia).
    unfold mbind, M_bind, mret, M_ret. simpl.
    eexists. split; [reflexivity|].
    unfold log_write_post. simpl. repeat split; try done. left.
    repeat split; try done.
    + unfold logged. apply (list_elem_of_lookup_2 _ r).
      rewrite lookup_take_lt by lia. done.
    + rewrite list_insert_id by done. apply log_eta.
Qed.

(** A call of [log_write] that returns was past both panics. *)
Lemma log_write_returns LOGSIZE b s s' :
  log_write LOGSIZE b s = Ok (tt, s') ->
  lh_n (log_lh (k_log s)) < LOGSIZE /\
  lh_n (log_lh (k_log s)) < int_wrap (log_size (k_log s) - 1) /\
  1 <= log_outstanding (k_log s).
Proof.
  unfold log_write. unfold mbind at 1, M_bind at 1, get_log.
  destruct (Z.leb_spec LOGSIZE (lh_n (log_lh (k_log s)))); [done|].
  destruct (Z.leb_spec (int_wrap (log_size (k_log s) - 1)) (lh_n (log_lh (k_log s)))); [done|].
  destruct (Z.ltb_spec (log_outstanding (k_log s)) 1); [done|].
  intros _. lia.
Qed.

Lemma log_write_full LOGSIZE b k :
  int_ok (log_size (k_log k) - 1) ->
  LOGSIZE <= lh_n (log_lh (k_log k)) \/ log_size (k_log k) - 1 <= lh_n (log_lh (k_log k)) ->
  log_write LOGSIZE b k = Panic "too big a transaction".
Proof.
  intros Hsz Hfull. unfold log_write. rewrite (bind_ok get_log _ k (k_log k) k) by done.
  rewrite (int_wrap_id _ Hsz).
  destruct (Z.leb_spec LOGSIZE (lh_n (log_lh (k_log k))));
    destruct (Z.leb_spec (log_size (k_log k) - 1) (lh_n (log_lh (k_log k))));
    try done. lia.
Qed.

Lemma log_write_inv LOGSIZE b s s' :
  log_write LOGSIZE b s = Ok (tt, s') ->
  0 <= lh_n (log_lh (k_log s)) ->
  (Z.to_nat (lh_n (log_lh (k_log s))) < length (lh_block (log_lh (k_log s))))%nat ->
  log_write_post b s s'.
Proof.
  intros Hrun Hn Hlen.
  destruct (log_write_returns _ _ _ _ Hrun) as (H1 & H2 & H3).
  destruct (log_write_ok LOGSIZE b s) as (s'' & Hrun' & Hpost); try done.
  congruence.
Qed.

Lemma logged_append l b :
  0 <= lh_n (log_lh l) ->
  (Z.to_nat (lh_n (log_lh l)) < length (lh_block (log_lh l)))%nat ->
  logged (set_lh (LogHeader (lh_n (log_lh l) + 1)
            (<[Z.to_nat (lh_n (log_lh l)) := b]> (lh_block (log_lh l)))) l)
  = logged l ++ [b].
Proof.
  intros Hn Hlen. unfold logged. simpl.
  replace (Z.to_nat (lh_n (log_lh l) + 1)) with (S (Z.to_nat (lh_n (log_lh l)))) by lia.
  rewrite (take_S_r _ _ b) by (by apply list_lookup_insert_eq).
  by rewrite take_insert_ge by lia.
Qed.

Lemma log_wf_outside LOGSIZE l b :
  log_wf LOGSIZE l -> b ∈ logged l -> outside_log l b.
Proof.
  intros (Hn & Hlen & _ & Hnd & Hsz & Hout) Hb. unfold outside_log.
  destruct Hsz as [H0|Hlt].
  - unfold logged in Hb. rewrite H0 in Hb. simpl in Hb. by apply elem_of_nil in Hb.
  - destruct (Hout b Hb); lia.
Qed.

Lemma log_wf_commit_ready LOGSIZE s :
  log_wf LOGSIZE (k_log s) ->
  (Z.to_nat LOGSIZE < length (bview s (log_start (k_log s))))%nat ->
  commit_ready s.
Proof.
  intros Hwf Hhdr. pose proof Hwf as (Hn & Hlen & (Hst0 & Hmax & _) & Hnd & Hsz & Hout).
  unfold commit_ready. repeat split; try done; try lia.
  intros b Hb. by eapply log_wf_outside.
Qed.

Lemma log_write_wf LOGSIZE b s s' :
  log_write LOGSIZE b s = Ok (tt, s') ->
  log_wf LOGSIZE (k_log s) ->
  b < log_start (k_log s) \/ log_start (k_log s) + log_size (k_log s) <= b ->
  log_write_post b s s' /\ log_wf LOGSIZE (k_log s').
Proof.
  intros Hrun Hwf Hb. pose proof Hwf as (Hn & Hlen & Hrange & Hnd & Hsz & Hout).
  destruct (log_write_returns _ _ _ _ Hrun) as (H1 & H2 & H3).
  rewrite int_wrap_id in H2 by (unfold int_ok; lia).
  assert (Hpost : log_write_post b s s').
  { eapply log_write_inv; [done|lia..]. }
  split; [done|].
  destruct Hpost as (_ & _ & _ & [(_ & -> & _)|(Hnin & Hl & _)]); [done|].
  rewrite Hl. unfold log_wf. rewrite logged_append by lia. simpl.
  rewrite length_insert.
  split; [lia|]. split; [done|]. split; [done|]. split; [|split; [lia|]].
  - apply NoDup_app. split; [done|]. split; [|apply NoDup_singleton].
    intros x Hx Hx'. apply list_elem_of_singleton in Hx'. by subst.
  - intros x Hx. apply elem_of_app in Hx as [Hx|Hx]; [by apply Hout|].
    apply list_elem_of_singleton in Hx. by subst.
Qed.

Lemma tx_write_inv LOGSIZE b d s s' :
  tx_write LOGSIZE (b, d) s = Ok (tt, s') ->
  log_wf LOGSIZE (k_log s) ->
  b < log_start (k_log s) \/ log_start (k_log s) + log_size (k_log s) <= b ->
  tx_write_post b d s s' /\ log_wf LOGSIZE (k_log s').
Proof.
  intros Hrun Hwf Hb. unfold tx_write in Hrun. simpl in Hrun.
  destruct (bread_ok b s) as (s1 & Hb1 & Hc1 & Hk1 & Hl1 & Hd1 & Hp1 & Ht1 & Hkl1 & Hv1).
  rewrite (bind_ok _ _ _ _ _ Hb1) in Hrun.
  assert (Hst : buf_store b d s1 = Ok (tt, set_bcache (<[b := d]> (k_bcache s1)) s1)).
  { unfold buf_store. by rewrite Hc1. }
  rewrite (bind_ok _ _ _ _ _ Hst) in Hrun.
  set (s2 := set_bcache (<[b := d]> (k_bcache s1)) s1) in *.
  apply bind_inv in Hrun as ([] & s3 & Hlw & Hrel).
  unfold brelse, mret, M_ret in Hrel. injection Hrel as <-.
  destruct (log_write_wf LOGSIZE b s2 s3 Hlw) as ((Hd3 & Hc3 & Hk3 & Hcase) & Hwf3).
  { simpl. by rewrite Hl1. }
  { simpl. by rewrite Hl1. }
  split; [|done].
  unfold tx_write_post. split; [simpl in Hd3; congruence|].
  split; [simpl in Hk3; congruence|]. split.
  - intros b'. unfold bview. rewrite Hc3, Hd3. simpl.
    destruct (decide (b' = b)) as [->|Hne].
    + by rewrite lookup_insert_eq.
    + rewrite lookup_insert_ne by done. exact (Hv1 b').
  - simpl in Hcase. rewrite Hl1, Hp1, Ht1 in Hcase. done.
Qed.


Lemma tx_write_ok_room LOGSIZE b d s s' :
  tx_write LOGSIZE (b, d) s = Ok (tt, s') ->
  lh_n (log_lh (k_log s)) < LOGSIZE /\
  lh_n (log_lh (k_log s)) < int_wrap (log_size (k_log s) - 1) /\
  1 <= log_outstanding (k_log s).
Proof.
  intros Hrun. unfold tx_write in Hrun. simpl in Hrun.
  destruct (bread_ok b s) as (s1 & Hb1 & Hc1 & Hk1 & Hl1 & _).
  rewrite (bind_ok _ _ _ _ _ Hb1) in Hrun.
  assert (Hst : buf_store b d s1 = Ok (tt, set_bcache (<[b := d]> (k_bcache s1)) s1)).
  { unfold buf_store. by rewrite Hc1. }
  rewrite (bind_ok _ _ _ _ _ Hst) in Hrun.
  apply bind_inv in Hrun as ([] & s3 & Hlw & _).
  apply log_write_returns in Hlw. simpl in Hlw. by rewrite Hl1 in Hlw.
Qed.

Lemma apply_writes_ext ws v1 v2 :
  (forall b, v1 b = v2 b) -> forall b, apply_writes ws v1 b = apply_writes ws v2 b.
Proof.
  revert v1 v2. induction ws as [|[b0 d0] ws IH]; intros v1 v2 Hv b; [apply Hv|].
  simpl. apply IH. intros b'. destruct (decide (b0 = b')) as [->|Hne].
  - by rewrite !fn_lookup_insert.
  - by rewrite !fn_lookup_insert_ne.
Qed.

Lemma apply_writes_other ws v b :
  b ∉ ws.*1 -> apply_writes ws v b = v b.
Proof.
  revert v. induction ws as [|[b0 d0] ws IH]; intros v Hb; [done|].
  simpl in *. apply not_elem_of_cons in Hb as [Hne Hb].
  rewrite IH by done. by rewrite fn_lookup_insert_ne.
Qed.

Lemma tx_writes_inv LOGSIZE ws : forall s s',
  tx_writes LOGSIZE ws s = Ok (tt, s') ->
  log_wf LOGSIZE (k_log s) ->
  (forall b, b ∈ ws.*1 ->
     b < log_start (k_log s) \/ log_start (k_log s) + log_size (k_log s) <= b) ->
  tx_post LOGSIZE ws s s'.
Proof.
  induction ws as [|[b d] ws IH]; intros s s' Hrun Hwf Hout.
  - simpl in Hrun. injection Hrun as <-. unfold tx_post.
    do 8 (split; [done|]). exists []. rewrite !app_nil_r.
    split; [done|]. split; [done|]. split.
    + intros b. destruct (decide _) as [Hin|_]; [by apply elem_of_nil in Hin | lia].
    + intros b Hin. by apply elem_of_nil in Hin.
  - simpl in Hrun. apply bind_inv in Hrun as ([] & s1 & Hw & Hrest).
    destruct (tx_write_inv LOGSIZE b d s s1 Hw Hwf) as ((Hd1 & Hk1 & Hv1 & Hcase) & Hwf1).
    { apply Hout. simpl. apply elem_of_cons. by left. }
    assert (Hfields : log_start (k_log s1) = log_start (k_log s) /\
                      log_size (k_log s1) = log_size (k_log s) /\
                      log_outstanding (k_log s1) = log_outstanding (k_log s) /\
                      log_committing (k_log s1) = log_committing (k_log s)).
    { destruct Hcase as [(_ & -> & _)|(_ & -> & _)]; done. }
    destruct Hfields as (Hst1 & Hsz1 & Hos1 & Hcm1).
    destruct (IH s1 s' Hrest Hwf1)
      as (Hwf' & Hd' & Hk' & Hst' & Hsz' & Hos' & Hcm' & Hv' & ps1 & Hlg' & Ht' & Hp' & Hin').
    { intros b' Hb'. rewrite Hst1, Hsz1. apply Hout. simpl. apply elem_of_cons. by right. }
    unfold tx_post. split; [done|]. split; [congruence|]. split; [congruence|].
    split; [congruence|]. split; [congruence|]. split; [congruence|].
    split; [congruence|]. split.
    { intros b'. rewrite Hv'. simpl. apply apply_writes_ext. intros b''.
      rewrite Hv1. destruct (decide (b'' = b)) as [->|Hne].
      - by rewrite fn_lookup_insert.
      - by rewrite fn_lookup_insert_ne. }
    destruct Hcase as [(Hin & Hl1 & Hp1 & Ht1)|(Hnin & Hl1 & Hp1 & Ht1)].
    + exists ps1. rewrite Hl1 in Hlg'. rewrite Hp1 in Hp'. rewrite Ht1 in Ht'.
      repeat split; try done.
      intros b' Hb'. simpl. apply elem_of_cons. right. by apply Hin'.
    + exists (b :: ps1).
      assert (Hlg1 : logged (k_log s1) = logged (k_log s) ++ [b]).
      { rewrite Hl1. destruct Hwf as (Hn & Hlen & _).
        destruct (tx_write_ok_room LOGSIZE b d s s1 Hw). apply logged_append; lia. }
      rewrite Hlg1, <- app_assoc in Hlg'. simpl in Hlg'.
      split; [done|]. split; [|split].
      * rewrite Ht', Ht1, <- app_assoc. done.
      * intros b'. rewrite Hp', Hp1.
        assert (Hnd : NoDup (logged (k_log s'))) by apply Hwf'.
        rewrite Hlg' in Hnd. apply NoDup_app in Hnd as (_ & _ & Hnd).
        apply NoDup_cons in Hnd as [Hb_ps1 _].
        destruct (decide (b' = b)) as [->|Hne].
        -- rewrite fn_lookup_insert.
           destruct (decide (b ∈ ps1)); [done|].
           destruct (decide (b ∈ b :: ps1)) as [_|Hn']; [lia|].
           exfalso. apply Hn'. apply elem_of_cons. by left.
        -- rewrite fn_lookup_insert_ne by done.
           destruct (decide (b' ∈ ps1)) as [Hi|Hi];
             destruct (decide (b' ∈ b :: ps1)) as [Hi'|Hi']; try lia.
           ++ exfalso. apply Hi'. apply elem_of_cons. by right.
           ++ exfalso. apply elem_of_cons in Hi' as [?|?]; done.
      * intros b' Hb'. simpl. apply elem_of_cons.
        apply elem_of_cons in Hb' as [->|Hb']; [by left|]. right. by apply Hin'.
Qed.

Lemma crash_disk_app d evs1 evs2 :
  crash_disk d (evs1 ++ evs2) = crash_disk (crash_disk d evs1) evs2.
Proof.
  revert d. induction evs1 as [|e evs1 IH]; intros d; [done|].
  destruct e; simpl; apply IH.
Qed.

Lemma crash_disk_untouched d evs b :
  (forall e, e ∈ evs -> ~ writes_block b e) -> crash_disk d evs b = d b.
Proof.
  revert d. induction evs as [|e evs IH]; intros d Hno; [done|].
  assert (Hrest : forall e', e' ∈ evs -> ~ writes_block b e').
  { intros e' He'. apply Hno. apply elem_of_cons. by right. }
  assert (He : ~ writes_block b e) by (apply Hno, elem_of_cons; by left).
  destruct e as [x y| | | |]; simpl; rewrite IH by done; try done.
  rewrite fn_lookup_insert_ne; [done|]. intros ->. by apply He.
Qed.

Lemma elem_of_flat_map_seqZ {A : Type} (f : Z -> list A) (k : Z) (e : A) :
  e ∈ flat_map f (seqZ 0 k) -> exists j, 0 <= j < k /\ e ∈ f j.
Proof.
  intros He. apply list_elem_of_In, in_flat_map in He as (j & Hj & He).
  apply list_elem_of_In, elem_of_seqZ in Hj. exists j. split; [lia|].
  by apply list_elem_of_In.
Qed.

Lemma phase_write_log_elem s e :
  e ∈ phase_write_log s ->
  exists j, 0 <= j < lh_n (log_lh (k_log s)) /\
            e = EvBwrite (slot (k_log s) j) (bview s (blk (k_log s) j)).
Proof.
  intros He. apply elem_of_flat_map_seqZ in He as (j & Hj & He).
  exists j. split; [done|]. by apply list_elem_of_singleton in He.
Qed.

Lemma phase_install_elem unpin s e :
  e ∈ phase_install unpin s ->
  exists j, 0 <= j < lh_n (log_lh (k_log s)) /\
            (e = EvBwrite (blk (k_log s) j) (bview s (blk (k_log s) j)) \/
             e = EvBunpin (blk (k_log s) j)).
Proof.
  intros He. apply elem_of_flat_map_seqZ in He as (j & Hj & He).
  exists j. split; [done|]. unfold copy_events in He.
  apply elem_of_cons in He as [->|He]; [by left|].
  destruct unpin; [|by apply elem_of_nil in He].
  apply list_elem_of_singleton in He. by right.
Qed.

(** After the whole log-write phase, log slot [j] holds the payload of the
    [j]-th logged block. *)
Lemma crash_disk_write_log d s j :
  0 <= j < lh_n (log_lh (k_log s)) ->
  crash_disk d (phase_write_log s) (slot (k_log s) j) = bview s (blk (k_log s) j).
Proof.
  intros Hj. unfold phase_write_log.
  replace (lh_n (log_lh (k_log s))) with (j + (1 + (lh_n (log_lh (k_log s)) - j - 1)))
    by lia.
  rewrite seqZ_app by lia. rewrite (seqZ_app _ 1) by lia.
  rewrite !flat_map_app, !crash_disk_app.
  rewrite crash_disk_untouched.
  - change (seqZ (0 + j) 1) with [0 + j]. simpl. rewrite Z.add_0_l.
    by rewrite fn_lookup_insert.
  - intros e He. apply list_elem_of_In, in_flat_map in He as (i & Hi & He).
    apply list_elem_of_In, elem_of_seqZ in Hi.
    simpl in He. destruct He as [<-|[]]. simpl. unfold slot. lia.
Qed.

(** A crash point before an event [c]: the events so far are a prefix of
    the ones issued before [c]. *)
Lemma prefix_before {A : Type} (hw : A -> Prop) (pre post P R : list A) :
  pre ++ post = P ++ R ->
  (forall e, e ∈ pre -> ~ hw e) ->
  (R = [] \/ exists c R', R = c :: R' /\ hw c) ->
  exists q, P = pre ++ q.
Proof.
  revert P. induction pre as [|e pre IH]; intros P Heq Hpre HR.
  - by exists P.
  - destruct P as [|p P].
    + exfalso. simpl in Heq. destruct HR as [->|(c & R' & -> & Hc)]; [done|].
      injection Heq as <- _. apply (Hpre e); [apply elem_of_cons; by left | done].
    + simpl in Heq. injection Heq as -> Heq.
      destruct (IH P Heq) as (q & ->); [|done|by exists q].
      intros e' He'. apply Hpre. apply elem_of_cons. by right.
Qed.

Lemma prefix_nonfinal {A : Type} (pre post P : list A) (z : A) :
  pre ++ post = P ++ [z] -> post <> [] -> exists q, P = pre ++ q.
Proof.
  revert P. induction pre as [|e pre IH]; intros P Heq Hpost.
  - by exists P.
  - destruct P as [|p P].
    + exfalso. simpl in Heq. injection Heq as _ Heq.
      apply app_eq_nil in Heq as [_ ->]. done.
    + simpl in Heq. injection Heq as -> Heq.
      destruct (IH P Heq Hpost) as (q & ->). by exists q.
Qed.

(** A crash point between two events [c] and [z]: [c] has been issued,
    [z] has not. *)
Lemma split_between {A : Type} (hw : A -> Prop) (pre post P1 P3 : list A) (c z : A) :
  pre ++ post = P1 ++ c :: P3 ++ [z] ->
  (exists e, e ∈ pre /\ hw e) ->
  (exists e, e ∈ post /\ hw e) ->
  (forall e, e ∈ P1 -> ~ hw e) ->
  exists q q', pre = P1 ++ c :: q /\ P3 = q ++ q'.
Proof.
  revert pre. induction P1 as [|p P1 IH]; intros pre Heq Hpre Hpost HP1.
  - destruct pre as [|e pre].
    + destruct Hpre as (e & He & _). by apply elem_of_nil in He.
    + simpl in Heq. injection Heq as -> Heq.
      destruct (prefix_nonfinal pre post P3 z Heq) as (q' & ->).
      * destruct Hpost as (e & He & _). intros ->. by apply elem_of_nil in He.
      * by exists pre, q'.
  - destruct pre as [|e pre].
    + destruct Hpre as (e & He & _). by apply elem_of_nil in He.
    + simpl in Heq. injection Heq as -> Heq.
      destruct (IH pre Heq) as (q & q' & -> & ->).
      * destruct Hpre as (e & He & Hhw). exists e. split; [|done].
        apply elem_of_cons in He as [->|He]; [|done].
        exfalso. apply (HP1 p); [apply elem_of_cons; by left | done].
      * done.
      * intros e He. apply HP1. apply elem_of_cons. by right.
      * by exists q, q'.
Qed.

Lemma initlog_boot_wrap LOGSIZE BSIZE dev st sz d :
  sizeof_logheader LOGSIZE < BSIZE ->
  initlog LOGSIZE BSIZE dev st sz (boot_state LOGSIZE d) =
  recover_from_log (mounted LOGSIZE dev (int_wrap st) (int_wrap sz) d).
Proof.
  intros Hsz. unfold initlog.
  destruct (Z.leb_spec BSIZE (sizeof_logheader LOGSIZE)); [lia|]. done.
Qed.

Lemma initlog_boot LOGSIZE BSIZE dev st sz d :
  sizeof_logheader LOGSIZE < BSIZE ->
  int_ok st -> int_ok sz ->
  initlog LOGSIZE BSIZE dev st sz (boot_state LOGSIZE d) =
  recover_from_log (mounted LOGSIZE dev st sz d).
Proof.
  intros Hsz Hst Hnlog. rewrite initlog_boot_wrap by done.
  by rewrite (int_wrap_id st), (int_wrap_id sz).
Qed.

Lemma bview_mounted LOGSIZE dev st sz d b :
  bview (mounted LOGSIZE dev st sz d) b = d b.
Proof. unfold bview, mounted. simpl. by rewrite lookup_empty. Qed.

(** [initlog] on a well-formed disk leaves the system in its initial
    state: an empty log, no transaction open, no commit in progress. *)
Lemma initlog_sys_init LOGSIZE BSIZE dev st sz d n ts :
  sizeof_logheader LOGSIZE < BSIZE ->
  (forall b, Z.of_nat (length (d b)) * 4 = BSIZE) ->
  d st !! O = Some n -> n <= LOGSIZE ->
  0 <= LOGSIZE -> 0 <= st -> st + LOGSIZE < 2147483648 ->
  (forall j, 0 <= j < n -> hdr_blk (d st) j <> st + j + 1) ->
  Forall (fun t => t = TIdle) ts ->
  exists k, initlog LOGSIZE BSIZE dev st sz (boot_state LOGSIZE d) = Ok (tt, k) /\
            sys_init LOGSIZE (Sys k ts).
Proof.
  intros Hsz Hblocks Hn HnL HL0 Hst0 Hmax Hself Hidle. rewrite initlog_boot_wrap by done.
  rewrite (int_wrap_id st) by (unfold int_ok; lia).
  assert (Hlen : (0 < length (d st))%nat) by (apply lookup_lt_Some in Hn; lia).
  destruct (recover_total (mounted LOGSIZE dev st (int_wrap sz) d) n)
    as (k & Hrun & _ & Hn0 & HlenB & _ & _ & _ & Ho & Hc).
  - by rewrite bview_mounted.
  - rewrite bview_mounted. simpl. pose proof (Hblocks st).
    unfold sizeof_logheader in Hsz. lia.
  - simpl. rewrite length_replicate. lia.
  - simpl. lia.
  - simpl. lia.
  - intros b. rewrite bview_mounted. pose proof (Hblocks b). pose proof (Hblocks st). lia.
  - intros j Hj. rewrite bview_mounted. simpl. by apply Hself.
  - exists k. split; [done|]. unfold sys_init. simpl in *.
    rewrite length_replicate in HlenB. done.
Qed.

(** ** The commit engine: structure and crash behaviour *)

(** C3.  [commit] does nothing when the header count is 0.  Otherwise it
    runs its four phases in order, each finished before the next starts,
    as the sequence of its block writes shows: (1) for every logged slot
    [i] the cached payload of block [block[i]] is written to disk block
    [log.start + 1 + i]; (2) the header block is written with the true
    count; (3) every log slot is written to its home block (and the block
    unpinned); (4) the count is set to 0 and the header block written
    again. *)
Theorem commit_four_phases (s : kstate) :
  (lh_n (log_lh (k_log s)) = 0 -> commit s = Ok (tt, s)) /\
  (commit_ready s -> 0 < lh_n (log_lh (k_log s)) ->
   exists s', commit s = Ok (tt, s') /\
     k_trace s' = k_trace s
       ++ flat_map (fun i => [EvBwrite (log_start (k_log s) + i + 1)
                                       (bview s (blk (k_log s) i))])
                   (seqZ 0 (lh_n (log_lh (k_log s))))
       ++ [EvBwrite (log_start (k_log s)) (hdr_commit s)]
       ++ flat_map (fun i => [EvBwrite (blk (k_log s) i) (bview s (blk (k_log s) i));
                              EvBunpin (blk (k_log s) i)])
                   (seqZ 0 (lh_n (log_lh (k_log s))))
       ++ [EvBwrite (log_start (k_log s)) (hdr_clear s)] /\
     hdr_commit s !! O = Some (lh_n (log_lh (k_log s))) /\
     hdr_clear s !! O = Some 0 /\
     lh_n (log_lh (k_log s')) = 0 /\
     (forall i, 0 <= i < lh_n (log_lh (k_log s)) ->
        k_disk s' (log_start (k_log s) + i + 1) = bview s (blk (k_log s) i) /\
        k_disk s' (blk (k_log s) i) = bview s (blk (k_log s) i))).
Proof.
  split; [apply commit_noop|].
  - intros Hready Hpos.
    destruct (commit_ok s Hready Hpos) as (s' & Hrun & Hl & _ & Ht & Hblk & _).
    exists s'. split; [done|]. split; [exact Ht|].
    split; [done|]. split; [done|]. split; [by rewrite Hl|].
    intros i Hi. destruct (Hblk i Hi) as (Hd & _ & _ & Hs). done.
Qed.

(** C1.  Atomicity before the commit point.  Take any sequence [ws] of
    buffer updates logged with [log_write] inside an open transaction,
    followed by the commit.  If the machine crashes at any moment before
    the header-commit write (the events [pre] issued so far contain no
    write of the header block), while the header on disk still holds
    count 0, then the recovery run of the next boot returns and leaves
    every block outside the log's data slots, hence the home location of
    every logged block, as it was on disk before the transaction. *)
Theorem atomic_before_commit_point (LOGSIZE BSIZE : Z) (s0 s1 : kstate)
    (ws : list (Z * list Z)) :
  log_wf LOGSIZE (k_log s0) ->
  sizeof_logheader LOGSIZE < BSIZE ->
  (Z.to_nat LOGSIZE < length (bview s0 (log_start (k_log s0))))%nat ->
  k_disk s0 (log_start (k_log s0)) !! O = Some 0 ->
  (forall b, b ∈ ws.*1 ->
     b < log_start (k_log s0) \/ log_start (k_log s0) + log_size (k_log s0) <= b) ->
  tx_writes LOGSIZE ws s0 = Ok (tt, s1) ->
  exists s2, commit s1 = Ok (tt, s2) /\
    forall pre post,
      k_trace s2 = k_trace s0 ++ pre ++ post ->
      (forall e, e ∈ pre -> ~ writes_block (log_start (k_log s0)) e) ->
      exists sf,
        initlog LOGSIZE BSIZE (log_dev (k_log s0)) (log_start (k_log s0))
                (log_size (k_log s0))
                (boot_state LOGSIZE (crash_disk (k_disk s0) pre)) = Ok (tt, sf) /\
        forall b,
          b <= log_start (k_log s0) \/ log_start (k_log s0) + log_size (k_log s0) <= b ->
          k_disk sf b = k_disk s0 b.
Proof.
  intros Hwf0 Hsz Hhdr Hcount Hout Hrun.
  destruct (tx_writes_inv LOGSIZE ws s0 s1 Hrun Hwf0 Hout)
    as (Hwf1 & Hd1 & Hk1 & Hst1 & Hsz1 & _ & _ & Hv1 & ps & Hlg1 & Ht1 & _ & _).
  set (st := log_start (k_log s0)) in *.
  pose proof Hwf1 as ((Hn1 & Hn1') & Hlen1 & _ & Hnd1 & Hroom1 & Hout1).
  pose proof Hwf0 as (_ & _ & (Hst0 & Hmax & Hszr) & _). fold st in Hst0, Hmax.
  (* the commit returns, and whatever had been issued before the header
     write is a pin or a write to a log slot *)
  assert (Hcommit : exists s2, commit s1 = Ok (tt, s2) /\
            exists R, k_trace s2 = k_trace s0 ++ ((EvBpin <$> ps) ++ phase_write_log s1) ++ R /\
              (R = [] \/ exists c R', R = c :: R' /\ writes_block st c)).
  { destruct (decide (lh_n (log_lh (k_log s1)) = 0)) as [H0|Hne].
    - exists s1. split; [by apply commit_noop|]. exists [].
      split; [|by left]. unfold phase_write_log. rewrite H0.
      simpl. by rewrite !app_nil_r.
    - destruct (commit_ok s1) as (s2 & Hc & _ & _ & Ht2 & _); [|lia|].
      { eapply log_wf_commit_ready; [done|]. rewrite Hst1. fold st.
        rewrite Hv1, apply_writes_other; [done|].
        intros Hin. apply Hout in Hin. fold st in Hin. lia. }
      exists s2. split; [done|]. eexists. split.
      + rewrite Ht2, Ht1. unfold commit_trace. rewrite <- !app_assoc. reflexivity.
      + right. eexists _, _. split; [reflexivity|]. simpl. by rewrite Hst1. }
  destruct Hcommit as (s2 & Hc & R & Ht2 & HR).
  exists s2. split; [done|]. intros pre post Htr Hpre.
  rewrite Ht2 in Htr. apply app_inv_head in Htr.
  destruct (prefix_before (writes_block st) pre post _ R (eq_sym Htr) Hpre HR) as (q & Hq).
  assert (Huntouched : forall b, b <= st \/ st + log_size (k_log s0) <= b ->
            crash_disk (k_disk s0) pre b = k_disk s0 b).
  { intros b Hb. apply crash_disk_untouched. intros e He.
    assert (He' : e ∈ (EvBpin <$> ps) ++ phase_write_log s1).
    { rewrite Hq. apply elem_of_app. by left. }
    apply elem_of_app in He' as [He'|He'].
    - apply list_elem_of_fmap in He' as (x & -> & _). simpl. tauto.
    - apply phase_write_log_elem in He' as (j & Hj & ->). simpl.
      unfold slot. rewrite Hst1. fold st. rewrite Hsz1 in Hroom1. lia. }
  rewrite initlog_boot by first [done | unfold int_ok; lia].
  destruct (recover_noop (mounted LOGSIZE (log_dev (k_log s0)) st (log_size (k_log s0))
                            (crash_disk (k_disk s0) pre)))
    as (sf & Hrec & Hdf & _).
  { rewrite bview_mounted. simpl. rewrite Huntouched by lia. done. }
  { by rewrite bview_mounted. }
  { simpl. lia. }
  exists sf. split; [done|]. intros b Hb.
  rewrite Hdf. simpl. by apply Huntouched.
Qed.

Lemma hdr_commit_blocks s :
  (Z.to_nat (lh_n (log_lh (k_log s))) <= length (lh_block (log_lh (k_log s))))%nat ->
  hdr_blocks (lh_n (log_lh (k_log s))) (hdr_commit s) = logged (k_log s).
Proof.
  intros Hlen. unfold hdr_blocks, hdr_commit, hdr_encode, logged. simpl.
  rewrite drop_0. rewrite take_app_length'; [done|].
  rewrite length_take. lia.
Qed.

Lemma hdr_commit_blk s j :
  0 <= j < lh_n (log_lh (k_log s)) ->
  (Z.to_nat (lh_n (log_lh (k_log s))) <= length (lh_block (log_lh (k_log s))))%nat ->
  hdr_blk (hdr_commit s) j = blk (k_log s) j.
Proof.
  intros Hj Hlen. unfold hdr_blk, hdr_commit, hdr_encode, blk. simpl.
  rewrite lookup_app_l by (rewrite length_take; lia).
  by rewrite lookup_take_lt by lia.
Qed.

Lemma hdr_commit_length s :
  (Z.to_nat (lh_n (log_lh (k_log s))) <= length (lh_block (log_lh (k_log s))))%nat ->
  (Z.to_nat (lh_n (log_lh (k_log s))) < length (bview s (log_start (k_log s))))%nat ->
  length (hdr_commit s) = length (bview s (log_start (k_log s))).
Proof.
  intros HlenB Hlen. unfold hdr_commit, hdr_encode. simpl.
  rewrite length_app, length_take, length_drop. lia.
Qed.

(** C2.  Durability after the commit point.  [commit] of a log with a
    positive count writes the header block exactly twice: the header-commit
    write, with the true count and block list, after the log slots have
    been written, and the header-clear write at the very end; what it does
    in between is the install phase.  So the crash points strictly after
    the header-commit write and before the header-clear write are those
    after the header-commit write and any part [q] of the install phase,
    none of it ([q = []], the commit point itself) included.  At every one
    of them the recovery run of the next boot returns, having copied log
    slot [i] to home block [block[i]] for every [i] below the count, each
    exactly once and in order, and then written a header with count 0:
    every logged block holds the payload it had in the cache when [commit]
    was called. *)
Theorem durable_after_commit_point (LOGSIZE BSIZE : Z) (s : kstate) :
  log_wf LOGSIZE (k_log s) ->
  0 < lh_n (log_lh (k_log s)) ->
  sizeof_logheader LOGSIZE < BSIZE ->
  (Z.to_nat LOGSIZE < length (bview s (log_start (k_log s))))%nat ->
  exists s', commit s = Ok (tt, s') /\
    k_trace s' = k_trace s ++ phase_write_log s
                   ++ [EvBwrite (log_start (k_log s)) (hdr_commit s)]
                   ++ phase_install true s
                   ++ [EvBwrite (log_start (k_log s)) (hdr_clear s)] /\
    hdr_commit s !! O = Some (lh_n (log_lh (k_log s))) /\
    hdr_blocks (lh_n (log_lh (k_log s))) (hdr_commit s) = logged (k_log s) /\
    (forall e, e ∈ phase_write_log s ++ phase_install true s ->
       ~ writes_block (log_start (k_log s)) e) /\
    forall q q', phase_install true s = q ++ q' ->
      exists sf,
        initlog LOGSIZE BSIZE (log_dev (k_log s)) (log_start (k_log s))
                (log_size (k_log s))
                (boot_state LOGSIZE
                   (crash_disk (k_disk s)
                      (phase_write_log s
                         ++ [EvBwrite (log_start (k_log s)) (hdr_commit s)] ++ q)))
          = Ok (tt, sf) /\
        k_trace sf =
          flat_map (fun i => [EvBwrite (blk (k_log s) i) (bview s (blk (k_log s) i))])
                   (seqZ 0 (lh_n (log_lh (k_log s))))
          ++ [EvBwrite (log_start (k_log s)) (hdr_clear s)] /\
        (forall i, 0 <= i < lh_n (log_lh (k_log s)) ->
           k_disk sf (blk (k_log s) i) = bview s (blk (k_log s) i)) /\
        k_disk sf (log_start (k_log s)) = hdr_clear s /\
        hdr_clear s !! O = Some 0 /\
        lh_n (log_lh (k_log sf)) = 0.
Proof.
  intros Hwf Hpos Hsz Hhdr.
  pose proof Hwf as ((Hn & HnL) & HlenB & (Hst0 & Hmax & Hszr) & Hnd & Hroom & Hout).
  set (L := k_log s) in *. set (st := log_start L) in *.
  set (n := lh_n (log_lh L)) in *.
  assert (HlenB' : (Z.to_nat n <= length (lh_block (log_lh L)))%nat) by lia.
  assert (Hhdr' : (Z.to_nat n < length (bview s st))%nat) by lia.
  destruct (commit_ok s) as (s' & Hc & _ & _ & Ht & _); [|done|].
  { eapply log_wf_commit_ready; done. }
  assert (Hblk_out : forall j, 0 <= j < n -> outside_log L (blk L j)).
  { intros j Hj. eapply log_wf_outside; [done|]. by apply blk_logged. }
  assert (Hblocks : hdr_blocks n (hdr_commit s) = logged L)
    by (by apply hdr_commit_blocks).
  assert (Hinst : forall e b, e ∈ phase_install true s ->
            (forall j, 0 <= j < n -> blk L j <> b) -> ~ writes_block b e).
  { intros e b He Hb.
    apply phase_install_elem in He as (j & Hj & [->| ->]); simpl; [|tauto].
    by apply Hb. }
  assert (Hne_st : forall j, 0 <= j < n -> blk L j <> st).
  { intros j Hj. destruct (Hblk_out j Hj) as [H|H]; fold st n in H; lia. }
  exists s'. split; [done|].
  split; [by rewrite Ht|].
  split; [done|]. split; [done|]. split.
  { intros e He. apply elem_of_app in He as [He|He].
    - apply phase_write_log_elem in He as (j & Hj & ->). simpl.
      unfold slot. fold L st n in Hj |- *. lia.
    - by apply (Hinst e st He). }
  intros q q' Hq.
  assert (Hq_elem : forall e b, e ∈ q -> (forall j, 0 <= j < n -> blk L j <> b) ->
            ~ writes_block b e).
  { intros e b He Hb. apply Hinst; [|done]. rewrite Hq. apply elem_of_app. by left. }
  change (phase_write_log s ++ [EvBwrite st (hdr_commit s)] ++ q)
    with (phase_write_log s ++ EvBwrite st (hdr_commit s) :: q).
  set (dc := crash_disk (k_disk s) (phase_write_log s ++ EvBwrite st (hdr_commit s) :: q)).
  assert (Hdc_st : dc st = hdr_commit s).
  { unfold dc. rewrite crash_disk_app. simpl. rewrite crash_disk_untouched.
    - by rewrite fn_lookup_insert.
    - intros e He. apply (Hq_elem e st He). intros j Hj.
      destruct (Hblk_out j Hj) as [H|H]; fold st n in H; lia. }
  assert (Hdc_slot : forall j, 0 <= j < n -> dc (st + j + 1) = bview s (blk L j)).
  { intros j Hj. unfold dc. rewrite crash_disk_app. simpl. rewrite crash_disk_untouched.
    - rewrite fn_lookup_insert_ne by lia. by apply (crash_disk_write_log _ s j).
    - intros e He. apply (Hq_elem e _ He). intros i Hi.
      destruct (Hblk_out i Hi) as [H|H]; fold st n in H; lia. }
  rewrite initlog_boot by first [done | unfold int_ok; fold L st; lia].
  set (sr := mounted LOGSIZE (log_dev L) st (log_size L) dc).
  destruct (recover_ok sr n) as (sf & Hrec & Hlf & _ & _ & Htf & Hdf & Hstf & _).
  { unfold sr. rewrite bview_mounted. simpl. by rewrite Hdc_st. }
  { done. }
  { unfold sr. rewrite bview_mounted. simpl. rewrite Hdc_st, hdr_commit_length; done. }
  { simpl. rewrite length_replicate. lia. }
  { done. }
  { simpl. fold st. lia. }
  { unfold sr. rewrite bview_mounted. simpl. by rewrite Hdc_st, Hblocks. }
  { unfold sr. rewrite bview_mounted. simpl. rewrite Hdc_st, Hblocks.
    intros b Hb. destruct (log_wf_outside _ _ _ Hwf Hb) as [H|H]; fold st n in H; lia. }
  unfold sr in Htf, Hdf, Hstf, Hlf. simpl in Htf, Hdf, Hstf, Hlf.
  rewrite bview_mounted, Hdc_st in Htf, Hdf, Hstf.
  exists sf. split; [done|]. split; [|split; [|split; [|split]]].
  - rewrite Htf. f_equal. apply flat_map_seqZ_ext. intros j Hj.
    rewrite bview_mounted. rewrite hdr_commit_blk by done.
    fold st. by rewrite Hdc_slot.
  - intros i Hi.
    assert (Hb : hdr_blk (hdr_commit s) i = blk L i) by (by apply hdr_commit_blk).
    specialize (Hdf i Hi). rewrite Hb in Hdf.
    rewrite Hdf, bview_mounted. by apply Hdc_slot.
  - exact Hstf.
  - done.
  - by rewrite Hlf.
Qed.


(** ** Log absorption *)




(** ** Pins *)

(** C10.  Pin discipline.  (1) A [log_write] that returns pins the buffer
    exactly when it appends its block number; an absorbed write pins
    nothing.  (2) The install phase called from [commit] (recovering = 0)
    unpins each logged block once, right after writing it home.  (3) The
    install run of recovery (recovering = 1) unpins nothing.  (4) Over a
    batch that starts with an empty log, each distinct logged block has
    its pin count raised by one when the writes are done, and [commit]
    brings every pin count back to where it was. *)
Theorem pin_discipline (LOGSIZE : Z) (s0 s1 : kstate) (ws : list (Z * list Z)) :
  log_wf LOGSIZE (k_log s0) ->
  lh_n (log_lh (k_log s0)) = 0 ->
  (Z.to_nat LOGSIZE < length (bview s0 (log_start (k_log s0))))%nat ->
  (forall b, b ∈ ws.*1 ->
     b < log_start (k_log s0) \/ log_start (k_log s0) + log_size (k_log s0) <= b) ->
  tx_writes LOGSIZE ws s0 = Ok (tt, s1) ->
  (forall b s s',
     0 <= lh_n (log_lh (k_log s)) ->
     length (lh_block (log_lh (k_log s))) = Z.to_nat LOGSIZE ->
     log_write LOGSIZE b s = Ok (tt, s') ->
     ((b ∈ logged (k_log s)) /\ k_pin s' = k_pin s /\ k_trace s' = k_trace s) \/
     ((b ∉ logged (k_log s)) /\ logged (k_log s') = logged (k_log s) ++ [b] /\
      k_pin s' = <[b := k_pin s b + 1]> (k_pin s) /\
      k_trace s' = k_trace s ++ [EvBpin b])) /\
  (exists s2, install_trans 0 s1 = Ok (tt, s2) /\
     k_trace s2 = k_trace s1 ++
       flat_map (fun i => [EvBwrite (blk (k_log s1) i) (bview s1 (slot (k_log s1) i));
                           EvBunpin (blk (k_log s1) i)])
                (seqZ 0 (lh_n (log_lh (k_log s1)))) /\
     (forall b, k_pin s2 b = k_pin s1 b - (if decide (b ∈ logged (k_log s1)) then 1 else 0))) /\
  (exists s2, install_trans 1 s1 = Ok (tt, s2) /\
     k_trace s2 = k_trace s1 ++
       flat_map (fun i => [EvBwrite (blk (k_log s1) i) (bview s1 (slot (k_log s1) i))])
                (seqZ 0 (lh_n (log_lh (k_log s1)))) /\
     (forall b, k_pin s2 b = k_pin s1 b)) /\
  (forall b, k_pin s1 b = k_pin s0 b + (if decide (b ∈ logged (k_log s1)) then 1 else 0)) /\
  (exists s2, commit s1 = Ok (tt, s2) /\ forall b, k_pin s2 b = k_pin s0 b).
Proof.
  intros Hwf0 Hn0 Hhdr Hout Hrun.
  destruct (tx_writes_inv LOGSIZE ws s0 s1 Hrun Hwf0 Hout)
    as (Hwf1 & Hd1 & Hk1 & Hst1 & Hsz1 & _ & _ & Hv1 & ps & Hlg1 & Ht1 & Hp1 & _).
  assert (Hlg0 : logged (k_log s0) = []) by (unfold logged; by rewrite Hn0).
  rewrite Hlg0 in Hlg1. simpl in Hlg1.
  pose proof Hwf1 as ((Hn1 & Hn1') & Hlen1 & (Hst0 & Hmax & _) & Hnd1 & Hroom1 & Hout1).
  assert (Hlen1' : (Z.to_nat (lh_n (log_lh (k_log s1))) <=
                    length (lh_block (log_lh (k_log s1))))%nat) by lia.
  assert (Hpins : forall unpin s2,
            copied unpin (slot (k_log s1)) (blk (k_log s1))
                   (lh_n (log_lh (k_log s1))) s1 s2 ->
            forall b, k_pin s2 b =
              k_pin s1 b - (if decide (b ∈ logged (k_log s1))
                            then (if unpin then 1 else 0) else 0)).
  { intros unpin s2 (_ & _ & Hdst & Hoth & _) b.
    destruct (decide (b ∈ logged (k_log s1))) as [Hin|Hnin].
    - apply logged_blk in Hin as (j & Hj & <-); [|done].
      destruct (Hdst j Hj) as (_ & _ & ->). destruct unpin; lia.
    - destruct (Hoth b) as (_ & _ & ->); [|lia].
      intros j Hj <-. apply Hnin. by apply blk_logged. }
  split; [|split; [|split; [|split]]].
  - intros b s s' Hn Hlen Hlw.
    destruct (log_write_returns _ _ _ _ Hlw) as (HnL & _).
    destruct (log_write_inv _ _ _ _ Hlw) as (_ & _ & _ & [(Hin & _ & Hp & Ht)|(Hnin & Hl & Hp & Ht)]);
      try done; try lia.
    + by left.
    + right. split; [done|]. split; [|done]. rewrite Hl. apply logged_append; lia.
  - destruct (install_trans_ok 0 s1) as (s2 & Hi & Hcop); try done; try lia.
    { intros b Hb. by eapply log_wf_outside. }
    exists s2. split; [done|]. split; [apply Hcop|].
    intros b. rewrite (Hpins _ _ Hcop). simpl. by destruct (decide _).
  - destruct (install_trans_ok 1 s1) as (s2 & Hi & Hcop); try done; try lia.
    { intros b Hb. by eapply log_wf_outside. }
    exists s2. split; [done|]. split; [apply Hcop|].
    intros b. rewrite (Hpins _ _ Hcop). simpl. destruct (decide _); lia.
  - intros b. rewrite Hp1, Hlg1. done.
  - destruct (decide (lh_n (log_lh (k_log s1)) = 0)) as [H0|Hne].
    + exists s1. split; [by apply commit_noop|].
      intros b. rewrite Hp1.
      assert (ps = []) as ->.
      { rewrite <- Hlg1. unfold logged. by rewrite H0. }
      destruct (decide (b ∈ [])) as [Hin|_]; [by apply elem_of_nil in Hin | lia].
    + destruct (commit_ok s1) as (s2 & Hc & _ & _ & _ & Hblk & _ & _ & Hpoth & _); [|lia|].
      { eapply log_wf_commit_ready; [done|]. rewrite Hst1.
        rewrite Hv1, apply_writes_other; [done|].
        intros Hin. apply Hout in Hin. lia. }
      exists s2. split; [done|]. intros b. rewrite <- Hlg1 in Hp1.
      destruct (decide (b ∈ logged (k_log s1))) as [Hin|Hnin].
      * pose proof (Hp1 b) as Hpb. destruct (decide (b ∈ logged (k_log s1))); [|done].
        apply logged_blk in Hin as (j & Hj & <-); [|done].
        destruct (Hblk j Hj) as (_ & _ & -> & _). lia.
      * rewrite Hpoth by done. rewrite Hp1.
        destruct (decide (b ∈ logged (k_log s1))); [done|lia].
Qed.

Lemma keeps_log_ret {A : Type} (a : A) : keeps_log (mret a).
Proof. intros s a' s' H. by injection H as _ <-. Qed.

Lemma keeps_log_bind {A B : Type} (m : M A) (f : A -> M B) :
  keeps_log m -> (forall a, keeps_log (f a)) -> keeps_log (m ≫= f).
Proof.
  intros Hm Hf s b s' H. apply bind_inv in H as (a & s1 & H1 & H2).
  rewrite (Hf a _ _ _ H2). by apply (Hm _ _ _ H1).
Qed.

Lemma keeps_log_get_log : keeps_log get_log.
Proof. intros s a s' H. by injection H as _ <-. Qed.

Lemma keeps_log_of_option {A : Type} (o : option A) : keeps_log (of_option o).
Proof.
  destruct o as [x|]; [exact (keeps_log_ret x)|]. intros s a s' H. done.
Qed.

Lemma keeps_log_bread held b : keeps_log (bread held b).
Proof.
  intros s a s' H. unfold bread in H.
  destruct (decide (b ∈ held)); [done|].
  destruct (k_bcache s !! b); by injection H as _ <-.
Qed.

Lemma keeps_log_buf_data b : keeps_log (buf_data b).
Proof.
  intros s a s' H. unfold buf_data in H.
  destruct (k_bcache s !! b); [|done]. by injection H as _ <-.
Qed.

Lemma keeps_log_buf_store b d : keeps_log (buf_store b d).
Proof.
  intros s a s' H. unfold buf_store in H.
  destruct (k_bcache s !! b); [|done]. by simplify_eq.
Qed.

Lemma keeps_log_disk_write b d : keeps_log (disk_write b d).
Proof. intros s a s' H. unfold disk_write in H. by simplify_eq. Qed.

Lemma keeps_log_brelse b : keeps_log (brelse b).
Proof. apply keeps_log_ret. Qed.

Lemma keeps_log_bpin b : keeps_log (bpin b).
Proof. intros s a s' H. unfold bpin in H. by simplify_eq. Qed.

Lemma keeps_log_bunpin b : keeps_log (bunpin b).
Proof. intros s a s' H. unfold bunpin in H. by simplify_eq. Qed.

Lemma keeps_log_for_loop body :
  (forall i, keeps_log (body i)) -> forall i iters, keeps_log (for_loop body i iters).
Proof.
  intros Hb i iters. revert i. induction iters as [|k IH]; intros i.
  - apply keeps_log_ret.
  - simpl. apply keeps_log_bind; [apply Hb | intros _; apply IH].
Qed.

Create HintDb keeps.

#[local] Hint Resolve keeps_log_ret keeps_log_get_log keeps_log_of_option
  keeps_log_bread keeps_log_buf_data keeps_log_buf_store keeps_log_disk_write
  keeps_log_brelse keeps_log_bpin keeps_log_bunpin : keeps.

Ltac keeps_log_tac :=
  repeat first
    [ apply keeps_log_bind; [|intros ?]
    | apply keeps_log_for_loop; intros ?
    | match goal with |- keeps_log (if ?c then _ else _) => destruct c end
    | solve [auto with keeps] ].

Lemma keeps_log_memmove dst src : keeps_log (memmove_data dst src).
Proof. unfold memmove_data. keeps_log_tac. Qed.

Lemma keeps_log_bwrite b : keeps_log (bwrite b).
Proof. unfold bwrite. keeps_log_tac. Qed.

#[local] Hint Resolve keeps_log_memmove keeps_log_bwrite : keeps.

Lemma keeps_log_lh_block_get i : keeps_log (lh_block_get i).
Proof. unfold lh_block_get. keeps_log_tac. Qed.

Lemma keeps_log_hdr_set_n b v : keeps_log (hdr_set_n b v).
Proof. unfold hdr_set_n. keeps_log_tac. Qed.

Lemma keeps_log_hdr_set_block b i v : keeps_log (hdr_set_block b i v).
Proof. unfold hdr_set_block. keeps_log_tac. Qed.

#[local] Hint Resolve keeps_log_lh_block_get keeps_log_hdr_set_n
  keeps_log_hdr_set_block : keeps.

Lemma keeps_log_write_log : keeps_log write_log.
Proof. unfold write_log, write_log_body. keeps_log_tac. Qed.

Lemma keeps_log_install_trans r : keeps_log (install_trans r).
Proof. unfold install_trans, install_trans_body. keeps_log_tac. Qed.

Lemma keeps_log_write_head : keeps_log write_head.
Proof. unfold write_head. keeps_log_tac. Qed.

(** What [commit] does to the global [log], whenever it returns. *)
Lemma commit_log s s' :
  commit s = Ok (tt, s') ->
  k_log s' = if 0 <? lh_n (log_lh (k_log s))
             then set_lh (LogHeader 0 (lh_block (log_lh (k_log s)))) (k_log s)
             else k_log s.
Proof.
  unfold commit. rewrite (bind_ok get_log _ s (k_log s) s) by done.
  rewrite Z.gtb_ltb. destruct (0 <? lh_n (log_lh (k_log s))).
  - intros H.
    apply bind_inv in H as ([] & s1 & H1 & H).
    apply bind_inv in H as ([] & s2 & H2 & H).
    apply bind_inv in H as ([] & s3 & H3 & H).
    apply bind_inv in H as ([] & s4 & H4 & H).
    apply keeps_log_write_log in H1. apply keeps_log_write_head in H2.
    apply keeps_log_install_trans in H3. apply keeps_log_write_head in H.
    unfold set_lh_n, get_log, put_log, mbind, M_bind in H4. injection H4 as <-.
    rewrite H. simpl. by rewrite H3, H2, H1.
  - intros H. by injection H as <-.
Qed.

(** ** The admission controller *)

(** One pass of [begin_op], as the machine computes it. *)
Lemma begin_op_iter_code LOGSIZE MAXOPBLOCKS s :
  begin_op_iter LOGSIZE MAXOPBLOCKS s =
  if decide (log_committing (k_log s) = 0 /\
             int_wrap (lh_n (log_lh (k_log s))
                       + int_wrap (int_wrap (log_outstanding (k_log s) + 1) * MAXOPBLOCKS))
               <= LOGSIZE)
  then Ok (true, set_log (set_outstanding (int_wrap (log_outstanding (k_log s) + 1))
                            (k_log s)) s)
  else Ok (false, emit EvSleep s).
Proof.
  unfold begin_op_iter. rewrite (bind_ok get_log _ s (k_log s) s) by done.
  destruct (Z.eqb_spec (log_committing (k_log s)) 0) as [Hc|Hc]; simpl.
  - destruct (Z.gtb_spec (int_wrap (lh_n (log_lh (k_log s))
                + int_wrap (int_wrap (log_outstanding (k_log s) + 1) * MAXOPBLOCKS)))
                LOGSIZE).
    + destruct (decide _) as [[_ ?]|_]; [lia|done].
    + destruct (decide _) as [_|Hn]; [done|]. exfalso. apply Hn. split; [done|lia].
  - destruct (decide _) as [[? _]|_]; [done|done].
Qed.

Lemma begin_op_iter_spec LOGSIZE MAXOPBLOCKS s :
  admission_in_range MAXOPBLOCKS (k_log s) ->
  begin_op_iter LOGSIZE MAXOPBLOCKS s =
  if decide (log_committing (k_log s) = 0 /\
             lh_n (log_lh (k_log s))
               + (log_outstanding (k_log s) + 1) * MAXOPBLOCKS <= LOGSIZE)
  then Ok (true, set_log (set_outstanding (log_outstanding (k_log s) + 1) (k_log s)) s)
  else Ok (false, emit EvSleep s).
Proof.
  intros (Ho1 & Hmul & Hsum). rewrite begin_op_iter_code.
  by rewrite (int_wrap_id _ Ho1), (int_wrap_id _ Hmul), (int_wrap_id _ Hsum).
Qed.

Lemma end_op_locked_code s :
  end_op_locked s =
  if decide (log_committing (k_log s) = 0) then
    if decide (int_wrap (log_outstanding (k_log s) - 1) = 0) then
      Ok (true, set_log (set_committing 1
                  (set_outstanding (int_wrap (log_outstanding (k_log s) - 1))
                     (k_log s))) s)
    else
      Ok (false, emit EvWakeup
                   (set_log (set_outstanding (int_wrap (log_outstanding (k_log s) - 1))
                               (k_log s)) s))
  else Panic "log.committing".
Proof.
  unfold end_op_locked, get_log, put_log, wakeup_log, mbind, M_bind, mret, M_ret.
  simpl.
  destruct (Z.eqb_spec (log_committing (k_log s)) 0) as [Hc|Hc]; simpl.
  - destruct (decide _); [|done].
    destruct (Z.eqb_spec (int_wrap (log_outstanding (k_log s) - 1)) 0);
      destruct (decide _); done.
  - destruct (decide _); done.
Qed.

Lemma end_op_locked_spec s :
  int_ok (log_outstanding (k_log s) - 1) ->
  end_op_locked s =
  if decide (log_committing (k_log s) = 0) then
    if decide (log_outstanding (k_log s) - 1 = 0) then
      Ok (true, set_log (set_committing 1
                  (set_outstanding (log_outstanding (k_log s) - 1) (k_log s))) s)
    else
      Ok (false, emit EvWakeup
                   (set_log (set_outstanding (log_outstanding (k_log s) - 1) (k_log s)) s))
  else Panic "log.committing".
Proof.
  intros Ho1. rewrite end_op_locked_code. by rewrite (int_wrap_id _ Ho1).
Qed.

Lemma end_op_clear_spec s :
  end_op_clear s = Ok (tt, emit EvWakeup (set_log (set_committing 0 (k_log s)) s)).
Proof. done. Qed.


(** ** Sums over the thread table *)

Lemma tsum_insert w ts i x y :
  ts !! i = Some x -> tsum w (<[i := y]> ts) = tsum w ts - w x + w y.
Proof.
  revert i. induction ts as [|t ts IH]; intros i Hi; [done|].
  destruct i as [|i]; simpl in *.
  - injection Hi as ->. lia.
  - rewrite (IH i Hi). lia.
Qed.

Lemma tsum_nonneg w ts : (forall t, 0 <= w t) -> 0 <= tsum w ts.
Proof.
  intros Hw. induction ts as [|t ts IH]; simpl; [lia|]. specialize (Hw t). lia.
Qed.

Lemma tsum_lookup_le w ts i x :
  (forall t, 0 <= w t) -> ts !! i = Some x -> w x <= tsum w ts.
Proof.
  intros Hw. revert i. induction ts as [|t ts IH]; intros i Hi; [done|].
  destruct i as [|i]; simpl in *.
  - injection Hi as ->. pose proof (tsum_nonneg w ts Hw). lia.
  - specialize (IH i Hi). specialize (Hw t). lia.
Qed.

Lemma tsum_le w1 w2 ts :
  (forall t, t ∈ ts -> w1 t <= w2 t) -> tsum w1 ts <= tsum w2 ts.
Proof.
  induction ts as [|t ts IH]; intros Hw; simpl; [lia|].
  assert (w1 t <= w2 t) by (apply Hw, elem_of_cons; by left).
  assert (tsum w1 ts <= tsum w2 ts); [|lia].
  apply IH. intros t' Ht'. apply Hw, elem_of_cons. by right.
Qed.

Lemma tsum_scale c w ts : tsum (fun t => c * w t) ts = c * tsum w ts.
Proof. induction ts as [|t ts IH]; simpl; [lia|]. rewrite IH. lia. Qed.

Lemma tsum_all_idle w ts :
  w TIdle = 0 -> Forall (fun t => t = TIdle) ts -> tsum w ts = 0.
Proof.
  intros Hw Hall. induction Hall as [|t ts -> _ IH]; simpl; [done|]. lia.
Qed.

Lemma w_inop_nonneg t : 0 <= w_inop t.
Proof. destruct t; simpl; lia. Qed.

Lemma w_commit_nonneg t : 0 <= w_commit t.
Proof. destruct t; simpl; lia. Qed.

Ltac split_inv :=
  refine (conj _ (conj _ (conj _ (conj _ (conj _ (conj _ (conj _ _))))))).

Lemma sys_inv_init LOGSIZE MAXOPBLOCKS s :
  0 <= LOGSIZE -> sys_init LOGSIZE s -> sys_inv LOGSIZE MAXOPBLOCKS s.
Proof.
  intros HL (Hn & Hlen & Ho & Hc & Hall). unfold sys_inv. cbv zeta.
  rewrite Hn, Ho, Hc. rewrite !(tsum_all_idle _ _ eq_refl Hall).
  split_inv; try done; try lia; try (by left).
  intros t lg Ht. rewrite Forall_lookup in Hall. by apply Hall in Ht.
Qed.

Lemma no_inop_of_zero ts t lg :
  tsum w_inop ts = 0 -> ts !! t = Some (TInOp lg) -> False.
Proof.
  intros H0 Ht. pose proof (tsum_lookup_le w_inop ts t _ w_inop_nonneg Ht) as Hle.
  simpl in Hle. lia.
Qed.

Lemma note_logged_NoDup b lg : NoDup lg -> NoDup (note_logged b lg).
Proof.
  intros Hnd. unfold note_logged. destruct (decide (b ∈ lg)); [done|].
  by apply NoDup_cons.
Qed.

(** In the states of the invariant no [int] operation of the admission
    code overflows. *)
Lemma sys_inv_in_range LOGSIZE MAXOPBLOCKS s :
  1 <= MAXOPBLOCKS -> 2 * LOGSIZE + MAXOPBLOCKS < 2147483648 ->
  sys_inv LOGSIZE MAXOPBLOCKS s ->
  0 <= log_outstanding (k_log (sys_k s)) <= LOGSIZE /\
  admission_in_range MAXOPBLOCKS (k_log (sys_k s)).
Proof.
  intros HM HR (Hn & _ & _ & Hgr & Ho & _).
  pose proof (tsum_nonneg w_inop (sys_threads s) w_inop_nonneg) as Hpos.
  rewrite <- Ho in Hpos.
  assert (log_outstanding (k_log (sys_k s)) <=
          log_outstanding (k_log (sys_k s)) * MAXOPBLOCKS) by nia.
  unfold admission_in_range, int_ok. lia.
Qed.

Lemma sys_inv_step LOGSIZE MAXOPBLOCKS s s' :
  1 <= MAXOPBLOCKS -> 2 * LOGSIZE + MAXOPBLOCKS < 2147483648 ->
  sys_inv LOGSIZE MAXOPBLOCKS s -> sys_step LOGSIZE MAXOPBLOCKS s s' ->
  sys_inv LOGSIZE MAXOPBLOCKS s'.
Proof.
  intros HM HR Hinv Hstep.
  destruct (sys_inv_in_range _ _ _ HM HR Hinv) as (Horange & Hir).
  destruct Hinv as (Hn & Hlen & Hphys & Hgr & Ho & Hc & Hexcl & Hlg).
  destruct Hstep as [t k k' ts Ht Hrun | t k k' ts Ht Hrun | t lg b d k k' ts Ht Hrun
                    | t lg b k k' ts Ht Hrun | t lg dc k k' ts Ht Hrun
                    | t k k' ts Ht Hrun | t k k' ts Ht Hrun];
    simpl in *; unfold sys_inv; simpl.
  - (* begin_op admits *)
    rewrite begin_op_iter_spec in Hrun by done.
    destruct (decide _) as [[Hc0 Hcap]|]; [|done]. injection Hrun as <-. simpl.
    assert (Hw : exists x, ts !! t = Some x /\ w_inop x = 0 /\ w_commit x = 0).
    { destruct Ht as [Ht|Ht]; eexists; (split; [exact Ht|done]). }
    destruct Hw as (x & Hx & Hwi & Hwc).
    rewrite !(tsum_insert _ _ _ _ _ Hx), Hwi, Hwc. simpl.
    split_inv; try done; try lia.
    intros t' lg' Ht'.
    apply list_lookup_insert_Some in Ht' as [(_ & Ht' & _)|(_ & Ht')].
    + injection Ht' as <-. split; [constructor|].
      intros b Hb. by apply elem_of_nil in Hb.
    + by apply (Hlg _ _ Ht').
  - (* begin_op sleeps *)
    rewrite begin_op_iter_spec in Hrun by done.
    destruct (decide _); [done|]. injection Hrun as <-. simpl.
    assert (Hw : exists x, ts !! t = Some x /\ w_inop x = 0 /\ w_commit x = 0).
    { destruct Ht as [Ht|Ht]; eexists; (split; [exact Ht|done]). }
    destruct Hw as (x & Hx & Hwi & Hwc).
    rewrite !(tsum_insert _ _ _ _ _ Hx), Hwi, Hwc. simpl.
    split_inv; try done; try lia.
    intros t' lg' Ht'.
    apply list_lookup_insert_Some in Ht' as [(_ & Ht' & _)|(_ & Ht')]; [done|].
    by apply (Hlg _ _ Ht').
  - (* a caller updates a buffer *)
    assert (Hl : k_log k' = k_log k).
    { revert Hrun. apply keeps_log_bind; [auto with keeps|].
      intros a. auto with keeps. }
    rewrite Hl. done.
  - (* log_write *)
    destruct (log_write_returns _ _ _ _ Hrun) as (HnL & Hns & _).
    destruct (log_write_inv _ _ _ _ Hrun) as (_ & _ & _ & Hcase); [lia|lia|].
    rewrite !(tsum_insert _ _ _ _ _ Ht). simpl.
    destruct Hcase as [(Hin & Hl & _)|(Hnin & Hl & _)].
    + rewrite Hl. split_inv; try done; try lia.
      intros t' lg' Ht'.
      apply list_lookup_insert_Some in Ht' as [(_ & Ht' & _)|(_ & Ht')].
      * injection Ht' as <-. destruct (Hlg _ _ Ht) as (Hnd & Hsub).
        split; [by apply note_logged_NoDup|].
        intros b'. unfold note_logged. destruct (decide (b ∈ lg)); [apply Hsub|].
        intros Hb'. apply elem_of_cons in Hb' as [->|Hb']; [done|by apply Hsub].
      * by apply (Hlg _ _ Ht').
    + assert (Hlogged : logged (k_log k') = logged (k_log k) ++ [b]).
      { rewrite Hl. apply logged_append; lia. }
      rewrite Hlogged. rewrite Hl. simpl. rewrite length_insert.
      split_inv; try done; try lia.
      intros t' lg' Ht'.
      apply list_lookup_insert_Some in Ht' as [(_ & Ht' & _)|(_ & Ht')].
      * injection Ht' as <-. destruct (Hlg _ _ Ht) as (Hnd & Hsub).
        split; [by apply note_logged_NoDup|].
        intros b'. unfold note_logged. destruct (decide (b ∈ lg)).
        -- intros Hb'. apply elem_of_app. left. by apply Hsub.
        -- intros Hb'. apply elem_of_app.
           apply elem_of_cons in Hb' as [->|Hb'].
           ++ right. by apply list_elem_of_singleton.
           ++ left. by apply Hsub.
      * destruct (Hlg _ _ Ht') as (Hnd & Hsub). split; [done|].
        intros b' Hb'. apply elem_of_app. left. by apply Hsub.
  - (* end_op, first locked region *)
    pose proof (tsum_lookup_le w_inop ts t _ w_inop_nonneg Ht) as Hge1.
    simpl in Hge1.
    rewrite end_op_locked_spec in Hrun by (unfold int_ok; lia).
    destruct (decide (log_committing (k_log k) = 0)) as [Hc0|]; [|done].
    rewrite !(tsum_insert _ _ _ _ _ Ht). simpl.
    assert (Hothers : forall t' lg', <[t := if dc then TCommit else TIdle]> ts !! t'
                        = Some (TInOp lg') ->
              NoDup lg' /\ forall b, b ∈ lg' -> b ∈ logged (k_log k)).
    { intros t' lg' Ht'.
      apply list_lookup_insert_Some in Ht' as [(_ & Ht' & _)|(_ & Ht')].
      - by destruct dc.
      - by apply (Hlg _ _ Ht'). }
    destruct (decide (log_outstanding (k_log k) - 1 = 0)) as [Ho0|Ho0];
      injection Hrun as <- <-; simpl.
    + split_inv; first [done | lia | right; split; [done|lia]].
    + split_inv; first [done | lia | by left].
  - (* end_op, commit *)
    apply commit_log in Hrun. rewrite Hrun.
    rewrite !(tsum_insert _ _ _ _ _ Ht). simpl.
    pose proof (tsum_lookup_le w_commit ts t _ w_commit_nonneg Ht) as Hge.
    simpl in Hge.
    destruct Hexcl as [Hc0|[Hc1 Ho0]]; [lia|].
    assert (Hnone : forall t' lg', <[t := TClear]> ts !! t' = Some (TInOp lg') ->
              NoDup lg' /\ forall b, b ∈ lg' ->
                b ∈ logged (if 0 <? lh_n (log_lh (k_log k))
                            then set_lh (LogHeader 0 (lh_block (log_lh (k_log k)))) (k_log k)
                            else k_log k)).
    { intros t' lg' Ht'. exfalso.
      apply list_lookup_insert_Some in Ht' as [(_ & Ht' & _)|(_ & Ht')]; [done|].
      eapply no_inop_of_zero; [|exact Ht']. lia. }
    destruct (0 <? lh_n (log_lh (k_log k))); simpl in *.
    + split_inv; first [done | lia | by left | by right].
    + split_inv; first [done | lia | by left | by right].
  - (* end_op, second locked region *)
    rewrite end_op_clear_spec in Hrun. injection Hrun as <-. simpl.
    rewrite !(tsum_insert _ _ _ _ _ Ht). simpl.
    pose proof (tsum_lookup_le w_commit ts t _ w_commit_nonneg Ht) as Hge.
    simpl in Hge.
    destruct Hexcl as [Hc0|[Hc1 Ho0]]; [lia|].
    assert (Hnone : forall t' lg', <[t := TIdle]> ts !! t' = Some (TInOp lg') ->
              NoDup lg' /\ forall b, b ∈ lg' ->
                b ∈ logged (set_committing 0 (k_log k))).
    { intros t' lg' Ht'. exfalso.
      apply list_lookup_insert_Some in Ht' as [(_ & Ht' & _)|(_ & Ht')]; [done|].
      eapply no_inop_of_zero; [|exact Ht']. lia. }
    split_inv; first [done | lia | by left].
Qed.

Lemma sys_inv_reachable LOGSIZE MAXOPBLOCKS s0 s :
  0 <= LOGSIZE -> 1 <= MAXOPBLOCKS -> 2 * LOGSIZE + MAXOPBLOCKS < 2147483648 ->
  sys_init LOGSIZE s0 ->
  rtc (sys_step LOGSIZE MAXOPBLOCKS) s0 s -> sys_inv LOGSIZE MAXOPBLOCKS s.
Proof.
  intros HL HM HR Hinit. revert s. apply rtc_ind_r.
  - by apply sys_inv_init.
  - intros s1 s2 _ Hstep IH. by eapply sys_inv_step.
Qed.

Lemma reserved_le_outstanding MAXOPBLOCKS ts :
  tsum (w_reserved MAXOPBLOCKS) ts <= MAXOPBLOCKS * tsum w_inop ts.
Proof.
  rewrite <- tsum_scale. apply tsum_le. intros t _. destruct t; simpl; lia.
Qed.

Lemma budget_inv_step LOGSIZE MAXOPBLOCKS s s' :
  1 <= MAXOPBLOCKS -> 2 * LOGSIZE + MAXOPBLOCKS < 2147483648 ->
  budget_inv LOGSIZE MAXOPBLOCKS s -> budget_step LOGSIZE MAXOPBLOCKS s s' ->
  budget_inv LOGSIZE MAXOPBLOCKS s'.
Proof.
  intros HM HR (Hinv & Hbud & Hres) (Hstep & Hbud').
  split; [by eapply sys_inv_step|]. split; [done|].
  destruct (sys_inv_in_range _ _ _ HM HR Hinv) as (Horange & Hir).
  destruct Hinv as (Hn & Hlen & Hphys & Hgr & Ho & Hc & Hexcl & Hlg).
  destruct Hstep as [t k k' ts Ht Hrun | t k k' ts Ht Hrun | t lg b d k k' ts Ht Hrun
                    | t lg b k k' ts Ht Hrun | t lg dc k k' ts Ht Hrun
                    | t k k' ts Ht Hrun | t k k' ts Ht Hrun];
    simpl in *.
  - rewrite begin_op_iter_spec in Hrun by done.
    destruct (decide _) as [[Hc0 Hcap]|]; [|done]. injection Hrun as <-. simpl.
    assert (Hw : exists x, ts !! t = Some x /\ w_reserved MAXOPBLOCKS x = 0).
    { destruct Ht as [Ht|Ht]; eexists; (split; [exact Ht|done]). }
    destruct Hw as (x & Hx & Hwr).
    rewrite (tsum_insert _ _ _ _ _ Hx), Hwr. simpl.
    pose proof (reserved_le_outstanding MAXOPBLOCKS ts). lia.
  - rewrite begin_op_iter_spec in Hrun by done.
    destruct (decide _); [done|]. injection Hrun as <-. simpl.
    assert (Hw : exists x, ts !! t = Some x /\ w_reserved MAXOPBLOCKS x = 0).
    { destruct Ht as [Ht|Ht]; eexists; (split; [exact Ht|done]). }
    destruct Hw as (x & Hx & Hwr).
    rewrite (tsum_insert _ _ _ _ _ Hx), Hwr. simpl. lia.
  - assert (Hl : k_log k' = k_log k).
    { revert Hrun. apply keeps_log_bind; [auto with keeps|].
      intros a. auto with keeps. }
    by rewrite Hl.
  - destruct (log_write_returns _ _ _ _ Hrun) as (HnL & Hns & _).
    destruct (log_write_inv _ _ _ _ Hrun) as (_ & _ & _ & Hcase); [lia|lia|].
    rewrite (tsum_insert _ _ _ _ _ Ht). simpl.
    destruct Hcase as [(Hin & Hl & _)|(Hnin & Hl & _)]; rewrite Hl; simpl.
    + unfold note_logged. destruct (decide (b ∈ lg)); simpl; lia.
    + unfold note_logged. destruct (decide (b ∈ lg)) as [Hb|Hb]; simpl; [|lia].
      exfalso. apply Hnin. by apply (Hlg _ _ Ht).
  - pose proof (tsum_lookup_le w_inop ts t _ w_inop_nonneg Ht) as Hge1.
    simpl in Hge1.
    rewrite end_op_locked_spec in Hrun by (unfold int_ok; lia).
    destruct (decide (log_committing (k_log k) = 0)) as [Hc0|]; [|done].
    rewrite (tsum_insert _ _ _ _ _ Ht). simpl.
    pose proof (Hbud _ _ Ht) as Hlgb. simpl in Hlgb.
    destruct (decide (log_outstanding (k_log k) - 1 = 0));
      injection Hrun as <- <-; simpl; lia.
  - apply commit_log in Hrun. rewrite Hrun.
    rewrite (tsum_insert _ _ _ _ _ Ht). simpl.
    destruct (Z.ltb_spec 0 (lh_n (log_lh (k_log k)))); simpl; lia.
  - rewrite end_op_clear_spec in Hrun. injection Hrun as <-. simpl.
    rewrite (tsum_insert _ _ _ _ _ Ht). simpl. lia.
Qed.

Lemma budget_inv_reachable LOGSIZE MAXOPBLOCKS s0 s :
  0 <= LOGSIZE -> 1 <= MAXOPBLOCKS -> 2 * LOGSIZE + MAXOPBLOCKS < 2147483648 ->
  sys_init LOGSIZE s0 ->
  rtc (budget_step LOGSIZE MAXOPBLOCKS) s0 s -> budget_inv LOGSIZE MAXOPBLOCKS s.
Proof.
  intros HL HM HR Hinit. revert s. apply rtc_ind_r.
  - split; [by apply sys_inv_init|]. destruct Hinit as (Hn & _ & _ & _ & Hall).
    rewrite Forall_lookup in Hall. split.
    + intros t lg Ht. by apply Hall in Ht.
    + rewrite Hn. rewrite (tsum_all_idle _ _ eq_refl); [lia|].
      by apply Forall_lookup.
  - intros s1 s2 _ Hstep IH. by eapply budget_inv_step.
Qed.

(** C4, as amended.  Admission and the capacity bound.  One pass of
    [begin_op] increments [outstanding] exactly when no commit is in
    progress and
    [n + (outstanding + 1) * MAXOPBLOCKS <= LOGSIZE]; otherwise it goes to
    sleep and leaves the log as it is.  Consequently, in every state the
    thread system reaches while each open transaction logs at most
    MAXOPBLOCKS distinct blocks, the header count plus the log space still
    reserved for the open transactions (MAXOPBLOCKS each, less the blocks
    they have logged so far) is at most LOGSIZE, and so is the count.
    The count plus [outstanding * MAXOPBLOCKS] is not bounded so: a block
    that has been logged is in the count and still in the MAXOPBLOCKS of
    its transaction.
    The test is the one the machine computes as long as its operands are
    within the range of an [int]; with MAXOPBLOCKS at least 1 and
    2 * LOGSIZE + MAXOPBLOCKS an [int] they are, in every state reached. *)
Theorem admission_capacity (LOGSIZE MAXOPBLOCKS : Z) (s0 s : sys) :
  0 <= LOGSIZE ->
  1 <= MAXOPBLOCKS ->
  2 * LOGSIZE + MAXOPBLOCKS < 2147483648 ->
  sys_init LOGSIZE s0 ->
  rtc (budget_step LOGSIZE MAXOPBLOCKS) s0 s ->
  (forall k,
     admission_in_range MAXOPBLOCKS (k_log k) ->
     begin_op_iter LOGSIZE MAXOPBLOCKS k =
     if decide (log_committing (k_log k) = 0 /\
                lh_n (log_lh (k_log k))
                  + (log_outstanding (k_log k) + 1) * MAXOPBLOCKS <= LOGSIZE)
     then Ok (true, set_log (set_outstanding (log_outstanding (k_log k) + 1) (k_log k)) k)
     else Ok (false, emit EvSleep k)) /\
  admission_in_range MAXOPBLOCKS (k_log (sys_k s)) /\
  log_outstanding (k_log (sys_k s)) = tsum w_inop (sys_threads s) /\
  0 <= tsum (w_reserved MAXOPBLOCKS) (sys_threads s) /\
  lh_n (log_lh (k_log (sys_k s))) + tsum (w_reserved MAXOPBLOCKS) (sys_threads s)
    <= LOGSIZE /\
  0 <= lh_n (log_lh (k_log (sys_k s))) <= LOGSIZE.
Proof.
  intros HL HM HR Hinit Hsteps.
  destruct (budget_inv_reachable _ _ _ _ HL HM HR Hinit Hsteps) as (Hinv & Hbud & Hres).
  destruct (sys_inv_in_range _ _ _ HM HR Hinv) as (_ & Hir).
  destruct Hinv as (Hn & _ & _ & _ & Ho & _).
  split; [intros k; apply begin_op_iter_spec|].
  split; [done|]. split; [done|]. split; [|done].
  clear -Hbud. destruct s as [k ts]. simpl in *.
  induction ts as [|t ts IH]; simpl; [lia|].
  assert (0 <= w_reserved MAXOPBLOCKS t).
  { destruct t as [| |lg| |]; simpl; try lia. specialize (Hbud O lg eq_refl). lia. }
  assert (0 <= tsum (w_reserved MAXOPBLOCKS) ts); [|lia].
  apply IH. intros i lg Hi. apply (Hbud (S i) lg Hi).
Qed.

(** The bound of C4 is on the space still in reserve, not on
    [outstanding * MAXOPBLOCKS]: the latter is within LOGSIZE right after
    an admission, but the count grows with every block logged while
    [outstanding] stays. *)
Remark admission_bound_at_admission (LOGSIZE MAXOPBLOCKS : Z) (k k' : kstate) :
  admission_in_range MAXOPBLOCKS (k_log k) ->
  begin_op_iter LOGSIZE MAXOPBLOCKS k = Ok (true, k') ->
  lh_n (log_lh (k_log k')) + log_outstanding (k_log k') * MAXOPBLOCKS <= LOGSIZE.
Proof.
  intros Hir. rewrite begin_op_iter_spec by done.
  destruct (decide _) as [[_ Hcap]|]; [|done].
  intros H. injection H as <-. simpl. lia.
Qed.

(** ** [end_op] *)





(** ** Header capacity and layout *)

(** C8.  Header capacity and layout, with the log area of LOGSIZE blocks
    the spec describes ([log.size = LOGSIZE], header block included).  In
    every state the thread system reaches, [0 <= n <= LOGSIZE], and in fact
    [n <= LOGSIZE - 1], the number of data slots.  [write_head] lays the
    header block out as the count followed by the logged block numbers
    (so by at most LOGSIZE - 1 of them) and leaves the words behind them
    alone; [read_head] takes the count from word 0 and the block numbers
    from the [count] words after it, nothing else.  [log_write] panics,
    and appends nothing, whenever the count has reached the array size or
    the number of data slots.  (Block numbers and sizes are within the
    range of their C types throughout.) *)
Theorem header_capacity (LOGSIZE MAXOPBLOCKS : Z) (s0 s : sys) :
  1 <= LOGSIZE ->
  1 <= MAXOPBLOCKS ->
  2 * LOGSIZE + MAXOPBLOCKS < 2147483648 ->
  sys_init LOGSIZE s0 ->
  rtc (sys_step LOGSIZE MAXOPBLOCKS) s0 s ->
  log_size (k_log (sys_k s)) = LOGSIZE ->
  (0 <= lh_n (log_lh (k_log (sys_k s))) <= LOGSIZE /\
   lh_n (log_lh (k_log (sys_k s))) <= LOGSIZE - 1 /\
   length (lh_block (log_lh (k_log (sys_k s)))) = Z.to_nat LOGSIZE) /\
  (forall k,
     0 <= log_start (k_log k) < 4294967296 ->
     (Z.to_nat (lh_n (log_lh (k_log k))) <= length (lh_block (log_lh (k_log k))))%nat ->
     (Z.to_nat (lh_n (log_lh (k_log k))) < length (bview k (log_start (k_log k))))%nat ->
     exists k', write_head k = Ok (tt, k') /\
       k_disk k' (log_start (k_log k)) =
         lh_n (log_lh (k_log k)) :: logged (k_log k)
           ++ drop (S (Z.to_nat (lh_n (log_lh (k_log k)))))
                   (bview k (log_start (k_log k)))) /\
  (forall k nv,
     0 <= log_start (k_log k) < 4294967296 ->
     bview k (log_start (k_log k)) !! O = Some nv ->
     (Z.to_nat nv < length (bview k (log_start (k_log k))))%nat ->
     (Z.to_nat nv <= length (lh_block (log_lh (k_log k))))%nat ->
     exists k', read_head k = Ok (tt, k') /\
       lh_n (log_lh (k_log k')) = nv /\
       logged (k_log k') = take (Z.to_nat nv) (drop 1 (bview k (log_start (k_log k))))) /\
  (forall b k,
     int_ok (log_size (k_log k) - 1) ->
     LOGSIZE <= lh_n (log_lh (k_log k)) \/
     log_size (k_log k) - 1 <= lh_n (log_lh (k_log k)) ->
     log_write LOGSIZE b k = Panic "too big a transaction").
Proof.
  intros HL HM HR Hinit Hsteps Hsize.
  destruct (sys_inv_reachable LOGSIZE MAXOPBLOCKS s0 s) as (Hn & Hlen & Hphys & _);
    [lia | done | done | done | done |].
  rewrite Hsize, int_wrap_id in Hphys by (unfold int_ok; lia).
  split; [|split; [|split]].
  - split; [done|]. split; [lia|done].
  - intros k Hst HlenB Hroom.
    destruct (write_head_ok k Hst HlenB Hroom) as (k' & Hrun & _ & _ & _ & _ & Hd & _).
    exists k'. split; [done|]. rewrite Hd. by destruct (decide _).
  - intros k nv Hst Hnv Hroom HlenB.
    destruct (read_head_ok k nv Hst Hnv Hroom HlenB) as (k' & Hrun & Hl & _).
    exists k'. split; [done|]. rewrite Hl. split; [done|].
    unfold logged. simpl. rewrite take_app_length'; [done|].
    rewrite length_take, length_drop. lia.
  - intros b k. apply log_write_full.
Qed.

(** ** Cancellation of admission *)

(** C9 as stated fails.  A waiter woken by cancellation is admitted like
    any other when the wait condition holds, and [outstanding] is
    incremented: it is not true that a cancelled waiter is never admitted
    and leaves [outstanding] as it was. *)
Lemma cancellation_still_admits :
  (k_killed killed_waiter = true /\
   exists k', begin_op_iter 30 10 killed_waiter = Ok (true, k') /\
              log_outstanding (k_log k') = log_outstanding (k_log killed_waiter) + 1) /\
  ~ (forall k, k_killed k = true ->
       forall admitted k', begin_op_iter 30 10 k = Ok (admitted, k') ->
         admitted = false /\
         log_outstanding (k_log k') = log_outstanding (k_log k)).
Proof.
  split.
  - split; [done|]. eexists. split; [reflexivity|]. done.
  - intros H. destruct (H killed_waiter eq_refl true _ eq_refl) as [Hf _]. done.
Qed.

(** C9, amended.  A thread woken inside [begin_op], for whatever reason,
    re-checks the wait condition (its operands being within the range of
    an [int]): if a commit is in progress or the log
    lacks room it sleeps again, leaving the log as it is; otherwise it
    increments [outstanding] and returns.  The code never reads the
    cancellation flag, and [begin_op] has no failure return: it neither
    panics nor gives up, so callers only ever observe admission. *)
Theorem begin_op_ignores_cancellation (LOGSIZE MAXOPBLOCKS : Z) (k : kstate) (v : bool) :
  admission_in_range MAXOPBLOCKS (k_log k) ->
  ((log_committing (k_log k) <> 0 \/
    lh_n (log_lh (k_log k)) + (log_outstanding (k_log k) + 1) * MAXOPBLOCKS > LOGSIZE) /\
   begin_op_iter LOGSIZE MAXOPBLOCKS k = Ok (false, emit EvSleep k)
   \/
   (log_committing (k_log k) = 0 /\
    lh_n (log_lh (k_log k)) + (log_outstanding (k_log k) + 1) * MAXOPBLOCKS <= LOGSIZE) /\
   begin_op_iter LOGSIZE MAXOPBLOCKS k =
     Ok (true, set_log (set_outstanding (log_outstanding (k_log k) + 1) (k_log k)) k)) /\
  begin_op_iter LOGSIZE MAXOPBLOCKS (set_killed v k) =
    match begin_op_iter LOGSIZE MAXOPBLOCKS k with
    | Ok (r, k') => Ok (r, set_killed v k')
    | Panic msg => Panic msg
    | Fault => Fault
    | Blocked => Blocked
    end.
Proof.
  intros Hir. split.
  - rewrite begin_op_iter_spec by done. destruct (decide _) as [Hy|Hn]; [by right|].
    left. split; [|done].
    destruct (decide (log_committing (k_log k) = 0)); [|by left].
    destruct (Z.le_gt_cases
                (lh_n (log_lh (k_log k)) + (log_outstanding (k_log k) + 1) * MAXOPBLOCKS)
                LOGSIZE) as [Hle|Hgt]; [exfalso; by apply Hn|].
    right. lia.
  - rewrite !begin_op_iter_code. simpl. by destruct (decide _).
Qed.

Lemma ex_s0_wf : log_wf 3 (k_log ex_s0).
Proof.
  unfold log_wf. simpl. split; [lia|]. split; [done|]. split; [lia|].
  split; [constructor|].
  split; [by left|]. intros b Hb. by apply elem_of_nil in Hb.
Qed.

Lemma ex_ws_outside b : b ∈ ex_ws.*1 -> b < 20 \/ 20 + 4 <= b.
Proof.
  simpl. rewrite !elem_of_cons. intros [->|[->|[->|Hb]]]; try lia.
  by apply elem_of_nil in Hb.
Qed.

Lemma ex_s1_run : tx_writes 3 ex_ws ex_s0 = Ok (tt, ex_s1).
Proof. vm_compute. reflexivity. Qed.

Lemma ex_s1_wf : log_wf 3 (k_log ex_s1).
Proof.
  unfold log_wf. change (logged (k_log ex_s1)) with [5; 9].
  change (lh_n (log_lh (k_log ex_s1))) with 2.
  change (lh_block (log_lh (k_log ex_s1))) with [5; 9; 0].
  change (log_size (k_log ex_s1)) with 4. change (log_start (k_log ex_s1)) with 20.
  split; [lia|]. split; [done|]. split; [lia|]. split.
  - apply NoDup_cons. split; [|apply NoDup_singleton].
    intros H. apply list_elem_of_singleton in H. lia.
  - split; [right; lia|]. intros b. rewrite !elem_of_cons.
    intros [->|[->|Hb]]; try lia. by apply elem_of_nil in Hb.
Qed.

Lemma ex_s1_hdr : (Z.to_nat 3 < length (bview ex_s1 (log_start (k_log ex_s1))))%nat.
Proof. vm_compute. lia. Qed.

Lemma ex_steps_budget : rtc (budget_step 3 1) ex_sys0 ex_sys2.
Proof.
  eapply rtc_l.
  { split.
    - apply (step_begin_admit 3 1 O ex_k0 ex_k1); [by left | reflexivity].
    - intros [|[|t]] lg Ht; simpl in Ht; simplify_eq; simpl; lia. }
  eapply rtc_l; [|apply rtc_refl].
  split.
  - apply (step_log_write 3 1 O [] 5 ex_k1 ex_k2); reflexivity.
  - intros [|[|t]] lg Ht; simpl in Ht; simplify_eq; simpl; lia.
Qed.

Lemma ex_steps : rtc (sys_step 3 1) ex_sys0 ex_sys3.
Proof.
  eapply rtc_l.
  { apply (step_begin_admit 3 1 O ex_k0 ex_k1); [by left | reflexivity]. }
  eapply rtc_l.
  { apply (step_log_write 3 1 O [] 5 ex_k1 ex_k2); reflexivity. }
  eapply rtc_l; [|apply rtc_refl].
  apply (step_end_locked 3 1 O [5] true ex_k2 ex_k3); reflexivity.
Qed.

Lemma ex_steps_commit : rtc (sys_step 3 1) ex_sys3 ex_sys5.
Proof.
  eapply rtc_l.
  { apply (step_commit 3 1 O ex_k3 ex_k4); [reflexivity | vm_compute; reflexivity]. }
  eapply rtc_l; [|apply rtc_refl].
  apply (step_end_clear 3 1 O ex_k4 ex_k5); reflexivity.
Qed.

Lemma ex_sys0_init : sys_init 3 ex_sys0.
Proof. repeat split; try done. repeat constructor. Qed.

Lemma ex_s0_hdr : (Z.to_nat 3 < length (bview ex_s0 (log_start (k_log ex_s0))))%nat.
Proof. vm_compute. lia. Qed.

Lemma ex_crashed_sized b :
  Z.of_nat (length (bview (mounted 3 1 20 4 ex_crashed) b)) * 4 = 32.
Proof.
  rewrite bview_mounted. unfold ex_crashed.
  destruct (b =? 20); [done|]. destruct (b =? 21); [done|].
  destruct (b =? 22); [done|]. rewrite length_replicate. done.
Qed.

(** ** The theorems at work on the small machine *)

(** The scenario of the spec: a header with count 2 listing blocks 5 and
    9; recovery copies slot 0 to block 5 and slot 1 to block 9 and leaves a
    header with count 0. *)
Example recover_scenario :
  exists s1, recover_from_log (mounted 3 1 20 4 ex_crashed) = Ok (tt, s1) /\
    k_disk s1 5 = replicate 8 90 /\ k_disk s1 9 = replicate 8 80 /\
    k_disk s1 20 = [0; 5; 9; 0; 0; 0; 0; 0] /\
    k_trace s1 = [EvBwrite 5 (replicate 8 90); EvBwrite 9 (replicate 8 80);
                  EvBwrite 20 [0; 5; 9; 0; 0; 0; 0; 0]].
Proof. eexists. split; [vm_compute; reflexivity|]. vm_compute. done. Qed.

(** One transaction from [begin_op] to the end of [end_op]: the thread is
    admitted, logs block 5, finds itself the last one out and commits. *)
Example transaction_run :
  rtc (sys_step 3 1) ex_sys0 ex_sys5 /\
  k_trace ex_k5 =
    [EvBpin 5;
     EvBwrite 21 (replicate 8 5); EvBwrite 20 [1; 5; 0; 0; 0; 0; 0; 0];
     EvBwrite 5 (replicate 8 5); EvBunpin 5; EvBwrite 20 [0; 5; 0; 0; 0; 0; 0; 0];
     EvWakeup] /\
  log_outstanding (k_log ex_k5) = 0 /\ log_committing (k_log ex_k5) = 0.
Proof.
  split; [|vm_compute; done].
  eapply rtc_trans; [exact ex_steps|exact ex_steps_commit].
Qed.

(** With three transactions admitted at LOGSIZE = 3, MAXOPBLOCKS = 1, the
    first block logged takes [n + outstanding * MAXOPBLOCKS] to 4: it is
    the space still in reserve that the admission rule bounds. *)
Example count_plus_outstanding_reservations :
  lh_n (log_lh (k_log ex_three_open)) = 1 /\
  log_outstanding (k_log ex_three_open) = 3.
Proof. vm_compute. done. Qed.

(** At a full log even a write that would be absorbed panics: the capacity
    check of [log_write] comes before the scan. *)
Example absorbed_write_at_full_log :
  5 ∈ logged (k_log ex_full) /\
  log_write 3 5 ex_full = Panic "too big a transaction".
Proof. split; [vm_compute; constructor|reflexivity]. Qed.

(** C4 as stated fails.  In a state the thread system reaches from boot
    with every transaction within its budget (LOGSIZE = 3, MAXOPBLOCKS = 1:
    three admissions, then one block logged), the count plus
    [outstanding * MAXOPBLOCKS] is 4, above LOGSIZE. *)
Lemma count_plus_outstanding_exceeds_capacity :
  sys_init 3 ex_sys0_three /\
  rtc (budget_step 3 1) ex_sys0_three ex_sys_three_open /\
  lh_n (log_lh (k_log (sys_k ex_sys_three_open))) = 1 /\
  log_outstanding (k_log (sys_k ex_sys_three_open)) = 3 /\
  ~ (forall s, rtc (budget_step 3 1) ex_sys0_three s ->
       lh_n (log_lh (k_log (sys_k s))) + log_outstanding (k_log (sys_k s)) * 1 <= 3).
Proof.
  assert (Hsteps : rtc (budget_step 3 1) ex_sys0_three ex_sys_three_open).
  { eapply rtc_l.
    { split.
      - apply (step_begin_admit 3 1 0%nat ex_k0 ex_k1); [by left | reflexivity].
      - intros [|[|[|t]]] lg Ht; simpl in Ht; simplify_eq; simpl; lia. }
    eapply rtc_l.
    { split.
      - apply (step_begin_admit 3 1 1%nat ex_k1 (run_state (begin_op_iter 3 1) ex_k1));
          [by left | reflexivity].
      - intros [|[|[|t]]] lg Ht; simpl in Ht; simplify_eq; simpl; lia. }
    eapply rtc_l.
    { split.
      - apply (step_begin_admit 3 1 2%nat (run_state (begin_op_iter 3 1) ex_k1)
                 (run_state (begin_op_iter 3 1) (run_state (begin_op_iter 3 1) ex_k1)));
          [by left | reflexivity].
      - intros [|[|[|t]]] lg Ht; simpl in Ht; simplify_eq; simpl; lia. }
    eapply rtc_l; [|apply rtc_refl].
    split.
    - apply (step_log_write 3 1 0%nat [] 5
               (run_state (begin_op_iter 3 1) (run_state (begin_op_iter 3 1) ex_k1))
               ex_three_open); reflexivity.
    - intros [|[|[|t]]] lg Ht; simpl in Ht; simplify_eq; simpl; lia. }
  split; [repeat split; try done; repeat constructor|].
  split; [exact Hsteps|]. split; [reflexivity|]. split; [reflexivity|].
  intros H. specialize (H _ Hsteps). vm_compute in H. by apply H.
Qed.



Lemma atomic_before_commit_point_witness :
  log_wf 3 (k_log ex_s0) /\
  sizeof_logheader 3 < 32 /\
  k_disk ex_s0 20 !! O = Some 0 /\
  tx_writes 3 ex_ws ex_s0 = Ok (tt, ex_s1) /\
  exists s2, commit ex_s1 = Ok (tt, s2) /\
    forall pre post,
      k_trace s2 = k_trace ex_s0 ++ pre ++ post ->
      (forall e, e ∈ pre -> ~ writes_block 20 e) ->
      exists sf,
        initlog 3 32 1 20 4 (boot_state 3 (crash_disk ex_disk pre)) = Ok (tt, sf) /\
        forall b, b <= 20 \/ 20 + 4 <= b -> k_disk sf b = ex_disk b.
Proof.
  split; [exact ex_s0_wf|]. split; [reflexivity|]. split; [reflexivity|].
  split; [exact ex_s1_run|].
  exact (atomic_before_commit_point 3 32 ex_s0 ex_s1 ex_ws ex_s0_wf eq_refl
           ex_s0_hdr eq_refl ex_ws_outside ex_s1_run).
Defined.

Lemma durable_after_commit_point_witness :
  log_wf 3 (k_log ex_s1) /\
  0 < lh_n (log_lh (k_log ex_s1)) /\
  sizeof_logheader 3 < 32 /\
  phase_write_log ex_s1 ++ [EvBwrite 20 (hdr_commit ex_s1)] =
    [EvBwrite 21 (replicate 8 90); EvBwrite 22 (replicate 8 80);
     EvBwrite 20 [2; 5; 9; 0; 0; 0; 0; 0]] /\
  phase_install true ex_s1 =
    [EvBwrite 5 (replicate 8 90); EvBunpin 5] ++
    [EvBwrite 9 (replicate 8 80); EvBunpin 9] /\
  exists s', commit ex_s1 = Ok (tt, s') /\
    (exists sf,
       initlog 3 32 1 20 4
         (boot_state 3 (crash_disk (k_disk ex_s1)
            (phase_write_log ex_s1 ++ [EvBwrite 20 (hdr_commit ex_s1)])))
         = Ok (tt, sf) /\
       k_disk sf 5 = replicate 8 90 /\ k_disk sf 9 = replicate 8 80 /\
       k_disk sf 20 !! O = Some 0) /\
    (exists sf,
       initlog 3 32 1 20 4
         (boot_state 3 (crash_disk (k_disk ex_s1)
            (phase_write_log ex_s1 ++ [EvBwrite 20 (hdr_commit ex_s1)]
               ++ [EvBwrite 5 (replicate 8 90); EvBunpin 5])))
         = Ok (tt, sf) /\
       k_disk sf 5 = replicate 8 90 /\ k_disk sf 9 = replicate 8 80 /\
       k_disk sf 20 !! O = Some 0).
Proof.
  assert (Hpos : 0 < lh_n (log_lh (k_log ex_s1))) by (vm_compute; reflexivity).
  assert (Hinst : phase_install true ex_s1 =
            [EvBwrite 5 (replicate 8 90); EvBunpin 5] ++
            [EvBwrite 9 (replicate 8 80); EvBunpin 9]) by (vm_compute; reflexivity).
  split; [exact ex_s1_wf|]. split; [exact Hpos|]. split; [reflexivity|].
  split; [vm_compute; reflexivity|]. split; [exact Hinst|].
  destruct (durable_after_commit_point 3 32 ex_s1 ex_s1_wf Hpos eq_refl ex_s1_hdr)
    as (s' & Hc & _ & _ & _ & _ & Hcrash).
  exists s'. split; [exact Hc|]. split.
  - destruct (Hcrash [] (phase_install true ex_s1) eq_refl)
      as (sf & Hrec & _ & Hhome & Hhdr & H0 & _).
    exists sf. split; [exact Hrec|].
    pose proof (Hhome 0 ltac:(vm_compute; split; [discriminate|reflexivity])) as H5.
    pose proof (Hhome 1 ltac:(vm_compute; split; [discriminate|reflexivity])) as H9.
    vm_compute in H5. vm_compute in H9.
    split; [exact H5|]. split; [exact H9|].
    change (log_start (k_log ex_s1)) with 20 in Hhdr. rewrite Hhdr. exact H0.
  - destruct (Hcrash _ _ Hinst) as (sf & Hrec & _ & Hhome & Hhdr & H0 & _).
    exists sf. split; [exact Hrec|].
    pose proof (Hhome 0 ltac:(vm_compute; split; [discriminate|reflexivity])) as H5.
    pose proof (Hhome 1 ltac:(vm_compute; split; [discriminate|reflexivity])) as H9.
    vm_compute in H5. vm_compute in H9.
    split; [exact H5|]. split; [exact H9|].
    change (log_start (k_log ex_s1)) with 20 in Hhdr. rewrite Hhdr. exact H0.
Defined.

Lemma commit_four_phases_witness :
  commit_ready ex_s1 /\ 0 < lh_n (log_lh (k_log ex_s1)) /\
  exists s', commit ex_s1 = Ok (tt, s') /\
    k_trace s' = k_trace ex_s1 ++
      [EvBwrite 21 (replicate 8 90); EvBwrite 22 (replicate 8 80);
       EvBwrite 20 [2; 5; 9; 0; 0; 0; 0; 0];
       EvBwrite 5 (replicate 8 90); EvBunpin 5;
       EvBwrite 9 (replicate 8 80); EvBunpin 9;
       EvBwrite 20 [0; 5; 9; 0; 0; 0; 0; 0]].
Proof.
  assert (Hready : commit_ready ex_s1)
    by exact (log_wf_commit_ready 3 ex_s1 ex_s1_wf ex_s1_hdr).
  assert (Hpos : 0 < lh_n (log_lh (k_log ex_s1))) by (vm_compute; reflexivity).
  split; [exact Hready|]. split; [exact Hpos|].
  destruct (proj2 (commit_four_phases ex_s1) Hready Hpos) as (s' & Hc & Ht & _).
  exists s'. split; [exact Hc|]. rewrite Ht. vm_compute. reflexivity.
Defined.

Lemma admission_capacity_witness :
  0 <= 3 /\ 1 <= 1 /\ 2 * 3 + 1 < 2147483648 /\
  sys_init 3 ex_sys0 /\ rtc (budget_step 3 1) ex_sys0 ex_sys2 /\
  lh_n (log_lh (k_log (sys_k ex_sys2))) + tsum (w_reserved 1) (sys_threads ex_sys2) <= 3.
Proof.
  split; [discriminate|]. split; [discriminate|]. split; [reflexivity|].
  split; [exact ex_sys0_init|]. split; [exact ex_steps_budget|].
  exact (proj1 (proj2 (proj2 (proj2 (proj2
    (admission_capacity 3 1 ex_sys0 ex_sys2 ltac:(discriminate) ltac:(discriminate)
       eq_refl ex_sys0_init ex_steps_budget)))))).
Defined.



Lemma ex_crashed_no_self_home j :
  0 <= j < 2 -> hdr_blk (bview (mounted 3 1 20 4 ex_crashed) 20) j <> 20 + j + 1.
Proof.
  intros Hj. rewrite bview_mounted.
  assert (j = 0 \/ j = 1) as [-> | ->] by lia; vm_compute; discriminate.
Qed.


Lemma header_capacity_witness :
  1 <= 3 /\ 1 <= 1 /\ 2 * 3 + 1 < 2147483648 /\
  sys_init 3 ex_sys0 /\ rtc (sys_step 3 1) ex_sys0 ex_sys3 /\
  log_size (k_log (sys_k ex_sys3)) = 3 /\
  0 <= lh_n (log_lh (k_log (sys_k ex_sys3))) <= 3 /\
  lh_n (log_lh (k_log (sys_k ex_sys3))) <= 3 - 1.
Proof.
  split; [discriminate|]. split; [discriminate|]. split; [reflexivity|].
  split; [exact ex_sys0_init|]. split; [exact ex_steps|].
  split; [reflexivity|].
  destruct (proj1 (header_capacity 3 1 ex_sys0 ex_sys3 ltac:(discriminate)
                     ltac:(discriminate) eq_refl
                     ex_sys0_init ex_steps eq_refl)) as (Hn & Hn' & _).
  split; [exact Hn|exact Hn'].
Defined.

Lemma pin_discipline_witness :
  log_wf 3 (k_log ex_s0) /\ lh_n (log_lh (k_log ex_s0)) = 0 /\
  tx_writes 3 ex_ws ex_s0 = Ok (tt, ex_s1) /\
  k_pin ex_s1 5 = 1 /\ k_pin ex_s1 9 = 1 /\
  exists s2, commit ex_s1 = Ok (tt, s2) /\ forall b, k_pin s2 b = k_pin ex_s0 b.
Proof.
  split; [exact ex_s0_wf|]. split; [reflexivity|]. split; [exact ex_s1_run|].
  split; [vm_compute; reflexivity|]. split; [vm_compute; reflexivity|].
  exact (proj2 (proj2 (proj2 (proj2
    (pin_discipline 3 ex_s0 ex_s1 ex_ws ex_s0_wf eq_refl ex_s0_hdr ex_ws_outside
       ex_s1_run))))).
Defined.

Lemma begin_op_ignores_cancellation_witness :
  admission_in_range 10 (k_log killed_waiter) /\
  begin_op_iter 30 10 killed_waiter =
    Ok (true, set_log (set_outstanding 1 (k_log killed_waiter)) killed_waiter) /\
  begin_op_iter 30 10 (set_killed false killed_waiter) =
    Ok (true, set_killed false
                (set_log (set_outstanding 1 (k_log killed_waiter)) killed_waiter)).
Proof.
  assert (Hir : admission_in_range 10 (k_log killed_waiter)).
  { unfold admission_in_range, int_ok. simpl. lia. }
  split; [exact Hir|].
  destruct (begin_op_ignores_cancellation 30 10 killed_waiter false Hir) as (Hcase & Hk).
  destruct Hcase as [([Hc|Hfull] & _) | (_ & Hrun)].
  - exfalso. apply Hc. reflexivity.
  - exfalso. simpl in Hfull. lia.
  - split; [exact Hrun|]. rewrite Hk, Hrun. reflexivity.
Defined.

(** * More of kernel/log.c *)

(** ** The header codec, beyond the layout *)

(** X1.  The header codec is a round trip: the header block that
    [write_head] writes is read back by [read_head], in the same session
    or after a reboot, in any state that sees that block and has room in
    its array, as the same count and the same list of logged block
    numbers. *)
Theorem header_round_trip (s : kstate) :
  0 <= log_start (k_log s) < 4294967296 ->
  (Z.to_nat (lh_n (log_lh (k_log s))) <= length (lh_block (log_lh (k_log s))))%nat ->
  (Z.to_nat (lh_n (log_lh (k_log s))) < length (bview s (log_start (k_log s))))%nat ->
  exists s1, write_head s = Ok (tt, s1) /\
    forall r,
      log_start (k_log r) = log_start (k_log s) ->
      bview r (log_start (k_log s)) = k_disk s1 (log_start (k_log s)) ->
      (Z.to_nat (lh_n (log_lh (k_log s))) <= length (lh_block (log_lh (k_log r))))%nat ->
      exists r', read_head r = Ok (tt, r') /\
        lh_n (log_lh (k_log r')) = lh_n (log_lh (k_log s)) /\
        logged (k_log r') = logged (k_log s).
Proof.
  intros Hst HlenB Hroom.
  destruct (write_head_ok s Hst HlenB Hroom) as (s1 & Hrun & _ & _ & _ & _ & Hd & _).
  exists s1. split; [done|]. intros r Hr Hview HlenR.
  specialize (Hd (log_start (k_log s))).
  destruct (decide (log_start (k_log s) = log_start (k_log s))) as [_|]; [|done].
  rewrite Hd in Hview.
  set (n := lh_n (log_lh (k_log s))) in *.
  set (B := lh_block (log_lh (k_log s))) in *.
  set (old := bview s (log_start (k_log s))) in *.
  assert (Hlen : length (hdr_encode (log_lh (k_log s)) old) = length old).
  { unfold hdr_encode. fold n B. simpl.
    rewrite length_app, length_take, length_drop. lia. }
  destruct (read_head_ok r n) as (r' & Hrun' & Hl & _).
  - by rewrite Hr.
  - rewrite Hr, Hview. done.
  - rewrite Hr, Hview, Hlen. done.
  - done.
  - exists r'. split; [done|]. rewrite Hl. split; [done|].
    unfold logged. simpl. rewrite Hr, Hview. unfold hdr_encode. fold n B. simpl.
    rewrite drop_0.
    rewrite take_app_length' by (rewrite length_take, length_app, length_take; lia).
    rewrite take_app_length' by (rewrite length_take; lia). done.
Qed.

(** A run of the copy loop of [read_head] that reaches the end of
    [log.lh.block] indexes past it. *)
Lemma read_head_loop_overrun (buf : Z) (d : list Z) (L : nat) :
  forall (iters : nat) (i : nat) (s : kstate),
    (i <= L)%nat -> (L < i + iters)%nat ->
    k_bcache s !! buf = Some d ->
    length (lh_block (log_lh (k_log s))) = L ->
    for_loop (fun i => v ← hdr_get_block buf i; lh_block_set i v) (Z.of_nat i) iters s
      = Fault.
Proof.
  induction iters as [|k IH]; intros i s Hi Hover Hc HL; [lia|].
  assert (Hbody :
    (hdr_get_block buf (Z.of_nat i) ≫= fun v => lh_block_set (Z.of_nat i) v) s = Fault \/
    exists s', (hdr_get_block buf (Z.of_nat i) ≫= fun v => lh_block_set (Z.of_nat i) v) s
                 = Ok (tt, s') /\
      (i < L)%nat /\ k_bcache s' !! buf = Some d /\
      length (lh_block (log_lh (k_log s'))) = L).
  { unfold hdr_get_block, buf_data, mbind, M_bind. rewrite Hc.
    unfold of_option. destruct (arr_get d (1 + Z.of_nat i)) as [v|]; [|by left].
    unfold mret, M_ret, lh_block_set, get_log, put_log, mbind, M_bind, arr_set.
    destruct (Z.leb_spec 0 (Z.of_nat i)); [|lia].
    destruct (Z.ltb_spec (Z.of_nat i)
                (Z.of_nat (length (lh_block (log_lh (k_log s)))))) as [Hlt|Hge];
      simpl; [|by left].
    right. eexists. split; [reflexivity|]. simpl.
    rewrite length_insert. repeat split; [lia | done | done]. }
  simpl. unfold mbind at 1, M_bind at 1.
  destruct Hbody as [->|(s' & -> & Hlt & Hc' & HL')]; [done|].
  replace (Z.of_nat i + 1) with (Z.of_nat (S i)) by lia.
  apply IH; [lia | lia | done | done].
Qed.

(** X2.  [read_head] trusts the count it finds on disk: when the count is
    larger than the array [log.lh.block], the copy loop indexes the array
    past its end. *)
Theorem read_head_count_unchecked (s : kstate) (nv : Z) :
  0 <= log_start (k_log s) < 4294967296 ->
  bview s (log_start (k_log s)) !! O = Some nv ->
  Z.of_nat (length (lh_block (log_lh (k_log s)))) < nv ->
  read_head s = Fault.
Proof.
  intros Hst Hn Hbig.
  unfold read_head. rewrite (bind_ok get_log _ s (k_log s) s) by done.
  rewrite (to_uint_id _ Hst).
  destruct (bread_ok (log_start (k_log s)) s)
    as (s1 & Hb1 & Hc1 & Hk1 & Hl1 & Hd1 & Hp1 & Ht1 & Hkl1 & Hv1).
  rewrite (bind_ok _ _ _ _ _ Hb1).
  assert (Hgetn : hdr_get_n (log_start (k_log s)) s1 = Ok (nv, s1)).
  { unfold hdr_get_n, buf_data, mbind, M_bind. rewrite Hc1.
    change (arr_get (bview s (log_start (k_log s))) 0)
      with (bview s (log_start (k_log s)) !! O). by rewrite Hn. }
  rewrite (bind_ok _ _ _ _ _ Hgetn).
  unfold mbind at 1, M_bind at 1. unfold set_lh_n at 1, get_log, put_log.
  unfold mbind at 1, M_bind at 1.
  unfold mbind at 1, M_bind at 1.
  rewrite (read_head_loop_overrun (log_start (k_log s)) (bview s (log_start (k_log s)))
             (length (lh_block (log_lh (k_log s)))) (Z.to_nat nv) O); try done; try lia.
  simpl. by rewrite Hl1.
Qed.

(** ** Recovery at the edge *)

(** X3.  A header block whose count is zero or negative makes recovery
    install nothing: the copy loops do not run, and the only write is the
    header block with its count set to 0 and its other words as they
    were. *)
Theorem recover_nonpositive_count (s : kstate) (n : Z) :
  0 <= log_start (k_log s) < 4294967296 ->
  bview s (log_start (k_log s)) !! O = Some n ->
  n <= 0 ->
  exists s', recover_from_log s = Ok (tt, s') /\
    k_trace s' = k_trace s ++
      [EvBwrite (log_start (k_log s)) (0 :: drop 1 (bview s (log_start (k_log s))))] /\
    k_disk s' (log_start (k_log s)) = 0 :: drop 1 (bview s (log_start (k_log s))) /\
    (forall b, b <> log_start (k_log s) -> k_disk s' b = k_disk s b) /\
    k_pin s' = k_pin s /\
    lh_n (log_lh (k_log s')) = 0 /\
    lh_block (log_lh (k_log s')) = lh_block (log_lh (k_log s)).
Proof.
  intros Hst Hn Hneg.
  assert (Hlen : (0 < length (bview s (log_start (k_log s))))%nat).
  { apply lookup_lt_Some in Hn. lia. }
  assert (Hz : Z.to_nat n = O) by lia.
  unfold recover_from_log.
  destruct (read_head_ok s n Hst Hn) as (s1 & Hrun1 & Hl1 & Hd1 & Hp1 & Ht1 & Hk1 & Hv1);
    [lia | lia |].
  rewrite Hz in Hl1. simpl in Hl1. rewrite drop_0 in Hl1.
  rewrite (bind_ok _ _ _ _ _ Hrun1).
  assert (Hrun2 : install_trans 1 s1 = Ok (tt, s1)).
  { unfold install_trans. rewrite (bind_ok get_log _ s1 (k_log s1) s1) by done.
    rewrite Hl1. simpl. by rewrite Hz. }
  rewrite (bind_ok _ _ _ _ _ Hrun2).
  assert (Hrun3 : set_lh_n 0 s1 =
            Ok (tt, set_log (set_lh (LogHeader 0 (lh_block (log_lh (k_log s)))) (k_log s)) s1)).
  { unfold set_lh_n, get_log, put_log, mbind, M_bind. by rewrite Hl1. }
  rewrite (bind_ok _ _ _ _ _ Hrun3).
  destruct (write_head_ok
              (set_log (set_lh (LogHeader 0 (lh_block (log_lh (k_log s)))) (k_log s)) s1))
    as (s4 & Hrun4 & Hl4 & Hk4 & Hp4 & Ht4 & Hd4 & Hv4).
  { done. }
  { simpl. lia. }
  { simpl. change (bview (set_log _ s1)) with (bview s1). rewrite Hv1. lia. }
  simpl in Hl4, Ht4, Hd4, Hp4.
  change (bview (set_log (set_lh (LogHeader 0 (lh_block (log_lh (k_log s)))) (k_log s)) s1))
    with (bview s1) in Ht4, Hd4.
  rewrite Hv1 in Ht4, Hd4.
  change (hdr_encode (LogHeader 0 (lh_block (log_lh (k_log s))))
            (bview s (log_start (k_log s))))
    with (0 :: drop 1 (bview s (log_start (k_log s)))) in Ht4, Hd4.
  exists s4. split; [exact Hrun4|]. rewrite Hl4. simpl.
  split; [by rewrite Ht4, Ht1|]. split.
  { rewrite Hd4. by destruct (decide _). }
  split.
  { intros b Hb. rewrite Hd4. destruct (decide _); [done|]. by rewrite Hd1. }
  split; [congruence|done].
Qed.

(** ** [log_write] at the edge *)

(** [log_write] with no transaction open: the capacity panic when the log
    is full, since that check comes first, "log_write outside of trans"
    otherwise. *)
Lemma log_write_panics (LOGSIZE b : Z) (s : kstate) :
  log_outstanding (k_log s) < 1 ->
  (LOGSIZE <= lh_n (log_lh (k_log s)) \/
   int_wrap (log_size (k_log s) - 1) <= lh_n (log_lh (k_log s)) ->
   log_write LOGSIZE b s = Panic "too big a transaction") /\
  (lh_n (log_lh (k_log s)) < LOGSIZE ->
   lh_n (log_lh (k_log s)) < int_wrap (log_size (k_log s) - 1) ->
   log_write LOGSIZE b s = Panic "log_write outside of trans").
Proof.
  intros Hout. unfold log_write. rewrite (bind_ok get_log _ s (k_log s) s) by done.
  destruct (Z.leb_spec LOGSIZE (lh_n (log_lh (k_log s))));
    destruct (Z.leb_spec (int_wrap (log_size (k_log s) - 1)) (lh_n (log_lh (k_log s))));
    destruct (Z.ltb_spec (log_outstanding (k_log s)) 1); simpl;
    (split; [intros [?|?] | intros ? ?]); first [done | lia].
Qed.


(** X4.  [log_write] replaces [bwrite] and performs no I/O: a call that
    returns has changed neither the disk nor the buffer cache, and the
    only event it can have caused is the pin of its buffer. *)
Theorem log_write_defers_io (LOGSIZE b : Z) (s s' : kstate) :
  log_write LOGSIZE b s = Ok (tt, s') ->
  k_disk s' = k_disk s /\ k_bcache s' = k_bcache s /\
  (k_trace s' = k_trace s \/ k_trace s' = k_trace s ++ [EvBpin b]).
Proof.
  unfold log_write. rewrite (bind_ok get_log _ s (k_log s) s) by done.
  destruct (_ || _); [done|]. destruct (_ <? _); [done|].
  intros H. apply bind_inv in H as (i & s1 & Hscan & H).
  assert (s1 = s) as ->.
  { unfold of_option in Hscan. destruct (absorb_scan _ _ _ _); [|done].
    by injection Hscan as _ <-. }
  apply bind_inv in H as ([] & s2 & Hset & H).
  assert (Hs2 : k_disk s2 = k_disk s /\ k_bcache s2 = k_bcache s /\
                k_trace s2 = k_trace s /\ k_pin s2 = k_pin s).
  { unfold lh_block_set, get_log, put_log, mbind, M_bind, of_option in Hset.
    destruct (arr_set _ _ _); [|done]. by injection Hset as <-. }
  destruct Hs2 as (Hd2 & Hc2 & Ht2 & Hp2).
  destruct (i =? lh_n (log_lh (k_log s))).
  - unfold bpin, set_lh_n, get_log, put_log, mbind, M_bind in H.
    injection H as <-. simpl. rewrite Hd2, Hc2, Ht2. auto.
  - injection H as <-. rewrite Hd2, Hc2, Ht2. auto.
Qed.

(** ** How the calls compose *)

(** X5.  A second [commit] right after a first one is a no-op: the first
    leaves the count at 0, so the second writes nothing. *)
Theorem commit_twice (s : kstate) :
  commit_ready s ->
  exists s', commit s = Ok (tt, s') /\
    lh_n (log_lh (k_log s')) = 0 /\ commit s' = Ok (tt, s').
Proof.
  intros Hready.
  destruct (decide (lh_n (log_lh (k_log s)) = 0)) as [H0|Hne].
  - exists s. split; [by apply commit_noop|]. split; [done|by apply commit_noop].
  - destruct (commit_ok s Hready) as (s' & Hc & Hl & _).
    { destruct Hready as (Hn & _). lia. }
    exists s'. split; [done|].
    assert (lh_n (log_lh (k_log s')) = 0) by (by rewrite Hl).
    split; [done|by apply commit_noop].
Qed.

(** X6.  A transaction that logs nothing costs no I/O: on an idle, empty
    log [begin_op] admits the caller at once, and the [end_op] that
    follows leaves the kernel state as it was before the [begin_op],
    except for the wakeup it has sent. *)
Theorem empty_transaction (LOGSIZE MAXOPBLOCKS : Z) (s : kstate) :
  log_committing (k_log s) = 0 ->
  log_outstanding (k_log s) = 0 ->
  lh_n (log_lh (k_log s)) = 0 ->
  int_ok MAXOPBLOCKS -> MAXOPBLOCKS <= LOGSIZE ->
  exists s1, begin_op_iter LOGSIZE MAXOPBLOCKS s = Ok (true, s1) /\
             end_op s1 = Ok (tt, emit EvWakeup s).
Proof.
  intros Hc Ho Hn HM HML.
  rewrite begin_op_iter_spec
    by (unfold admission_in_range, int_ok in *; rewrite Ho, Hn; lia).
  destruct (decide _) as [_|Hno]; [|exfalso; apply Hno; rewrite Ho, Hn; lia].
  eexists. split; [reflexivity|].
  unfold end_op. unfold mbind at 1, M_bind at 1.
  rewrite end_op_locked_spec by (simpl; rewrite Ho; done).
  simpl. rewrite Hc, Ho. simpl.
  unfold end_op_commit. unfold mbind, M_bind.
  rewrite commit_noop by (simpl; done).
  rewrite end_op_clear_spec. simpl.
  destruct s as [[st sz o c dev lh] d bc p tr kd]. simpl in *. by subst.
Qed.

(** X7.  What [commit] has finished survives a reboot: recovery on the
    disk a completed [commit] leaves behind finds count 0, changes no
    block, and every logged block holds the payload that was committed. *)
Theorem committed_survives_reboot (LOGSIZE BSIZE : Z) (s : kstate) :
  log_wf LOGSIZE (k_log s) ->
  0 < lh_n (log_lh (k_log s)) ->
  sizeof_logheader LOGSIZE < BSIZE ->
  (Z.to_nat LOGSIZE < length (bview s (log_start (k_log s))))%nat ->
  exists s', commit s = Ok (tt, s') /\
    exists sf,
      initlog LOGSIZE BSIZE (log_dev (k_log s)) (log_start (k_log s))
              (log_size (k_log s)) (boot_state LOGSIZE (k_disk s')) = Ok (tt, sf) /\
      (forall b, k_disk sf b = k_disk s' b) /\
      (forall j, 0 <= j < lh_n (log_lh (k_log s)) ->
         k_disk sf (blk (k_log s) j) = bview s (blk (k_log s) j)) /\
      lh_n (log_lh (k_log sf)) = 0.
Proof.
  intros Hwf Hpos Hsz Hhdr.
  pose proof Hwf as ((Hn & HnL) & _ & (Hst0 & Hmax & Hszr) & _).
  destruct (commit_ok s) as (s' & Hc & _ & _ & _ & Hblk & Hdst & _); [|done|].
  { by eapply log_wf_commit_ready. }
  exists s'. split; [done|].
  rewrite initlog_boot by first [done | unfold int_ok; lia].
  destruct (recover_noop (mounted LOGSIZE (log_dev (k_log s)) (log_start (k_log s))
                            (log_size (k_log s)) (k_disk s')))
    as (sf & Hrec & Hdf & _ & Hnf & _).
  { rewrite bview_mounted. simpl. rewrite Hdst. done. }
  { by rewrite bview_mounted. }
  { simpl. lia. }
  exists sf. split; [done|]. split; [exact Hdf|]. split; [|done].
  intros j Hj. rewrite Hdf. simpl. by destruct (Hblk j Hj) as (-> & _).
Qed.

Lemma end_op_last (LOGSIZE : Z) (s : kstate) :
  log_wf LOGSIZE (k_log s) ->
  (Z.to_nat LOGSIZE < length (bview s (log_start (k_log s))))%nat ->
  0 < lh_n (log_lh (k_log s)) ->
  log_committing (k_log s) = 0 ->
  log_outstanding (k_log s) = 1 ->
  exists sf, end_op s = Ok (tt, sf) /\
    k_trace sf = k_trace s ++ commit_trace s ++ [EvWakeup] /\
    (forall j, 0 <= j < lh_n (log_lh (k_log s)) ->
       k_disk sf (blk (k_log s) j) = bview s (blk (k_log s) j)) /\
    lh_n (log_lh (k_log sf)) = 0 /\
    log_outstanding (k_log sf) = 0 /\ log_committing (k_log sf) = 0.
Proof.
  intros Hwf Hhdr Hpos Hc Ho.
  unfold end_op. unfold mbind at 1, M_bind at 1.
  rewrite end_op_locked_spec by (rewrite Ho; done).
  rewrite Hc, Ho. simpl.
  set (s1 := set_log (set_committing 1 (set_outstanding 0 (k_log s))) s).
  destruct (commit_ok s1) as (s2 & Hcm & Hl2 & _ & Ht2 & Hblk & _).
  { by apply (log_wf_commit_ready LOGSIZE). }
  { done. }
  unfold end_op_commit. rewrite (bind_ok _ _ _ _ _ Hcm).
  rewrite end_op_clear_spec. eexists. split; [reflexivity|].
  simpl. rewrite Hl2, Ht2. simpl.
  split; [by rewrite <- app_assoc|]. split; [|done].
  intros j Hj. destruct (Hblk j Hj) as (Hd & _). exact Hd.
Qed.

(** X8.  Group commit: when [k + 1] transactions are open and close one
    after the other, the first [k] calls of [end_op] only wake the
    sleepers, and the last one runs the one commit, which installs every
    block logged by any of them. *)
Theorem group_commit (LOGSIZE : Z) (k : nat) : forall s : kstate,
  log_wf LOGSIZE (k_log s) ->
  (Z.to_nat LOGSIZE < length (bview s (log_start (k_log s))))%nat ->
  0 < lh_n (log_lh (k_log s)) ->
  log_committing (k_log s) = 0 ->
  log_outstanding (k_log s) = Z.of_nat k + 1 ->
  Z.of_nat k + 1 < 2147483648 ->
  exists sf, end_ops (S k) s = Ok (tt, sf) /\
    k_trace sf = k_trace s ++ replicate k EvWakeup ++ commit_trace s ++ [EvWakeup] /\
    (forall j, 0 <= j < lh_n (log_lh (k_log s)) ->
       k_disk sf (blk (k_log s) j) = bview s (blk (k_log s) j)) /\
    lh_n (log_lh (k_log sf)) = 0 /\
    log_outstanding (k_log sf) = 0 /\ log_committing (k_log sf) = 0.
Proof.
  induction k as [|k IH]; intros s Hwf Hhdr Hpos Hc Ho Hmax.
  - destruct (end_op_last LOGSIZE s) as (sf & Hrun & Hrest); try done.
    exists sf. split; [|done].
    change (end_ops 1) with (end_op ;; (mret tt : M unit)).
    by rewrite (bind_ok _ _ _ _ _ Hrun).
  - set (s1 := emit EvWakeup
                 (set_log (set_outstanding (log_outstanding (k_log s) - 1) (k_log s)) s)).
    assert (Hrun : end_op s = Ok (tt, s1)).
    { unfold end_op. unfold mbind at 1, M_bind at 1.
      rewrite end_op_locked_spec by (unfold int_ok; lia).
      rewrite Hc. simpl.
      destruct (decide (log_outstanding (k_log s) - 1 = 0)); [lia|done]. }
    destruct (IH s1) as (sf & Hrun' & Ht & Hblk & Hrest); try done.
    { simpl. lia. }
    { lia. }
    exists sf. split.
    { change (end_ops (S (S k))) with (end_op ;; end_ops (S k)).
      by rewrite (bind_ok _ _ _ _ _ Hrun). }
    split; [|done].
    rewrite Ht. simpl. rewrite <- !app_assoc. done.
Qed.

(** X9.  [end_op] does not check that a transaction is open.  Called on
    an idle log it takes [outstanding] to -1, runs no commit and only
    sends a wakeup; the next [begin_op] is admitted and brings
    [outstanding] back to 0, so that the [log_write] of that transaction
    panics. *)
Theorem end_op_unmatched (LOGSIZE MAXOPBLOCKS b : Z) (s : kstate) :
  log_committing (k_log s) = 0 ->
  log_outstanding (k_log s) = 0 ->
  0 <= lh_n (log_lh (k_log s)) < LOGSIZE ->
  LOGSIZE < 2147483648 ->
  lh_n (log_lh (k_log s)) < int_wrap (log_size (k_log s) - 1) ->
  exists s1 s2,
    end_op s = Ok (tt, s1) /\
    s1 = emit EvWakeup (set_log (set_outstanding (-1) (k_log s)) s) /\
    begin_op_iter LOGSIZE MAXOPBLOCKS s1 = Ok (true, s2) /\
    log_outstanding (k_log s2) = 0 /\
    log_write LOGSIZE b s2 = Panic "log_write outside of trans".
Proof.
  intros Hc Ho Hn HL Hsz.
  eexists _, _. split.
  { unfold end_op. unfold mbind at 1, M_bind at 1.
    rewrite end_op_locked_spec by (rewrite Ho; done).
    rewrite Hc, Ho. simpl. reflexivity. }
  split; [reflexivity|]. split.
  { rewrite begin_op_iter_spec
      by (unfold admission_in_range, int_ok; simpl; lia).
    simpl. rewrite Hc.
    destruct (decide _) as [_|Hno]; [reflexivity|].
    exfalso. apply Hno. split; [done|lia]. }
  split; [done|].
  apply log_write_panics; simpl; lia.
Qed.

(** ** [initlog] *)

Lemma keeps_log_geometry {A : Type} (m : M A) : keeps_log m -> keeps_geometry m.
Proof. intros Hm s a s' H. by rewrite (Hm _ _ _ H). Qed.

Lemma keeps_geometry_bind {A B : Type} (m : M A) (f : A -> M B) :
  keeps_geometry m -> (forall a, keeps_geometry (f a)) -> keeps_geometry (m ≫= f).
Proof.
  intros Hm Hf s b s' H. apply bind_inv in H as (a & s1 & H1 & H2).
  destruct (Hm _ _ _ H1) as (E1 & E2 & E3 & E4 & E5).
  destruct (Hf a _ _ _ H2) as (F1 & F2 & F3 & F4 & F5).
  repeat split; congruence.
Qed.

Lemma keeps_geometry_set_lh_n v : keeps_geometry (set_lh_n v).
Proof.
  intros s a s' H. unfold set_lh_n, get_log, put_log, mbind, M_bind in H.
  by simplify_eq.
Qed.

Lemma keeps_geometry_lh_block_set i v : keeps_geometry (lh_block_set i v).
Proof.
  intros s a s' H.
  unfold lh_block_set, get_log, put_log, mbind, M_bind, of_option in H.
  destruct (arr_set _ _ _); [|done]. unfold mret, M_ret in H. by simplify_eq.
Qed.

Lemma keeps_geometry_for_loop body :
  (forall i, keeps_geometry (body i)) ->
  forall i iters, keeps_geometry (for_loop body i iters).
Proof.
  intros Hb i iters. revert i. induction iters as [|k IH]; intros i.
  - apply keeps_log_geometry, keeps_log_ret.
  - simpl. apply keeps_geometry_bind; [apply Hb | intros _; apply IH].
Qed.

Lemma keeps_geometry_read_head : keeps_geometry read_head.
Proof.
  unfold read_head.
  apply keeps_geometry_bind; [apply keeps_log_geometry; auto with keeps|]. intros l.
  apply keeps_geometry_bind; [apply keeps_log_geometry; auto with keeps|]. intros buf.
  apply keeps_geometry_bind.
  { apply keeps_log_geometry. unfold hdr_get_n. keeps_log_tac. }
  intros nv.
  apply keeps_geometry_bind; [apply keeps_geometry_set_lh_n|]. intros _.
  apply keeps_geometry_bind; [|intros _; apply keeps_log_geometry; auto with keeps].
  apply keeps_geometry_for_loop. intros i.
  apply keeps_geometry_bind; [|intros v; apply keeps_geometry_lh_block_set].
  apply keeps_log_geometry. unfold hdr_get_block. keeps_log_tac.
Qed.

(** Recovery changes the in-memory header only. *)
Lemma keeps_geometry_recover : keeps_geometry recover_from_log.
Proof.
  unfold recover_from_log.
  apply keeps_geometry_bind; [apply keeps_geometry_read_head|]. intros _.
  apply keeps_geometry_bind.
  { apply keeps_log_geometry, keeps_log_install_trans. }
  intros _.
  apply keeps_geometry_bind; [apply keeps_geometry_set_lh_n|]. intros _.
  apply keeps_log_geometry, keeps_log_write_head.
Qed.

(** The first slot that a header lists as its own home block. *)
Lemma first_self_home (H : list Z) (st n j : Z) :
  0 <= j < n -> hdr_blk H j = st + j + 1 ->
  exists j0, 0 <= j0 < n /\ hdr_blk H j0 = st + j0 + 1 /\
    forall i, 0 <= i < j0 -> hdr_blk H i <> st + i + 1.
Proof.
  intros Hj Hhit.
  assert (Hsearch : forall m : nat,
    (exists j0, 0 <= j0 < Z.of_nat m /\ hdr_blk H j0 = st + j0 + 1 /\
       forall i, 0 <= i < j0 -> hdr_blk H i <> st + i + 1) \/
    (forall i, 0 <= i < Z.of_nat m -> hdr_blk H i <> st + i + 1)).
  { induction m as [|m [(j0 & Hj0 & Hh & Hl)|Hnone]].
    - right. intros i Hi. lia.
    - left. exists j0. split; [lia|done].
    - destruct (Z.eq_dec (hdr_blk H (Z.of_nat m)) (st + Z.of_nat m + 1)) as [He|Hne].
      + left. exists (Z.of_nat m). split; [lia|]. split; [done|]. exact Hnone.
      + right. intros i Hi. destruct (Z.eq_dec i (Z.of_nat m)) as [->|]; [done|].
        apply Hnone. lia. }
  destruct (Hsearch (Z.to_nat j + 1)%nat) as [(j0 & Hj0 & Hh & Hl)|Hnone].
  - exists j0. split; [lia|done].
  - exfalso. apply (Hnone j); [lia|done].
Qed.

(** X10.  [initlog] refuses a header that does not fit one block, before
    touching anything.  Otherwise, at boot, on a disk whose header count
    fits the array, it returns if the header lists no log slot as the home
    block of its own payload: then with the geometry of the superblock in
    [log.start], [log.size] and [log.dev], an empty log both in memory and
    on disk, and no transaction or commit pending.  If the header does
    list such a slot, [initlog] never returns: [install_trans] asks for
    the buffer it holds. *)
Theorem initlog_mounts (LOGSIZE BSIZE dev st sz : Z) (d : Z -> list Z) (n : Z) :
  (BSIZE <= sizeof_logheader LOGSIZE ->
   forall s, initlog LOGSIZE BSIZE dev st sz s = Panic "initlog: too big logheader") /\
  (sizeof_logheader LOGSIZE < BSIZE ->
   (forall b, Z.of_nat (length (d b)) * 4 = BSIZE) ->
   d st !! O = Some n -> n <= LOGSIZE ->
   0 <= LOGSIZE -> 0 <= st -> st + LOGSIZE < 2147483648 ->
   (forall j, 0 <= j < n -> hdr_blk (d st) j <> st + j + 1) ->
   exists k, initlog LOGSIZE BSIZE dev st sz (boot_state LOGSIZE d) = Ok (tt, k) /\
     log_start (k_log k) = st /\ log_size (k_log k) = int_wrap sz /\
     log_dev (k_log k) = dev /\
     lh_n (log_lh (k_log k)) = 0 /\ k_disk k st !! O = Some 0 /\
     log_outstanding (k_log k) = 0 /\ log_committing (k_log k) = 0) /\
  (sizeof_logheader LOGSIZE < BSIZE ->
   (forall b, Z.of_nat (length (d b)) * 4 = BSIZE) ->
   d st !! O = Some n -> n <= LOGSIZE ->
   0 <= LOGSIZE -> 0 <= st -> st + LOGSIZE < 2147483648 ->
   (exists j, 0 <= j < n /\ hdr_blk (d st) j = st + j + 1) ->
   initlog LOGSIZE BSIZE dev st sz (boot_state LOGSIZE d) = Blocked).
Proof.
  split; [|split].
  - intros Hbig s. unfold initlog.
    by destruct (Z.leb_spec BSIZE (sizeof_logheader LOGSIZE)); [|lia].
  - intros Hsz Hblocks Hn HnL HL0 Hst0 Hmax Hself.
    rewrite initlog_boot_wrap by done.
    rewrite (int_wrap_id st) by (unfold int_ok; lia).
    assert (Hlen : (0 < length (d st))%nat) by (apply lookup_lt_Some in Hn; lia).
    destruct (recover_total (mounted LOGSIZE dev st (int_wrap sz) d) n)
      as (k & Hrun & _ & Hn0 & _ & Hd0 & _).
    + by rewrite bview_mounted.
    + rewrite bview_mounted. simpl. pose proof (Hblocks st).
      unfold sizeof_logheader in Hsz. lia.
    + simpl. rewrite length_replicate. lia.
    + simpl. lia.
    + simpl. lia.
    + intros b. rewrite bview_mounted. pose proof (Hblocks b). pose proof (Hblocks st). lia.
    + intros j Hj. rewrite bview_mounted. simpl. by apply Hself.
    + exists k. split; [done|].
      destruct (keeps_geometry_recover _ _ _ Hrun) as (Hg1 & Hg2 & Hg3 & Hg4 & Hg5).
      simpl in *. done.
  - intros Hsz Hblocks Hn HnL HL0 Hst0 Hmax (j & Hj & Hhit).
    destruct (first_self_home (d st) st n j Hj Hhit) as (j0 & Hj0 & Hhit0 & Hfirst).
    rewrite initlog_boot_wrap by done.
    rewrite (int_wrap_id st) by (unfold int_ok; lia).
    assert (Hlen : (0 < length (d st))%nat) by (apply lookup_lt_Some in Hn; lia).
    apply (recover_blocked (mounted LOGSIZE dev st (int_wrap sz) d) n j0).
    + by rewrite bview_mounted.
    + rewrite bview_mounted. simpl. pose proof (Hblocks st).
      unfold sizeof_logheader in Hsz. lia.
    + simpl. rewrite length_replicate. lia.
    + simpl. lia.
    + simpl. lia.
    + intros b. rewrite bview_mounted. pose proof (Hblocks b). pose proof (Hblocks st). lia.
    + done.
    + rewrite bview_mounted. simpl. done.
    + intros i Hi. rewrite bview_mounted. simpl. by apply Hfirst.
Qed.

(** ** No sleeper is left behind *)







(** ** A crash during recovery *)

Lemma hdr_blk_lookup (H : list Z) (n j : Z) :
  0 <= j < n -> (Z.to_nat n < length H)%nat ->
  hdr_blocks n H !! Z.to_nat j = Some (hdr_blk H j).
Proof.
  intros Hj Hlen. unfold hdr_blocks, hdr_blk.
  rewrite lookup_take_lt by lia. rewrite lookup_drop. simpl.
  destruct (lookup_lt_is_Some_2 H (S (Z.to_nat j))) as [v Hv]; [lia|].
  by rewrite Hv.
Qed.

Lemma hdr_blocks_blk (H : list Z) (n b : Z) :
  (Z.to_nat n < length H)%nat ->
  b ∈ hdr_blocks n H -> exists j, 0 <= j < n /\ hdr_blk H j = b.
Proof.
  intros Hlen Hb. apply list_elem_of_lookup_1 in Hb as [i Hi].
  assert (Hlt : (i < length (hdr_blocks n H))%nat) by (by eapply lookup_lt_Some).
  unfold hdr_blocks in Hlt. rewrite length_take, length_drop in Hlt.
  exists (Z.of_nat i). split; [lia|].
  assert (Hl := hdr_blk_lookup H n (Z.of_nat i)). rewrite Nat2Z.id in Hl.
  rewrite Hl in Hi by lia. congruence.
Qed.

(** X12.  Recovery can be restarted.  If the machine crashes while
    recovery is running, before its final header write, the recovery of
    the next boot finds the same header and log slots and ends with the
    same disk as the interrupted run would have. *)
Theorem recovery_restartable (LOGSIZE dev st sz : Z) (d : Z -> list Z) (n : Z) :
  d st !! O = Some n ->
  0 <= n <= LOGSIZE ->
  (Z.to_nat n < length (d st))%nat ->
  0 <= st -> st + n < 2147483648 ->
  NoDup (hdr_blocks n (d st)) ->
  (forall b, b ∈ hdr_blocks n (d st) -> b < st \/ st + n < b) ->
  exists sf, recover_from_log (mounted LOGSIZE dev st sz d) = Ok (tt, sf) /\
    forall pre post,
      k_trace sf = pre ++ post ->
      (forall e, e ∈ pre -> ~ writes_block st e) ->
      exists sf',
        recover_from_log (mounted LOGSIZE dev st sz (crash_disk d pre)) = Ok (tt, sf') /\
        forall b, k_disk sf' b = k_disk sf b.
Proof.
  intros Hn (Hn0 & HnL) Hlen Hst0 Hmax Hnd Hout.
  destruct (recover_ok (mounted LOGSIZE dev st sz d) n)
    as (sf & Hrec & _ & _ & _ & Ht & Hdst & Hhdr & Hoth);
    rewrite ?bview_mounted; simpl; try done.
  { rewrite length_replicate. lia. }
  rewrite !bview_mounted in *. simpl in Ht, Hdst, Hhdr, Hoth.
  exists sf. split; [done|]. intros pre post Htr Hpre.
  rewrite Ht in Htr.
  destruct (prefix_before (writes_block st) pre post _ _ (eq_sym Htr) Hpre) as (q & Hq).
  { right. eexists _, _. split; [reflexivity|]. done. }
  assert (Hpre_elem : forall e, e ∈ pre ->
            exists j x, 0 <= j < n /\ e = EvBwrite (hdr_blk (d st) j) x).
  { intros e He.
    assert (He' : e ∈ flat_map (fun j => [EvBwrite (hdr_blk (d st) j)
                     (bview (mounted LOGSIZE dev st sz d) (st + j + 1))]) (seqZ 0 n)).
    { rewrite Hq. apply elem_of_app. by left. }
    apply elem_of_flat_map_seqZ in He' as (j & Hj & He').
    apply list_elem_of_singleton in He'. by eexists j, _. }
  assert (Hhome : forall j, 0 <= j < n -> hdr_blk (d st) j < st \/ st + n < hdr_blk (d st) j).
  { intros j Hj. apply Hout. eapply list_elem_of_lookup_2. by apply hdr_blk_lookup. }
  assert (Hsame : forall b, st <= b <= st + n -> crash_disk d pre b = d b).
  { intros b Hb. apply crash_disk_untouched. intros e He.
    destruct (Hpre_elem e He) as (j & x & Hj & ->). simpl.
    destruct (Hhome j Hj); lia. }
  destruct (recover_ok (mounted LOGSIZE dev st sz (crash_disk d pre)) n)
    as (sf' & Hrec' & _ & _ & _ & _ & Hdst' & Hhdr' & Hoth');
    rewrite ?bview_mounted; simpl; rewrite ?Hsame by lia; try done.
  { rewrite length_replicate. lia. }
  rewrite !bview_mounted in *. simpl in Hdst', Hhdr', Hoth'.
  rewrite Hsame in Hdst', Hhdr', Hoth' by lia.
  exists sf'. split; [done|]. intros b.
  destruct (decide (b = st)) as [->|Hne]; [by rewrite Hhdr, Hhdr'|].
  destruct (decide (b ∈ hdr_blocks n (d st))) as [Hin|Hnin].
  - apply hdr_blocks_blk in Hin as (j & Hj & <-); [|done].
    rewrite Hdst, Hdst' by done. rewrite !bview_mounted. apply Hsame. lia.
  - rewrite Hoth, Hoth' by done. simpl.
    apply crash_disk_untouched. intros e He.
    destruct (Hpre_elem e He) as (j & x & Hj & ->). simpl. intros <-.
    apply Hnin. eapply list_elem_of_lookup_2. by apply hdr_blk_lookup.
Qed.

(** * kernel/kalloc.c: the page allocator *)

(** ** Bytes and pointers in memory *)

Lemma le_bytes_length n v : length (le_bytes n v) = n.
Proof. revert v. induction n as [|k IH]; intros v; simpl; [done|]. by rewrite IH. Qed.

Lemma le_value_le_bytes n v : le_value (le_bytes n v) = v mod 256 ^ Z.of_nat n.
Proof.
  revert v. induction n as [|k IH]; intros v.
  - simpl. by rewrite Z.mod_1_r.
  - simpl le_bytes. simpl le_value. rewrite IH.
    replace (256 ^ Z.of_nat (S k)) with (256 * 256 ^ Z.of_nat k)
      by (rewrite Nat2Z.inj_succ, Z.pow_succ_r by lia; done).
    rewrite Z.rem_mul_r by lia. done.
Qed.

Lemma load_bytes_ext m m' a n :
  (forall x, a <= x < a + Z.of_nat n -> m' x = m x) ->
  load_bytes m' a n = load_bytes m a n.
Proof.
  intros Hm. unfold load_bytes. apply list_fmap_ext.
  intros i x Hx. apply lookup_seqZ in Hx as [-> Hi]. apply Hm. lia.
Qed.

Lemma load_store_bytes m a bs :
  load_bytes (store_bytes m a bs) a (length bs) = bs.
Proof.
  apply list_eq. intros i. unfold load_bytes. rewrite list_lookup_fmap.
  destruct (decide (i < length bs)%nat) as [Hi|Hi].
  - rewrite lookup_seqZ_lt by lia. simpl. unfold store_bytes.
    destruct (Z.leb_spec a (a + (0 + Z.of_nat i))); [|lia].
    destruct (Z.ltb_spec (a + (0 + Z.of_nat i)) (a + Z.of_nat (length bs))); [|lia].
    simpl. replace (Z.to_nat (a + (0 + Z.of_nat i) - a)) with i by lia.
    destruct (lookup_lt_is_Some_2 bs i Hi) as [b Hb]. by rewrite Hb.
  - rewrite lookup_seqZ_ge by lia. simpl. symmetry. apply lookup_ge_None. lia.
Qed.

Lemma load_store_ptr m a v :
  0 <= v < 18446744073709551616 -> load_ptr (store_ptr m a v) a = v.
Proof.
  intros Hv. unfold load_ptr, store_ptr.
  rewrite <- (le_bytes_length 8 v) at 2. rewrite load_store_bytes.
  rewrite le_value_le_bytes. apply Z.mod_small. simpl. lia.
Qed.

Lemma load_ptr_ext m m' a :
  (forall x, a <= x < a + 8 -> m' x = m x) -> load_ptr m' a = load_ptr m a.
Proof. intros Hm. unfold load_ptr. f_equal. apply load_bytes_ext. simpl. exact Hm. Qed.

Lemma store_ptr_other m a v x : x < a \/ a + 8 <= x -> store_ptr m a v x = m x.
Proof.
  intros Hx. unfold store_ptr, store_bytes. rewrite le_bytes_length.
  destruct (Z.leb_spec a x); destruct (Z.ltb_spec x (a + Z.of_nat 8)); simpl; try done.
  lia.
Qed.

Lemma memset_other m a c n x : x < a \/ a + n <= x -> memset m a c n x = m x.
Proof.
  intros Hx. unfold memset.
  destruct (Z.leb_spec a x); destruct (Z.ltb_spec x (a + n)); simpl; try done. lia.
Qed.

Lemma memset_in m a c n x : a <= x < a + n -> memset m a c n x = c mod 256.
Proof.
  intros Hx. unfold memset.
  destruct (Z.leb_spec a x); destruct (Z.ltb_spec x (a + n)); simpl; try done; lia.
Qed.

(** ** The free list *)

Lemma freelist_rep_ext m m' head pages :
  (forall p, p ∈ pages -> load_ptr m' p = load_ptr m p) ->
  freelist_rep m head pages -> freelist_rep m' head pages.
Proof.
  revert head. induction pages as [|p ps IH]; intros head Hm; [done|].
  simpl. intros (-> & Hp & Hrest). split; [done|]. split; [done|].
  rewrite Hm by (apply elem_of_cons; by left).
  apply IH; [|done]. intros q Hq. apply Hm. apply elem_of_cons. by right.
Qed.

(** Distinct pages do not overlap. *)
Lemma pages_apart p q :
  p mod PGSIZE = 0 -> q mod PGSIZE = 0 -> p <> q ->
  p + PGSIZE <= q \/ q + PGSIZE <= p.
Proof.
  unfold PGSIZE. intros Hp Hq Hne.
  apply Z.mod_divide in Hp as [a ->]; [|done].
  apply Z.mod_divide in Hq as [b ->]; [|done]. lia.
Qed.

Lemma freelist_head_range kend PHYSTOP s pages :
  0 < kend -> PHYSTOP <= 18446744073709551616 ->
  kmem_inv kend PHYSTOP s pages -> 0 <= km_freelist s < 18446744073709551616.
Proof.
  intros Hk Hp (Hrep & _ & Hok). destruct pages as [|p ps]; simpl in Hrep.
  - rewrite Hrep. lia.
  - destruct Hrep as (-> & _). apply Forall_cons in Hok as [(_ & Hr) _]. lia.
Qed.

Lemma kfree_ok kend PHYSTOP pa s :
  page_ok kend PHYSTOP pa ->
  kfree kend PHYSTOP pa s =
  Ok (tt, Kmem pa (store_ptr (memset (km_mem s) pa 1 PGSIZE) pa (km_freelist s))).
Proof.
  intros (Hal & Hlo & Hhi). unfold kfree.
  destruct (Z.eqb_spec (pa mod PGSIZE) 0); [|done].
  destruct (Z.ltb_spec pa kend); [lia|].
  destruct (Z.leb_spec PHYSTOP pa); [lia|]. done.
Qed.

Lemma kfree_inv (kend PHYSTOP pa : Z) (s : kmem_t) (pages : list Z) :
  0 < kend -> PHYSTOP <= 18446744073709551616 ->
  kmem_inv kend PHYSTOP s pages ->
  page_ok kend PHYSTOP pa ->
  pa ∉ pages ->
  kmem_inv kend PHYSTOP
    (Kmem pa (store_ptr (memset (km_mem s) pa 1 PGSIZE) pa (km_freelist s)))
    (pa :: pages).
Proof.
  intros Hk Hp Hinv Hpa Hnin.
  pose proof (freelist_head_range _ _ _ _ Hk Hp Hinv) as Hhead.
  destruct Hinv as (Hrep & Hnd & Hok).
  split; [|split].
  - simpl. split; [done|]. split; [destruct Hpa as (_ & ? & _); lia|].
    rewrite load_store_ptr by done.
    apply (freelist_rep_ext (km_mem s)); [|done].
    intros q Hq. apply load_ptr_ext. intros x Hx.
    assert (Hqok : page_ok kend PHYSTOP q) by (by eapply Forall_forall in Hok).
    assert (Hne : q <> pa) by (intros ->; done).
    destruct (pages_apart q pa) as [?|?]; [apply Hqok | apply Hpa | done | |];
      unfold PGSIZE in *.
    + rewrite store_ptr_other by lia. apply memset_other. lia.
    + rewrite store_ptr_other by lia. apply memset_other. lia.
  - by apply NoDup_cons.
  - by apply Forall_cons.
Qed.

Lemma kalloc_inv (kend PHYSTOP : Z) (s : kmem_t) (p : Z) (ps : list Z) :
  kmem_inv kend PHYSTOP s (p :: ps) ->
  kalloc s = Ok (p, Kmem (load_ptr (km_mem s) p) (memset (km_mem s) p 5 PGSIZE)) /\
  kmem_inv kend PHYSTOP
    (Kmem (load_ptr (km_mem s) p) (memset (km_mem s) p 5 PGSIZE)) ps.
Proof.
  intros (Hrep & Hnd & Hok). simpl in Hrep. destruct Hrep as (Hhead & Hp0 & Hrep).
  apply NoDup_cons in Hnd as [Hnin Hnd]. apply Forall_cons in Hok as [Hpok Hok].
  split.
  - unfold kalloc. rewrite Hhead. by destruct (Z.eqb_spec p 0).
  - split; [|done]. simpl.
    apply (freelist_rep_ext (km_mem s)); [|done].
    intros q Hq. apply load_ptr_ext. intros x Hx.
    assert (Hqok : page_ok kend PHYSTOP q) by (by eapply Forall_forall in Hok).
    assert (Hne : q <> p) by (intros ->; done).
    destruct (pages_apart q p) as [?|?]; [apply Hqok | apply Hpok | done | |];
      unfold PGSIZE in *; apply memset_other; lia.
Qed.

Lemma kalloc_empty (s : kmem_t) : km_freelist s = 0 -> kalloc s = Ok (0, s).
Proof. intros H0. unfold kalloc. rewrite H0. simpl. by destruct s. Qed.

(** X13.  [kfree] pushes the page on the free list: in a state whose free
    list holds the pairwise distinct pages [pages], freeing a page that
    the allocator may hold and that is not free already returns with the
    free list [pa :: pages]; the page is filled with the junk byte 1
    behind its link, and no byte outside the page changes. *)
Theorem kfree_pushes (kend PHYSTOP pa : Z) (s : kmem_t) (pages : list Z) :
  0 < kend -> PHYSTOP <= 18446744073709551616 ->
  kmem_inv kend PHYSTOP s pages ->
  page_ok kend PHYSTOP pa ->
  pa ∉ pages ->
  exists s', kfree kend PHYSTOP pa s = Ok (tt, s') /\
    kmem_inv kend PHYSTOP s' (pa :: pages) /\
    (forall x, pa + 8 <= x < pa + PGSIZE -> km_mem s' x = 1) /\
    (forall x, x < pa \/ pa + PGSIZE <= x -> km_mem s' x = km_mem s x).
Proof.
  intros Hk Hp Hinv Hpa Hnin.
  rewrite (kfree_ok _ _ _ _ Hpa). eexists. split; [reflexivity|]. simpl.
  split; [by apply kfree_inv|]. split.
  - intros x Hx. unfold PGSIZE in *. rewrite store_ptr_other by lia.
    rewrite memset_in by lia. done.
  - intros x Hx. unfold PGSIZE in *. rewrite store_ptr_other by lia.
    apply memset_other. lia.
Qed.

(** X14.  [kalloc] pops the head of the free list, or returns the null
    pointer and changes nothing when the list is empty.  The page it
    returns is one the allocator may hold, it is off the free list, all of
    its bytes are the junk byte 5, and no byte outside it has changed. *)
Theorem kalloc_pops (kend PHYSTOP : Z) (s : kmem_t) (pages : list Z) :
  kmem_inv kend PHYSTOP s pages ->
  match pages with
  | [] => kalloc s = Ok (0, s)
  | p :: ps =>
      exists s', kalloc s = Ok (p, s') /\
        page_ok kend PHYSTOP p /\ (p ∉ ps) /\
        kmem_inv kend PHYSTOP s' ps /\
        (forall x, p <= x < p + PGSIZE -> km_mem s' x = 5) /\
        (forall x, x < p \/ p + PGSIZE <= x -> km_mem s' x = km_mem s x)
  end.
Proof.
  intros Hinv. destruct pages as [|p ps].
  - apply kalloc_empty. by destruct Hinv as (Hrep & _).
  - destruct (kalloc_inv _ _ _ _ _ Hinv) as (Hrun & Hinv').
    destruct Hinv as (_ & Hnd & Hok).
    apply NoDup_cons in Hnd as [Hnin _]. apply Forall_cons in Hok as [Hpok _].
    eexists. split; [exact Hrun|]. simpl.
    split; [done|]. split; [done|]. split; [done|]. split.
    + intros x Hx. by rewrite memset_in.
    + intros x Hx. by apply memset_other.
Qed.

(** X15.  Last in, first out: whatever the state, the [kalloc] that
    follows a [kfree] returns the page just freed and restores the head of
    the free list; the page comes back filled with the junk byte 5 and the
    rest of memory is as before the [kfree]. *)
Theorem kfree_kalloc_round_trip (kend PHYSTOP pa : Z) (s : kmem_t) :
  0 < kend ->
  page_ok kend PHYSTOP pa ->
  0 <= km_freelist s < 18446744073709551616 ->
  exists s1 s2,
    kfree kend PHYSTOP pa s = Ok (tt, s1) /\
    kalloc s1 = Ok (pa, s2) /\
    km_freelist s2 = km_freelist s /\
    (forall x, pa <= x < pa + PGSIZE -> km_mem s2 x = 5) /\
    (forall x, x < pa \/ pa + PGSIZE <= x -> km_mem s2 x = km_mem s x).
Proof.
  intros Hk Hpa Hhead. rewrite (kfree_ok _ _ _ _ Hpa).
  eexists _, _. split; [reflexivity|]. unfold kalloc. simpl.
  destruct (Z.eqb_spec pa 0); [destruct Hpa as (_ & ? & _); lia|].
  split; [reflexivity|]. simpl. split; [by apply load_store_ptr|]. split.
  - intros x Hx. by rewrite memset_in.
  - intros x Hx. rewrite memset_other by done. unfold PGSIZE in *.
    rewrite store_ptr_other by lia. apply memset_other. lia.
Qed.

Lemma load_bytes_const m a n v :
  (forall x, a <= x < a + Z.of_nat n -> m x = v) -> load_bytes m a n = replicate n v.
Proof.
  intros Hm. apply list_eq. intros i. unfold load_bytes. rewrite list_lookup_fmap.
  destruct (decide (i < n)%nat) as [Hi|Hi].
  - rewrite lookup_seqZ_lt by lia. simpl. rewrite lookup_replicate_2 by done.
    f_equal. apply Hm. lia.
  - rewrite lookup_seqZ_ge by lia. simpl. symmetry. apply lookup_replicate_None. lia.
Qed.

(** X16.  [kfree] does not notice a page that is freed twice.  After two
    calls of [kfree] on the same page the page points to itself: the next
    two calls of [kalloc] both return it, the pages that were free before
    are lost, and the head of the free list is left holding the junk
    pattern that [kalloc] filled the page with. *)
Theorem double_free_hands_out_twice (kend PHYSTOP pa : Z) (s : kmem_t) :
  0 < kend -> PHYSTOP <= 18446744073709551616 ->
  page_ok kend PHYSTOP pa ->
  exists s1 s2 s3 s4,
    kfree kend PHYSTOP pa s = Ok (tt, s1) /\
    kfree kend PHYSTOP pa s1 = Ok (tt, s2) /\
    load_ptr (km_mem s2) pa = pa /\
    kalloc s2 = Ok (pa, s3) /\
    kalloc s3 = Ok (pa, s4) /\
    km_freelist s4 = 361700864190383365.
Proof.
  intros Hk Hp Hpa. pose proof Hpa as (Hal & Hlo & Hhi).
  rewrite (kfree_ok _ _ _ _ Hpa). eexists _, _, _, _. split; [reflexivity|].
  rewrite (kfree_ok _ _ _ _ Hpa). split; [reflexivity|]. simpl.
  assert (Hself : load_ptr
            (store_ptr
               (memset (store_ptr (memset (km_mem s) pa 1 PGSIZE) pa (km_freelist s))
                  pa 1 PGSIZE) pa pa) pa = pa) by (apply load_store_ptr; lia).
  split; [exact Hself|].
  unfold kalloc at 1. simpl. destruct (Z.eqb_spec pa 0); [lia|].
  split; [reflexivity|]. simpl. rewrite Hself.
  unfold kalloc. simpl. destruct (Z.eqb_spec pa 0); [lia|].
  split; [reflexivity|]. simpl.
  unfold load_ptr. rewrite (load_bytes_const _ _ _ 5); [done|].
  intros x Hx. unfold PGSIZE. rewrite memset_in by lia. done.
Qed.

(** ** [kalloc] until the memory runs out *)

(** X17.  Calls of [kalloc] in a row hand out the pages of the free list in
    order, each one once, hence pairwise distinct pages; once the list is
    exhausted every further call returns the null pointer. *)
Theorem kalloc_exhausts (kend PHYSTOP : Z) (k : nat) :
  forall (s : kmem_t) (pages : list Z),
    kmem_inv kend PHYSTOP s pages ->
    exists s', kallocs k s = (take k pages ++ replicate (k - length pages) 0, s') /\
               kmem_inv kend PHYSTOP s' (drop k pages) /\
               NoDup (take k pages) /\ (0 ∉ take k pages).
Proof.
  induction k as [|k IH]; intros s pages Hinv.
  - exists s. simpl. rewrite drop_0. split; [done|]. split; [done|].
    split; [constructor|apply not_elem_of_nil].
  - destruct pages as [|p ps].
    + assert (Hrun : kalloc s = Ok (0, s)).
      { apply kalloc_empty. by destruct Hinv as (Hrep & _). }
      destruct (IH s [] Hinv) as (s' & Hrest & Hinv' & _).
      exists s'. simpl. rewrite Hrun, Hrest. simpl.
      rewrite take_nil, drop_nil in *. simpl. rewrite Nat.sub_0_r.
      split; [done|]. split; [done|]. split; [constructor|apply not_elem_of_nil].
    + destruct (kalloc_inv _ _ _ _ _ Hinv) as (Hrun & Hinv1).
      destruct (IH _ ps Hinv1) as (s' & Hrest & Hinv' & Hnd' & H0').
      exists s'. simpl. rewrite Hrun, Hrest. simpl.
      split; [done|]. split; [done|].
      destruct Hinv as ((_ & Hp0 & _) & Hnd & _).
      apply NoDup_cons in Hnd as [Hnin _]. split.
      * apply NoDup_cons. split; [|done].
        intros Hin. apply Hnin. by apply (subseteq_take k ps).
      * intros Hin. apply elem_of_cons in Hin as [?|?]; [congruence|done].
Qed.

(** ** [freerange] and [kinit] *)

Lemma elem_of_page_seq q p k :
  q ∈ page_seq p k <-> exists i, 0 <= i < Z.of_nat k /\ q = p + PGSIZE * i.
Proof.
  revert p. induction k as [|k IH]; intros p; simpl.
  - split; [intros H; by apply elem_of_nil in H | intros (i & ? & _); exfalso; lia].
  - rewrite elem_of_cons, IH. split.
    + intros [->|(i & Hi & ->)]; [exists 0; lia | exists (i + 1); lia].
    + intros (i & Hi & ->). destruct (decide (i = 0)) as [->|Hne]; [left; lia|].
      right. exists (i - 1). lia.
Qed.

Lemma freerange_loop_ok kend PHYSTOP pa_end (k : nat) :
  0 < kend -> PHYSTOP + PGSIZE < 18446744073709551616 -> pa_end <= PHYSTOP ->
  forall (fuel : nat) (p : Z) (s : kmem_t) (pages : list Z),
    (k < fuel)%nat ->
    p mod PGSIZE = 0 -> kend <= p ->
    p + PGSIZE * Z.of_nat k <= pa_end < p + PGSIZE * (Z.of_nat k + 1) ->
    kmem_inv kend PHYSTOP s pages ->
    (forall q, q ∈ pages -> q < p) ->
    exists s', freerange_loop kend PHYSTOP fuel p pa_end s = Some (Ok (tt, s')) /\
               kmem_inv kend PHYSTOP s' (reverse (page_seq p k) ++ pages).
Proof.
  intros Hk Hp Hend. induction k as [|k IH]; intros fuel p s pages Hfuel Hal Hlo Hrange Hinv Hbelow.
  - destruct fuel as [|fuel]; [lia|]. simpl. unfold PGSIZE in *.
    destruct (Z.leb_spec 18446744073709551616 (p + 4096)); [lia|].
    destruct (Z.leb_spec (p + 4096) pa_end); [lia|]. by exists s.
  - destruct fuel as [|fuel]; [lia|]. simpl freerange_loop.
    assert (Hpok : page_ok kend PHYSTOP p) by (unfold page_ok, PGSIZE in *; lia).
    destruct (Z.leb_spec 18446744073709551616 (p + PGSIZE)); [unfold PGSIZE in *; lia|].
    destruct (Z.leb_spec (p + PGSIZE) pa_end); [|unfold PGSIZE in *; lia].
    rewrite (kfree_ok _ _ _ _ Hpok).
    destruct (IH fuel (p + PGSIZE)
                (Kmem p (store_ptr (memset (km_mem s) p 1 PGSIZE) p (km_freelist s)))
                (p :: pages)) as (s' & Hrun & Hinv').
    + lia.
    + unfold PGSIZE in *. rewrite <- Z.add_mod_idemp_l, Hal by done. done.
    + unfold PGSIZE. lia.
    + unfold PGSIZE in *. lia.
    + apply kfree_inv; [done | unfold PGSIZE in *; lia | done | done |].
      intros Hin. apply Hbelow in Hin. lia.
    + intros q Hq. apply elem_of_cons in Hq as [->|Hq]; [unfold PGSIZE; lia|].
      apply Hbelow in Hq. unfold PGSIZE. lia.
    + exists s'. split; [done|]. simpl page_seq.
      by rewrite reverse_cons, <- app_assoc.
Qed.

(** X18.  [freerange] frees every whole page of the range, lowest first:
    from the rounded-up start on, [k] pages fit below [pa_end], a partial
    page at the end is left alone, and the free list ends up holding these
    pages, the highest at its head, in front of the pages that were free
    before. *)
Theorem freerange_fills (kend PHYSTOP : Z) (PGROUNDUP : Z -> Z)
    (pa_start pa_end : Z) (k : nat) (s : kmem_t) (pages : list Z) :
  0 < kend -> PHYSTOP + PGSIZE < 18446744073709551616 -> pa_end <= PHYSTOP ->
  PGROUNDUP (pa_start mod 18446744073709551616) mod PGSIZE = 0 ->
  kend <= PGROUNDUP (pa_start mod 18446744073709551616) ->
  PGROUNDUP (pa_start mod 18446744073709551616) + PGSIZE * Z.of_nat k <= pa_end
    < PGROUNDUP (pa_start mod 18446744073709551616) + PGSIZE * (Z.of_nat k + 1) ->
  kmem_inv kend PHYSTOP s pages ->
  (forall q, q ∈ pages -> q < PGROUNDUP (pa_start mod 18446744073709551616)) ->
  exists s',
    freerange kend PHYSTOP PGROUNDUP pa_start pa_end s = Some (Ok (tt, s')) /\
    kmem_inv kend PHYSTOP s'
      (reverse (page_seq (PGROUNDUP (pa_start mod 18446744073709551616)) k) ++ pages).
Proof.
  intros Hk Hp Hend Hal Hlo Hrange Hinv Hbelow. unfold freerange.
  apply (freerange_loop_ok kend PHYSTOP pa_end k); try done.
  unfold PGSIZE in *. lia.
Qed.

(** X19.  [kinit] on the zero-initialised allocator puts every page
    between the end of the kernel, rounded up, and PHYSTOP on the free
    list, each exactly once; the first [kalloc] then returns the topmost
    page. *)
Theorem kinit_frees_all (kend PHYSTOP : Z) (PGROUNDUP : Z -> Z) (k : nat) (s : kmem_t) :
  0 < kend < 18446744073709551616 ->
  PHYSTOP + PGSIZE < 18446744073709551616 ->
  PGROUNDUP kend mod PGSIZE = 0 -> kend <= PGROUNDUP kend ->
  PHYSTOP = PGROUNDUP kend + PGSIZE * Z.of_nat k ->
  km_freelist s = 0 ->
  exists s',
    kinit kend PHYSTOP PGROUNDUP s = Some (Ok (tt, s')) /\
    kmem_inv kend PHYSTOP s' (reverse (page_seq (PGROUNDUP kend) k)) /\
    (forall q, q mod PGSIZE = 0 -> PGROUNDUP kend <= q < PHYSTOP ->
       q ∈ reverse (page_seq (PGROUNDUP kend) k)) /\
    ((0 < k)%nat -> exists s'', kalloc s' = Ok (PHYSTOP - PGSIZE, s'')).
Proof.
  intros Hk Hp Hal Hlo Htop Hnull. unfold kinit, freerange.
  rewrite (Z.mod_small kend) by lia.
  destruct (freerange_loop_ok kend PHYSTOP PHYSTOP k ltac:(lia) Hp ltac:(lia)
              (S (Z.to_nat (PHYSTOP - PGROUNDUP kend))) (PGROUNDUP kend) s [])
    as (s' & Hrun & Hinv); try done.
  - unfold PGSIZE in *. lia.
  - unfold PGSIZE in *. lia.
  - split; [done|]. split; [constructor|constructor].
  - intros q Hq. by apply elem_of_nil in Hq.
  - rewrite app_nil_r in Hinv. exists s'. split; [done|]. split; [done|]. split.
    + intros q Hq Hr. rewrite elem_of_reverse. apply elem_of_page_seq.
      apply Z.mod_divide in Hq as [a ->]; [|done].
      apply Z.mod_divide in Hal as [b Hb]; [|done]. rewrite Hb in *.
      exists (a - b). unfold PGSIZE in *. lia.
    + intros Hpos.
      assert (Hlast : exists ps, reverse (page_seq (PGROUNDUP kend) k)
                        = (PHYSTOP - PGSIZE) :: ps).
      { rewrite Htop. clear -Hpos. generalize (PGROUNDUP kend).
        induction k as [|k IH]; intros p; [lia|].
        simpl page_seq. rewrite reverse_cons.
        destruct k as [|k].
        - exists []. simpl. f_equal. unfold PGSIZE. lia.
        - destruct (IH ltac:(lia) (p + PGSIZE)) as (ps & Hps).
          exists (ps ++ [p]). rewrite Hps. simpl. f_equal. unfold PGSIZE. lia. }
      destruct Hlast as (ps & Hps). rewrite Hps in Hinv.
      destruct (kalloc_inv _ _ _ _ _ Hinv) as (Hka & _). by eexists.
Qed.

(** ** The console's ring buffer *)

Ltac uint_arith :=
  unfold to_uint, INPUT_BUF_SIZE in *; Z.to_euclidean_division_equations; lia.

Lemma con_buf_get_put s i c j :
  length (c_buf s) = 128%nat ->
  con_buf_get (con_buf_put i c s) j =
    if i mod 128 =? j mod 128 then c mod 256 else con_buf_get s j.
Proof.
  intros Hlen. unfold con_buf_get, con_buf_put, INPUT_BUF_SIZE. simpl.
  assert (0 <= i mod 128 < 128) by (apply Z.mod_pos_bound; lia).
  assert (0 <= j mod 128 < 128) by (apply Z.mod_pos_bound; lia).
  destruct (Z.eqb_spec (i mod 128) (j mod 128)) as [He|Hne].
  - rewrite <- He, list_lookup_insert_eq by lia. done.
  - rewrite list_lookup_insert_ne by lia. done.
Qed.

Lemma con_buf_get_wrap s i : con_buf_get s (to_uint i) = con_buf_get s i.
Proof.
  unfold con_buf_get. f_equal. f_equal. f_equal. uint_arith.
Qed.

Lemma mod128_neq x y :
  0 < to_uint (x - y) < 128 -> x mod 128 <> y mod 128.
Proof. uint_arith. Qed.

Lemma mod128_eq x y :
  to_uint (x - y) = 0 -> x mod 128 = y mod 128.
Proof. uint_arith. Qed.

Lemma con_buf_get_put_eq s i c j :
  length (c_buf s) = 128%nat -> to_uint (j - i) = 0 ->
  con_buf_get (con_buf_put i c s) j = c mod 256.
Proof.
  intros Hlen H. rewrite con_buf_get_put by done.
  apply mod128_eq in H. rewrite H, Z.eqb_refl. done.
Qed.

Lemma con_buf_get_put_ne s i c j :
  length (c_buf s) = 128%nat -> 0 < to_uint (i - j) < 128 ->
  con_buf_get (con_buf_put i c s) j = con_buf_get s j.
Proof.
  intros Hlen H. rewrite con_buf_get_put by done.
  apply mod128_neq in H. by apply Z.eqb_neq in H as ->.
Qed.

Lemma con_buf_get_ext s s' i :
  c_buf s = c_buf s' -> con_buf_get s i = con_buf_get s' i.
Proof. unfold con_buf_get. by intros ->. Qed.

Lemma con_span_ext s s' from k :
  (forall i, 0 <= i < Z.of_nat k -> con_buf_get s (from + i) = con_buf_get s' (from + i)) ->
  con_span s from k = con_span s' from k.
Proof.
  revert from. induction k as [|k IH]; intros from H; [done|].
  simpl. f_equal.
  - specialize (H 0 ltac:(lia)). by rewrite Z.add_0_r in H.
  - apply IH. intros i Hi. specialize (H (1 + i) ltac:(lia)).
    by rewrite Z.add_assoc in H.
Qed.

Lemma con_span_wrap s from k : con_span s (to_uint from) k = con_span s from k.
Proof.
  revert from. induction k as [|k IH]; intros from; [done|].
  simpl. rewrite con_buf_get_wrap. f_equal.
  rewrite <- (IH (from + 1)), <- (IH (to_uint from + 1)). f_equal. uint_arith.
Qed.

Lemma con_span_app s from k1 k2 :
  con_span s from (k1 + k2) = con_span s from k1 ++ con_span s (from + Z.of_nat k1) k2.
Proof.
  revert from. induction k1 as [|k1 IH]; intros from.
  - simpl. by rewrite Z.add_0_r.
  - simpl. f_equal. rewrite IH. do 2 f_equal. lia.
Qed.

Lemma con_span_length s from k : length (con_span s from k) = k.
Proof. revert from. induction k; intros; simpl; auto. Qed.

Lemma con_span_lookup s from k j :
  (j < k)%nat -> con_span s from k !! j = Some (con_buf_get s (from + Z.of_nat j)).
Proof.
  revert from j. induction k as [|k IH]; intros from j Hj; [lia|].
  destruct j as [|j]; simpl.
  - by rewrite Z.add_0_r.
  - rewrite IH by lia. do 2 f_equal. lia.
Qed.

(** ** [consoleintr], case by case *)

Lemma consoleintr_plain c s :
  plain_char c -> to_uint (c_e s - c_r s) < 127 ->
  consoleintr c s =
    Some (con_set_e (to_uint (c_e s + 1))
            (con_buf_put (c_e s) c (con_emit (CoPutcSync c) s))).
Proof.
  intros (Hc & H16 & H21 & H8 & H127 & H13 & H10 & H4) He.
  unfold consoleintr, ctrl, consputc, BACKSPACE. simpl.
  repeat match goal with
  | |- context [c =? ?k] => destruct (Z.eqb_spec c k); [lia|]
  end. simpl.
  destruct (Z.ltb_spec (to_uint (c_e s - c_r s)) INPUT_BUF_SIZE);
    [|unfold INPUT_BUF_SIZE in *; lia].
  destruct (Z.eqb_spec (to_uint (to_uint (c_e s + 1) - c_r s)) INPUT_BUF_SIZE);
    [uint_arith|]. done.
Qed.

Lemma consoleintr_commit c s :
  c = 10 \/ c = 13 \/ c = 4 -> to_uint (c_e s - c_r s) < 128 ->
  let c' := if c =? 13 then 10 else c in
  consoleintr c s =
    Some (con_emit CoWakeup
           (con_set_w (to_uint (c_e s + 1))
             (con_set_e (to_uint (c_e s + 1))
               (con_buf_put (c_e s) c' (con_emit (CoPutcSync c') s))))).
Proof.
  intros Hc He. unfold consoleintr, ctrl, consputc, BACKSPACE, INPUT_BUF_SIZE.
  destruct (Z.ltb_spec (to_uint (c_e s - c_r s)) 128); [|lia].
  destruct Hc as [->|[->| ->]]; done.
Qed.

Lemma consoleintr_fill c s :
  plain_char c -> to_uint (c_e s - c_r s) = 127 ->
  0 <= c_e s < 4294967296 -> 0 <= c_r s < 4294967296 ->
  consoleintr c s =
    Some (con_emit CoWakeup
           (con_set_w (to_uint (c_e s + 1))
             (con_set_e (to_uint (c_e s + 1))
               (con_buf_put (c_e s) c (con_emit (CoPutcSync c) s))))).
Proof.
  intros (Hc & H16 & H21 & H8 & H127 & H13 & H10 & H4) He Hre Hrr.
  unfold consoleintr, ctrl, consputc, BACKSPACE. simpl.
  repeat match goal with
  | |- context [c =? ?k] => destruct (Z.eqb_spec c k); [lia|]
  end. simpl.
  destruct (Z.ltb_spec (to_uint (c_e s - c_r s)) INPUT_BUF_SIZE);
    [|unfold INPUT_BUF_SIZE in *; lia].
  destruct (Z.eqb_spec (to_uint (to_uint (c_e s + 1) - c_r s)) INPUT_BUF_SIZE);
    [done|]. exfalso. uint_arith.
Qed.

Lemma consoleintr_full c s :
  c <> 16 -> c <> 21 -> c <> 8 -> c <> 127 ->
  to_uint (c_e s - c_r s) = 128 ->
  consoleintr c s = Some s.
Proof.
  intros H16 H21 H8 H127 He. unfold consoleintr, ctrl. simpl.
  repeat match goal with
  | |- context [c =? ?k] => destruct (Z.eqb_spec c k); [lia|]
  end. simpl.
  destruct (Z.ltb_spec (to_uint (c_e s - c_r s)) INPUT_BUF_SIZE);
    [unfold INPUT_BUF_SIZE in *; lia|]. by rewrite andb_false_r.
Qed.

Lemma consoleintr_erase c s :
  c = 8 \/ c = 127 ->
  consoleintr c s =
    Some (if c_e s =? c_w s then s
          else con_emit (CoPutcSync 8) (con_emit (CoPutcSync 32)
                 (con_emit (CoPutcSync 8) (con_set_e (to_uint (c_e s - 1)) s)))).
Proof.
  intros [-> | ->]; unfold consoleintr, ctrl, consputc; simpl;
    by destruct (c_e s =? c_w s).
Qed.

Lemma kill_line_spec k : forall s fuel,
  0 <= c_e s < 4294967296 -> 0 <= c_w s < 4294967296 ->
  to_uint (c_e s - c_w s) = Z.of_nat k -> (k <= fuel)%nat ->
  (forall i, 0 <= i < Z.of_nat k -> con_buf_get s (c_w s + i) <> 10) ->
  kill_line fuel s =
    Some (Con (c_buf s) (c_r s) (c_w s) (c_w s)
              (c_out s ++ concat (replicate k erase_echo)) (c_killed s)).
Proof.
  induction k as [|k IH]; intros s fuel He Hw Hk Hfuel Hnl.
  - assert (c_e s = c_w s) as Heq by uint_arith.
    destruct s as [b r w e o kl]. simpl in *. subst e.
    destruct fuel; simpl; rewrite Z.eqb_refl; simpl; by rewrite app_nil_r.
  - destruct fuel as [|fuel]; [lia|]. simpl.
    destruct (Z.eqb_spec (c_e s) (c_w s)) as [Heq|Hne].
    { exfalso. rewrite Heq in Hk. uint_arith. }
    assert (con_buf_get s (to_uint (c_e s - 1)) <> 10) as Hc.
    { rewrite con_buf_get_wrap.
      specialize (Hnl (Z.of_nat k) ltac:(lia)).
      unfold con_buf_get in *. intros Hc. apply Hnl. rewrite <- Hc.
      do 3 f_equal. uint_arith. }
    apply Z.eqb_neq in Hc as ->. simpl.
    rewrite IH; simpl.
    + unfold consputc, erase_echo. simpl. do 2 f_equal.
      by rewrite <- !app_assoc.
    + uint_arith.
    + done.
    + uint_arith.
    + lia.
    + intros i Hi. unfold consputc. simpl. apply (Hnl i). lia.
Qed.

Lemma store_keeps_buffered s c ev i :
  length (c_buf s) = 128%nat ->
  to_uint (c_e s - c_r s) < 128 -> 0 <= i < to_uint (c_e s - c_r s) ->
  con_buf_get (con_buf_put (c_e s) c (con_emit ev s)) (c_r s + i) =
  con_buf_get s (c_r s + i).
Proof.
  intros Hlen He Hi. rewrite con_buf_get_put_ne; [|done|uint_arith].
  by apply con_buf_get_ext.
Qed.

Lemma cons_inv_store s c ev :
  cons_inv s -> to_uint (c_e s - c_r s) < 127 ->
  0 <= c < 256 -> c <> 10 -> c <> 4 ->
  cons_inv (con_set_e (to_uint (c_e s + 1)) (con_buf_put (c_e s) c (con_emit ev s))).
Proof.
  intros (Hlen & Hr & Hw & He & Hsum & Hcap & Hpend) Hroom Hc H10 H4.
  unfold cons_inv. simpl. rewrite length_insert.
  split; [done|]. split; [done|]. split; [done|].
  split; [uint_arith|]. split; [uint_arith|]. split; [uint_arith|].
  intros i Hi.
  destruct (Z.eq_dec i (to_uint (c_e s - c_w s))) as [->|Hne].
  - change (con_buf_get (con_buf_put (c_e s) c (con_emit ev s))
              (c_w s + to_uint (c_e s - c_w s)) <> 10 /\
            con_buf_get (con_buf_put (c_e s) c (con_emit ev s))
              (c_w s + to_uint (c_e s - c_w s)) <> 4).
    rewrite con_buf_get_put_eq; [|done|uint_arith].
    rewrite Z.mod_small by lia. done.
  - change (con_buf_get (con_buf_put (c_e s) c (con_emit ev s)) (c_w s + i) <> 10 /\
            con_buf_get (con_buf_put (c_e s) c (con_emit ev s)) (c_w s + i) <> 4).
    rewrite con_buf_get_put_ne; [|done|uint_arith].
    rewrite (con_buf_get_ext _ s) by done. apply Hpend. uint_arith.
Qed.

Lemma cons_inv_commit s c ev :
  cons_inv s -> to_uint (c_e s - c_r s) < 128 ->
  cons_inv (con_emit CoWakeup
             (con_set_w (to_uint (c_e s + 1))
               (con_set_e (to_uint (c_e s + 1))
                 (con_buf_put (c_e s) c (con_emit ev s))))).
Proof.
  intros (Hlen & Hr & Hw & He & Hsum & Hcap & Hpend) Hroom.
  unfold cons_inv. simpl. rewrite length_insert.
  split; [done|]. split; [done|]. split; [uint_arith|].
  split; [uint_arith|]. split; [uint_arith|]. split; [uint_arith|].
  intros i Hi. exfalso. uint_arith.
Qed.

Lemma cons_inv_erase s :
  cons_inv s -> c_e s <> c_w s ->
  cons_inv (con_emit (CoPutcSync 8) (con_emit (CoPutcSync 32)
             (con_emit (CoPutcSync 8) (con_set_e (to_uint (c_e s - 1)) s)))).
Proof.
  intros (Hlen & Hr & Hw & He & Hsum & Hcap & Hpend) Hne.
  unfold cons_inv. simpl.
  split; [done|]. split; [done|]. split; [done|].
  split; [uint_arith|]. split; [uint_arith|]. split; [uint_arith|].
  intros i Hi. apply (Hpend i). uint_arith.
Qed.

Lemma cons_inv_kill s o :
  cons_inv s -> cons_inv (Con (c_buf s) (c_r s) (c_w s) (c_w s) o (c_killed s)).
Proof.
  intros (Hlen & Hr & Hw & He & Hsum & Hcap & Hpend).
  unfold cons_inv. simpl.
  split; [done|]. split; [done|]. split; [done|].
  split; [done|]. split; [uint_arith|]. split; [uint_arith|].
  intros i Hi. exfalso. uint_arith.
Qed.

(** X20.  Whatever byte arrives, [consoleintr] returns and keeps the
    console's invariant; it does not move the read index, never takes the
    write index back, and leaves every committed character that has not
    been read where it is. *)
Theorem consoleintr_keeps_input c s :
  0 <= c < 256 -> cons_inv s ->
  exists s', consoleintr c s = Some s' /\ cons_inv s' /\
    c_r s' = c_r s /\
    to_uint (c_w s - c_r s) <= to_uint (c_w s' - c_r s') /\
    con_span s' (c_r s) (Z.to_nat (to_uint (c_w s - c_r s))) =
    con_span s (c_r s) (Z.to_nat (to_uint (c_w s - c_r s))).
Proof.
  intros Hc Hinv.
  pose proof Hinv as (Hlen & Hr & Hw & He & Hsum & Hcap & Hpend).
  assert (Hkeep : forall c' ev s', to_uint (c_e s - c_r s) < 128 ->
    c_buf s' = c_buf (con_buf_put (c_e s) c' (con_emit ev s)) ->
    con_span s' (c_r s) (Z.to_nat (to_uint (c_w s - c_r s))) =
    con_span s (c_r s) (Z.to_nat (to_uint (c_w s - c_r s)))).
  { intros c' ev s' Hroom Hbuf. apply con_span_ext. intros i Hi.
    rewrite (con_buf_get_ext _ _ _ Hbuf).
    apply store_keeps_buffered; [done|done|uint_arith]. }
  destruct (Z.eq_dec c 16) as [->|H16].
  { exists (con_emit CoProcdump s). split; [done|]. split; [exact Hinv|].
    split; [done|]. split; [simpl; lia|]. by apply con_span_ext. }
  destruct (Z.eq_dec c 21) as [->|H21].
  { eexists. split.
    - unfold consoleintr. simpl.
      apply (kill_line_spec (Z.to_nat (to_uint (c_e s - c_w s)))); try done.
      + uint_arith.
      + intros i Hi. apply Hpend. lia.
    - split; [by apply cons_inv_kill|]. simpl.
      split; [done|]. split; [lia|]. by apply con_span_ext. }
  destruct (Z.eq_dec c 8) as [->|H8]; [|destruct (Z.eq_dec c 127) as [->|H127]].
  1,2: rewrite consoleintr_erase by auto;
    destruct (Z.eqb_spec (c_e s) (c_w s)) as [Heq|Hne];
    [exists s; split; [done|]; split; [done|]; split; [done|]; split; [lia|done]
    |eexists; split; [done|]; split; [by apply cons_inv_erase|];
     simpl; split; [done|]; split; [lia|]; by apply con_span_ext].
  destruct (Z.eq_dec c 0) as [->|H0].
  { exists s. split; [done|]. split; [done|]. split; [done|]. split; [lia|done]. }
  destruct (Z.eq_dec (to_uint (c_e s - c_r s)) 128) as [Hfull|Hroom].
  { rewrite consoleintr_full by done. exists s.
    split; [done|]. split; [done|]. split; [done|]. split; [lia|done]. }
  assert (to_uint (c_e s - c_r s) < 128) as Hlt by lia.
  destruct (Z.eq_dec c 10) as [->|H10]; [|destruct (Z.eq_dec c 13) as [->|H13];
    [|destruct (Z.eq_dec c 4) as [->|H4]]].
  1,2,3: rewrite consoleintr_commit by auto; eexists; split; [done|];
    split; [by apply cons_inv_commit|]; simpl;
    split; [done|]; split; [uint_arith|by eapply Hkeep].
  assert (plain_char c) as Hplain by (unfold plain_char; lia).
  destruct (Z.eq_dec (to_uint (c_e s - c_r s)) 127) as [H127'|H127'].
  - rewrite consoleintr_fill by done. eexists. split; [done|].
    split; [by apply cons_inv_commit|]. simpl.
    split; [done|]. split; [uint_arith|by eapply Hkeep].
  - rewrite consoleintr_plain by (done || lia). eexists. split; [done|].
    split; [apply cons_inv_store; (done || lia)|]. simpl.
    split; [done|]. split; [lia|by eapply Hkeep].
Qed.

(** ** Typing *)

Lemma con_buf_get_cong s i j :
  to_uint (i - j) = 0 -> con_buf_get s i = con_buf_get s j.
Proof. intros H. unfold con_buf_get, INPUT_BUF_SIZE. by rewrite (mod128_eq _ _ H). Qed.

Lemma consoleintrs_app a b s :
  consoleintrs (a ++ b) s =
  match consoleintrs a s with Some s' => consoleintrs b s' | None => None end.
Proof.
  revert s. induction a as [|c a IH]; intros s; simpl; [done|].
  destruct (consoleintr c s); [apply IH|done].
Qed.

Lemma consoleintrs_plain cs : forall s,
  length (c_buf s) = 128%nat -> 0 <= c_e s < 4294967296 ->
  Forall plain_char cs ->
  to_uint (c_e s - c_r s) + Z.of_nat (length cs) < 128 ->
  exists s', consoleintrs cs s = Some s' /\
    c_r s' = c_r s /\ c_w s' = c_w s /\
    c_e s' = to_uint (c_e s + Z.of_nat (length cs)) /\
    c_out s' = c_out s ++ (CoPutcSync <$> cs) /\
    c_killed s' = c_killed s /\
    length (c_buf s') = 128%nat /\
    con_span s' (c_e s) (length cs) = cs /\
    (forall i, 0 <= i < to_uint (c_e s - c_r s) ->
       con_buf_get s' (c_r s + i) = con_buf_get s (c_r s + i)).
Proof.
  induction cs as [|c cs IH]; intros s Hlen He Hcs Hroom.
  - exists s. simpl. rewrite app_nil_r, Z.add_0_r, to_uint_id by done.
    repeat split; done.
  - apply Forall_cons in Hcs as (Hc & Hcs). simpl length in Hroom.
    simpl. rewrite consoleintr_plain by (done || lia).
    set (s1 := con_set_e _ _).
    destruct (IH s1) as (s' & Hrun & Hr & Hw & He' & Hout & Hk & Hlen' & Hspan & Hold).
    { simpl. by rewrite length_insert. }
    { simpl. uint_arith. }
    { done. }
    { simpl. uint_arith. }
    simpl in Hr, Hw, He', Hout, Hk, Hspan, Hold.
    exists s'. split; [done|]. split; [done|]. split; [done|].
    split; [rewrite He'; uint_arith|].
    split; [by rewrite Hout, <- app_assoc|].
    split; [done|]. split; [done|].
    assert (to_uint (c_e s - c_r s) < 128) as Hlt by lia.
    split.
    + f_equal.
      * rewrite (con_buf_get_cong _ _ (c_r s + to_uint (c_e s - c_r s))) by uint_arith.
        rewrite Hold by uint_arith.
        unfold s1.
        change (con_buf_get (con_buf_put (c_e s) c (con_emit (CoPutcSync c) s))
                  (c_r s + to_uint (c_e s - c_r s)) = c).
        rewrite con_buf_get_put_eq; [|done|uint_arith].
        destruct Hc. apply Z.mod_small. lia.
      * by rewrite <- con_span_wrap.
    + intros i Hi. rewrite Hold by uint_arith.
      by apply store_keeps_buffered.
Qed.

Lemma consoleintrs_erase bs : forall s,
  Forall (fun b => b = 8 \/ b = 127) bs ->
  0 <= c_e s < 4294967296 -> 0 <= c_w s < 4294967296 ->
  Z.of_nat (length bs) <= to_uint (c_e s - c_w s) ->
  consoleintrs bs s =
    Some (Con (c_buf s) (c_r s) (c_w s) (to_uint (c_e s - Z.of_nat (length bs)))
              (c_out s ++ concat (replicate (length bs) erase_echo)) (c_killed s)).
Proof.
  induction bs as [|b bs IH]; intros s Hbs He Hw Hlen.
  - simpl. rewrite Z.sub_0_r, to_uint_id, app_nil_r by done. by destruct s.
  - apply Forall_cons in Hbs as (Hb & Hbs). simpl length in *.
    simpl consoleintrs. rewrite consoleintr_erase by done.
    destruct (Z.eqb_spec (c_e s) (c_w s)) as [Heq|Hne].
    { exfalso. rewrite Heq in Hlen. uint_arith. }
    rewrite IH; simpl.
    + f_equal. f_equal; [uint_arith|]. unfold erase_echo.
      by rewrite <- !app_assoc.
    + done.
    + uint_arith.
    + done.
    + uint_arith.
Qed.

Lemma consoleintrs_full cs : forall s,
  Forall (fun c => c <> 16 /\ c <> 21 /\ c <> 8 /\ c <> 127) cs ->
  to_uint (c_e s - c_r s) = 128 ->
  consoleintrs cs s = Some s.
Proof.
  induction cs as [|c cs IH]; intros s Hcs Hfull; [done|].
  apply Forall_cons in Hcs as ((H16 & H21 & H8 & H127) & Hcs).
  simpl. rewrite consoleintr_full by done. by apply IH.
Qed.

(** X21.  Erasing undoes typing.  After some ordinary characters have been
    typed into a buffer with room for them, as many Backspace or Delete
    keys put the three indices back where they were and leave every
    buffered character as it was; the terminal has seen each character
    and then, for each one, backspace, space, backspace. *)
Theorem backspace_undoes cs bs s :
  cons_inv s -> Forall plain_char cs ->
  Forall (fun b => b = 8 \/ b = 127) bs -> length bs = length cs ->
  to_uint (c_e s - c_r s) + Z.of_nat (length cs) < 128 ->
  exists s', consoleintrs (cs ++ bs) s = Some s' /\
    c_r s' = c_r s /\ c_w s' = c_w s /\ c_e s' = c_e s /\
    c_out s' = c_out s ++ (CoPutcSync <$> cs) ++
                 concat (replicate (length cs) erase_echo) /\
    con_span s' (c_r s) (Z.to_nat (to_uint (c_e s - c_r s))) =
    con_span s (c_r s) (Z.to_nat (to_uint (c_e s - c_r s))).
Proof.
  intros (Hlen & Hr & Hw & He & Hsum & Hcap & Hpend) Hcs Hbs Hlb Hroom.
  destruct (consoleintrs_plain cs s) as
    (s1 & Hrun & Hr1 & Hw1 & He1 & Hout1 & Hk1 & Hlen1 & Hspan1 & Hold1); try done.
  rewrite consoleintrs_app, Hrun, consoleintrs_erase; try done.
  - eexists. split; [done|]. simpl. rewrite Hr1, Hw1, He1, Hout1, Hlb.
    split; [done|]. split; [done|]. split; [uint_arith|].
    split; [by rewrite <- app_assoc|].
    apply con_span_ext. intros i Hi.
    rewrite <- Hold1 by lia. by apply con_buf_get_ext.
  - rewrite He1. uint_arith.
  - by rewrite Hw1.
  - rewrite He1, Hw1, Hlb. uint_arith.
Qed.

(** X22.  Control-U erases the line being typed and nothing else: the edit
    index goes back to the write index, the buffer and the two other
    indices stay, and the terminal gets backspace, space, backspace once
    for every character typed since the last commit. *)
Theorem kill_line_erases_pending s :
  cons_inv s ->
  consoleintr 21 s =
    Some (Con (c_buf s) (c_r s) (c_w s) (c_w s)
              (c_out s ++ concat (replicate (Z.to_nat (to_uint (c_e s - c_w s)))
                                     erase_echo))
              (c_killed s)).
Proof.
  intros (Hlen & Hr & Hw & He & Hsum & Hcap & Hpend).
  unfold consoleintr. simpl.
  apply (kill_line_spec (Z.to_nat (to_uint (c_e s - c_w s)))); try done.
  - uint_arith.
  - intros i Hi. apply Hpend. lia.
Qed.

(** X23.  The buffer holds 128 characters and no more.  The ordinary
    character that fills it commits the line without a newline and wakes
    the reader; whatever is typed after that, control keys apart, is
    dropped without an echo. *)
Theorem full_buffer_drops cs c more s :
  cons_inv s -> Forall plain_char cs -> plain_char c ->
  to_uint (c_e s - c_r s) + Z.of_nat (length cs) = 127 ->
  Forall (fun c => c <> 16 /\ c <> 21 /\ c <> 8 /\ c <> 127) more ->
  exists s', consoleintrs (cs ++ c :: more) s = Some s' /\
    c_r s' = c_r s /\
    c_w s' = to_uint (c_r s + 128) /\ c_e s' = to_uint (c_r s + 128) /\
    c_out s' = c_out s ++ (CoPutcSync <$> cs) ++ [CoPutcSync c; CoWakeup] /\
    con_span s' (c_e s) (length cs + 1) = cs ++ [c] /\
    con_span s' (c_r s) (Z.to_nat (to_uint (c_e s - c_r s))) =
    con_span s (c_r s) (Z.to_nat (to_uint (c_e s - c_r s))).
Proof.
  intros (Hlen & Hr & Hw & He & Hsum & Hcap & Hpend) Hcs Hc Hroom Hmore.
  destruct (consoleintrs_plain cs s) as
    (s1 & Hrun & Hr1 & Hw1 & He1 & Hout1 & Hk1 & Hlen1 & Hspan1 & Hold1);
    try done; [lia|].
  assert (to_uint (c_e s1 - c_r s1) = 127) as H127.
  { rewrite He1, Hr1. uint_arith. }
  rewrite consoleintrs_app, Hrun. simpl consoleintrs.
  rewrite consoleintr_fill; try done.
  2: { rewrite He1. uint_arith. }
  2: { by rewrite Hr1. }
  rewrite consoleintrs_full; [|done|simpl; rewrite He1, Hr1; uint_arith].
  eexists. split; [done|].
  split; [by simpl|].
  split; [simpl; rewrite He1; uint_arith|].
  split; [simpl; rewrite He1; uint_arith|].
  split; [simpl; by rewrite Hout1, <- !app_assoc|].
  split.
  - rewrite con_span_app. f_equal.
    + etrans; [|exact Hspan1]. apply con_span_ext. intros i Hi.
      change (con_buf_get (con_buf_put (c_e s1) c (con_emit (CoPutcSync c) s1))
                (c_e s + i) = con_buf_get s1 (c_e s + i)).
      rewrite con_buf_get_put_ne; [|done|rewrite He1; uint_arith].
      by apply con_buf_get_ext.
    + simpl. f_equal.
      change (con_buf_get (con_buf_put (c_e s1) c (con_emit (CoPutcSync c) s1))
                (c_e s + Z.of_nat (length cs)) = c).
      rewrite con_buf_get_put_eq; [|done|rewrite He1; uint_arith].
      destruct Hc. apply Z.mod_small. lia.
  - apply con_span_ext. intros i Hi. rewrite <- Hold1 by lia.
    change (con_buf_get (con_buf_put (c_e s1) c (con_emit (CoPutcSync c) s1))
                (c_r s + i) = con_buf_get s1 (c_r s + i)).
    rewrite con_buf_get_put_ne; [|done|rewrite He1; uint_arith].
    by apply con_buf_get_ext.
Qed.

(** ** Reading *)

Lemma consoleread_ret_count n k :
  int_ok n -> 0 <= k <= n -> consoleread_ret (to_uint n) (n - k) = k.
Proof.
  unfold consoleread_ret, int_wrap, int_ok, to_uint. intros Hn Hk.
  Z.to_euclidean_division_equations. lia.
Qed.

Lemma consoleread_loop_take (ok : Z -> Z -> bool) user_dst target l :
  forall s fuel n dst,
  (length l <= fuel)%nat ->
  0 <= c_r s < 4294967296 -> 0 <= c_w s < 4294967296 ->
  Z.of_nat (length l) <= to_uint (c_w s - c_r s) ->
  con_span s (c_r s) (length l) = l ->
  Forall (fun c => c <> 10 /\ c <> 4) l ->
  (forall j, 0 <= j < Z.of_nat (length l) ->
     ok user_dst ((dst + j) mod 18446744073709551616) = true) ->
  0 <= dst < 18446744073709551616 ->
  Z.of_nat (length l) <= n -> int_ok n ->
  consoleread_loop ok fuel user_dst target n dst s =
  consoleread_loop ok (fuel - length l) user_dst target (n - Z.of_nat (length l))
    ((dst + Z.of_nat (length l)) mod 18446744073709551616)
    (Con (c_buf s) (to_uint (c_r s + Z.of_nat (length l))) (c_w s) (c_e s)
         (c_out s ++ copyouts dst l) (c_killed s)).
Proof.
  induction l as [|c l IH]; intros s fuel n dst Hfuel Hr Hw Hlen Hspan Hl Hok Hdst Hn Hint.
  - simpl. rewrite !Z.add_0_r, Z.sub_0_r, Nat.sub_0_r, app_nil_r.
    rewrite to_uint_id, Z.mod_small by done. by destruct s.
  - simpl length in *. destruct fuel as [|fuel]; [lia|].
    apply Forall_cons in Hl as ((H10 & H4) & Hl).
    simpl in Hspan. injection Hspan as Hc Hspan.
    simpl consoleread_loop.
    destruct (Z.gtb_spec n 0); [|lia].
    destruct (Z.eqb_spec (c_r s) (c_w s)) as [Heq|Hne].
    { exfalso. rewrite Heq in Hlen. uint_arith. }
    rewrite Hc. change (ctrl 68) with 4.
    destruct (Z.eqb_spec c 4); [done|].
    pose proof (Hok 0 ltac:(lia)) as Hok0.
    rewrite Z.add_0_r, Z.mod_small in Hok0 by done. rewrite Hok0. simpl.
    destruct (Z.eqb_spec c 10); [done|].
    rewrite int_wrap_id by (unfold int_ok in *; lia).
    rewrite IH; simpl.
    + f_equal; [lia| |].
      * rewrite Zplus_mod_idemp_l. f_equal. lia.
      * f_equal; [uint_arith|]. by rewrite <- app_assoc.
    + lia.
    + uint_arith.
    + done.
    + uint_arith.
    + rewrite con_span_wrap. etrans; [|exact Hspan].
      apply con_span_ext. intros i Hi. by apply con_buf_get_ext.
    + done.
    + intros j Hj. rewrite Zplus_mod_idemp_l.
      replace (dst + 1 + j) with (dst + (1 + j)) by lia. apply Hok. lia.
    + apply Z.mod_pos_bound. lia.
    + lia.
    + unfold int_ok in *. lia.
Qed.

Lemma copyouts_app a : forall b dst,
  0 <= dst < 18446744073709551616 ->
  copyouts dst (a ++ b) =
  copyouts dst a ++ copyouts ((dst + Z.of_nat (length a)) mod 18446744073709551616) b.
Proof.
  induction a as [|c a IH]; intros b dst Hdst.
  - simpl. by rewrite Z.add_0_r, Z.mod_small.
  - simpl copyouts. rewrite IH by (apply Z.mod_pos_bound; lia).
    simpl. rewrite Zplus_mod_idemp_l. do 4 f_equal. lia.
Qed.

Lemma con_span_split s from a b l :
  con_span s from (a + b) = l ->
  con_span s from a = take a l /\ con_span s (from + Z.of_nat a) b = drop a l.
Proof.
  intros <-. rewrite con_span_app.
  rewrite take_app_length' by (by rewrite con_span_length).
  rewrite drop_app_length' by (by rewrite con_span_length). done.
Qed.

Lemma plain_not_end cs :
  Forall plain_char cs -> Forall (fun c => c <> 10 /\ c <> 4) cs.
Proof. intros H. eapply Forall_impl; [exact H|]. unfold plain_char. intros c Hc. lia. Qed.

Lemma typed_line cs t s :
  length (c_buf s) = 128%nat -> 0 <= c_r s < 4294967296 ->
  c_w s = c_r s -> c_e s = c_r s ->
  Forall plain_char cs -> (length cs <= 127)%nat ->
  t = 10 \/ t = 13 \/ t = 4 ->
  exists s1, consoleintrs (cs ++ [t]) s = Some s1 /\
    c_r s1 = c_r s /\ c_w s1 = to_uint (c_r s + Z.of_nat (length cs) + 1) /\
    c_e s1 = c_w s1 /\
    c_out s1 = c_out s ++ (CoPutcSync <$> cs) ++
                 [CoPutcSync (if t =? 13 then 10 else t); CoWakeup] /\
    c_killed s1 = c_killed s /\
    con_span s1 (c_r s) (length cs + 1) = cs ++ [if t =? 13 then 10 else t].
Proof.
  intros Hlen Hr Hw He Hcs Hk Ht.
  destruct (consoleintrs_plain cs s) as
    (s1 & Hrun & Hr1 & Hw1 & He1 & Hout1 & Hk1 & Hlen1 & Hspan1 & Hold1);
    try done; [lia| |].
  { rewrite He. uint_arith. }
  rewrite He in He1, Hspan1.
  rewrite consoleintrs_app, Hrun. simpl consoleintrs.
  rewrite consoleintr_commit; [|done|rewrite He1, Hr1; uint_arith].
  eexists. split; [done|].
  split; [by simpl|].
  split; [simpl; rewrite He1; uint_arith|].
  split; [done|].
  split; [simpl; by rewrite Hout1, <- !app_assoc|].
  split; [by simpl|].
  rewrite con_span_app. f_equal.
  - etrans; [|exact Hspan1]. apply con_span_ext. intros i Hi.
    set (t' := if t =? 13 then 10 else t).
    change (con_buf_get (con_buf_put (c_e s1) t' (con_emit (CoPutcSync t') s1))
              (c_r s + i) = con_buf_get s1 (c_r s + i)).
    rewrite con_buf_get_put_ne; [|done|rewrite He1; uint_arith].
    by apply con_buf_get_ext.
  - simpl. f_equal.
    set (t' := if t =? 13 then 10 else t).
    change (con_buf_get (con_buf_put (c_e s1) t' (con_emit (CoPutcSync t') s1))
              (c_r s + Z.of_nat (length cs)) = t').
    rewrite con_buf_get_put_eq; [|done|rewrite He1; uint_arith].
    unfold t'. by destruct Ht as [->|[->| ->]].
Qed.

Lemma consoleread_loop_newline (ok : Z -> Z -> bool) fuel user_dst target n dst s :
  n > 0 -> c_r s <> c_w s -> con_buf_get s (c_r s) = 10 ->
  ok user_dst dst = true ->
  consoleread_loop ok (S fuel) user_dst target n dst s =
    Some (RDone (consoleread_ret target (int_wrap (n - 1))),
          con_emit (CoCopyout dst 10) (con_set_r (to_uint (c_r s + 1)) s)).
Proof.
  intros Hn Hne Hc Hok. simpl.
  destruct (Z.gtb_spec n 0); [|lia].
  destruct (Z.eqb_spec (c_r s) (c_w s)); [done|].
  rewrite Hc, Hok. done.
Qed.

Lemma consoleread_loop_eof (ok : Z -> Z -> bool) fuel user_dst target n dst s :
  n > 0 -> c_r s <> c_w s -> con_buf_get s (c_r s) = 4 ->
  consoleread_loop ok (S fuel) user_dst target n dst s =
    Some (RDone (consoleread_ret target n),
          if to_uint n <? target
          then con_set_r (to_uint (to_uint (c_r s + 1) - 1)) s
          else con_set_r (to_uint (c_r s + 1)) s).
Proof.
  intros Hn Hne Hc. simpl.
  destruct (Z.gtb_spec n 0); [|lia].
  destruct (Z.eqb_spec (c_r s) (c_w s)); [done|].
  rewrite Hc. change (4 =? ctrl 68) with true. simpl.
  by destruct (to_uint n <? target).
Qed.

Lemma consoleread_loop_done (ok : Z -> Z -> bool) fuel user_dst target n dst s :
  n <= 0 ->
  consoleread_loop ok fuel user_dst target n dst s =
    Some (RDone (consoleread_ret target n), s).
Proof.
  intros Hn. destruct fuel; simpl; by destruct (Z.gtb_spec n 0); [lia|].
Qed.

Lemma consoleread_loop_empty (ok : Z -> Z -> bool) fuel user_dst target n dst s :
  n > 0 -> c_r s = c_w s ->
  consoleread_loop ok fuel user_dst target n dst s =
    if c_killed s then Some (RDone (-1), s)
    else Some (RSleep n dst, con_emit CoSleep s).
Proof.
  intros Hn Heq. destruct fuel; simpl; destruct (Z.gtb_spec n 0); try lia;
    by apply Z.eqb_eq in Heq as ->.
Qed.

Lemma consoleread_loop_fail (ok : Z -> Z -> bool) fuel user_dst target n dst s :
  n > 0 -> c_r s <> c_w s -> con_buf_get s (c_r s) <> 4 ->
  ok user_dst dst = false ->
  consoleread_loop ok (S fuel) user_dst target n dst s =
    Some (RDone (consoleread_ret target n), con_set_r (to_uint (c_r s + 1)) s).
Proof.
  intros Hn Hne Hc Hok. simpl.
  destruct (Z.gtb_spec n 0); [|lia].
  destruct (Z.eqb_spec (c_r s) (c_w s)); [done|].
  change (ctrl 68) with 4.
  destruct (Z.eqb_spec (con_buf_get s (c_r s)) 4); [done|].
  by rewrite Hok.
Qed.

Lemma con_span_last s from k l c :
  con_span s from (k + 1) = l ++ [c] -> length l = k ->
  con_span s from k = l /\ con_buf_get s (from + Z.of_nat k) = c.
Proof.
  intros H Hl. apply con_span_split in H as (H1 & H2). subst k.
  rewrite take_app_length in H1. rewrite drop_app_length in H2.
  split; [done|]. simpl in H2. by injection H2.
Qed.

Lemma consoleread_loop_line (ok : Z -> Z -> bool) user_dst target l s fuel n dst :
  (length l < fuel)%nat ->
  0 <= c_r s < 4294967296 -> 0 <= c_w s < 4294967296 ->
  Z.of_nat (length l) < to_uint (c_w s - c_r s) ->
  con_span s (c_r s) (length l + 1) = l ++ [10] ->
  Forall (fun c => c <> 10 /\ c <> 4) l ->
  (forall j, 0 <= j <= Z.of_nat (length l) ->
     ok user_dst ((dst + j) mod 18446744073709551616) = true) ->
  0 <= dst < 18446744073709551616 ->
  Z.of_nat (length l) < n -> int_ok n ->
  consoleread_loop ok fuel user_dst target n dst s =
    Some (RDone (consoleread_ret target (n - (Z.of_nat (length l) + 1))),
          Con (c_buf s) (to_uint (c_r s + Z.of_nat (length l) + 1)) (c_w s) (c_e s)
              (c_out s ++ copyouts dst (l ++ [10])) (c_killed s)).
Proof.
  intros Hfuel Hr Hw Hlen Hspan Hl Hok Hdst Hn Hint.
  apply con_span_last in Hspan as (Hspan & Hnl); [|done].
  rewrite (consoleread_loop_take ok user_dst target l); try done; try lia.
  2: { intros j Hj. apply Hok. lia. }
  destruct (fuel - length l)%nat as [|f] eqn:Hf; [lia|].
  rewrite consoleread_loop_newline; simpl.
  - rewrite int_wrap_id by (unfold int_ok in *; lia).
    rewrite copyouts_app, app_assoc by done. unfold con_emit, con_set_r. simpl.
    do 3 f_equal; [f_equal; lia|uint_arith].
  - lia.
  - uint_arith.
  - rewrite con_buf_get_wrap. etrans; [|exact Hnl]. by apply con_buf_get_ext.
  - apply Hok. lia.
Qed.

Lemma consoleread_loop_exact (ok : Z -> Z -> bool) user_dst target l s fuel n dst :
  n = Z.of_nat (length l) ->
  (length l <= fuel)%nat ->
  0 <= c_r s < 4294967296 -> 0 <= c_w s < 4294967296 ->
  Z.of_nat (length l) <= to_uint (c_w s - c_r s) ->
  con_span s (c_r s) (length l) = l ->
  Forall (fun c => c <> 10 /\ c <> 4) l ->
  (forall j, 0 <= j < Z.of_nat (length l) ->
     ok user_dst ((dst + j) mod 18446744073709551616) = true) ->
  0 <= dst < 18446744073709551616 ->
  int_ok n ->
  consoleread_loop ok fuel user_dst target n dst s =
    Some (RDone (consoleread_ret target 0),
          Con (c_buf s) (to_uint (c_r s + Z.of_nat (length l))) (c_w s) (c_e s)
              (c_out s ++ copyouts dst l) (c_killed s)).
Proof.
  intros -> Hfuel Hr Hw Hlen Hspan Hl Hok Hdst Hint.
  rewrite (consoleread_loop_take ok user_dst target l); try done; try lia.
  rewrite consoleread_loop_done by lia. by rewrite Z.sub_diag.
Qed.

Lemma consoleread_loop_upto_eof (ok : Z -> Z -> bool) user_dst l s fuel n dst :
  (length l < fuel)%nat ->
  0 <= c_r s < 4294967296 -> 0 <= c_w s < 4294967296 ->
  Z.of_nat (length l) < to_uint (c_w s - c_r s) ->
  con_span s (c_r s) (length l + 1) = l ++ [4] ->
  Forall (fun c => c <> 10 /\ c <> 4) l ->
  (forall j, 0 <= j < Z.of_nat (length l) ->
     ok user_dst ((dst + j) mod 18446744073709551616) = true) ->
  0 <= dst < 18446744073709551616 ->
  Z.of_nat (length l) < n -> int_ok n ->
  consoleread_loop ok fuel user_dst (to_uint n) n dst s =
    Some (RDone (Z.of_nat (length l)),
          Con (c_buf s)
              (to_uint (c_r s + Z.of_nat (length l) + (if length l is O then 1 else 0)))
              (c_w s) (c_e s) (c_out s ++ copyouts dst l) (c_killed s)).
Proof.
  intros Hfuel Hr Hw Hlen Hspan Hl Hok Hdst Hn Hint.
  apply con_span_last in Hspan as (Hspan & Heof); [|done].
  rewrite (consoleread_loop_take ok user_dst (to_uint n) l); try done; try lia.
  destruct (fuel - length l)%nat as [|f] eqn:Hf; [lia|].
  rewrite consoleread_loop_eof; simpl.
  - rewrite consoleread_ret_count by (done || lia). do 2 f_equal.
    destruct (Z.ltb_spec (to_uint (n - Z.of_nat (length l))) (to_uint n)) as [Hlt|Hge].
    + destruct (length l) eqn:Hl0; [exfalso; uint_arith|].
      unfold con_set_r. simpl. f_equal. uint_arith.
    + destruct (length l) eqn:Hl0.
      * unfold con_set_r. simpl. f_equal. uint_arith.
      * exfalso. unfold int_ok in *. uint_arith.
  - lia.
  - uint_arith.
  - rewrite con_buf_get_wrap. etrans; [|exact Heof]. by apply con_buf_get_ext.
Qed.

(** X24.  A line typed at the terminal reaches the reader that waits for
    it.  On an empty buffer [consoleread] goes to sleep; the characters of
    the line are echoed as they arrive and the newline (or the carriage
    return, stored as a newline) commits the line and wakes the reader up;
    the reader then copies the line, newline included, to [dst] onwards,
    returns its length and leaves the buffer empty. *)
Theorem line_reaches_reader (ok : Z -> Z -> bool) user_dst dst n cs nl s :
  cons_inv s -> c_w s = c_r s -> c_e s = c_r s -> c_killed s = false ->
  Forall plain_char cs -> (length cs <= 127)%nat -> nl = 10 \/ nl = 13 ->
  int_ok n -> Z.of_nat (length cs) < n -> 0 <= dst < 18446744073709551616 ->
  (forall j, 0 <= j <= Z.of_nat (length cs) ->
     ok user_dst ((dst + j) mod 18446744073709551616) = true) ->
  exists s1 s2,
    consoleread ok user_dst dst n s = Some (RSleep n dst, con_emit CoSleep s) /\
    consoleintrs (cs ++ [nl]) (con_emit CoSleep s) = Some s1 /\
    consoleread_loop ok (Z.to_nat n) user_dst (to_uint n) n dst s1 =
      Some (RDone (Z.of_nat (length cs) + 1), s2) /\
    c_out s2 = c_out s ++ [CoSleep] ++ (CoPutcSync <$> cs) ++
                 [CoPutcSync 10; CoWakeup] ++ copyouts dst (cs ++ [10]) /\
    c_r s2 = c_w s2 /\ c_e s2 = c_w s2.
Proof.
  intros (Hlen & Hr & Hw & He & Hsum & Hcap & Hpend) Hwr Her Hkill Hcs Hk Hnl
    Hint Hn Hdst Hok.
  destruct (typed_line cs nl (con_emit CoSleep s)) as
    (s1 & Hrun & Hr1 & Hw1 & He1 & Hout1 & Hk1 & Hspan1); try done.
  { destruct Hnl; auto. }
  simpl in Hr1, Hw1, Hout1, Hk1, Hspan1.
  replace (if nl =? 13 then 10 else nl) with 10 in * by (by destruct Hnl as [-> | ->]).
  eexists s1, _. split.
  { unfold consoleread. rewrite consoleread_loop_empty by (done || lia).
    by rewrite Hkill. }
  split; [done|]. split.
  { rewrite (consoleread_loop_line ok user_dst (to_uint n) cs); try done.
    - by rewrite consoleread_ret_count by (done || lia).
    - lia.
    - by rewrite Hr1.
    - rewrite Hw1. apply Z.mod_pos_bound. lia.
    - rewrite Hw1, Hr1. uint_arith.
    - by rewrite Hr1.
    - by apply plain_not_end. }
  simpl. rewrite Hout1, Hr1, He1, Hw1.
  split; [by rewrite <- !app_assoc|]. split; [f_equal; lia|done].
Qed.

(** X25.  End of file.  When some characters and then Control-D have been
    typed, a read delivers the characters and leaves the Control-D in the
    buffer, so that the next read returns 0; when Control-D is typed on an
    empty line, the read itself returns 0 and takes the Control-D away. *)
Theorem eof_gives_zero_byte_read (ok : Z -> Z -> bool) user_dst dst n cs s :
  cons_inv s -> c_w s = c_r s -> c_e s = c_r s ->
  Forall plain_char cs -> (length cs <= 127)%nat ->
  int_ok n -> Z.of_nat (length cs) < n -> 0 <= dst < 18446744073709551616 ->
  (forall j, 0 <= j < Z.of_nat (length cs) ->
     ok user_dst ((dst + j) mod 18446744073709551616) = true) ->
  exists s1 s2,
    consoleintrs (cs ++ [4]) s = Some s1 /\
    consoleread ok user_dst dst n s1 = Some (RDone (Z.of_nat (length cs)), s2) /\
    c_out s2 = c_out s1 ++ copyouts dst cs /\
    match cs with
    | [] => c_r s2 = c_w s2
    | _ => forall user_dst' dst' n', int_ok n' -> 0 < n' ->
        exists s3, consoleread ok user_dst' dst' n' s2 = Some (RDone 0, s3) /\
          c_r s3 = c_w s3 /\ c_out s3 = c_out s2
    end.
Proof.
  intros (Hlen & Hr & Hw & He & Hsum & Hcap & Hpend) Hwr Her Hcs Hk
    Hint Hn Hdst Hok.
  destruct (typed_line cs 4 s) as
    (s1 & Hrun & Hr1 & Hw1 & He1 & Hout1 & Hk1 & Hspan1); try done; auto.
  simpl in Hspan1.
  assert (0 <= c_w s1 < 4294967296) as Hw1r.
  { rewrite Hw1. apply Z.mod_pos_bound. lia. }
  eexists s1, _. split; [done|]. split.
  { unfold consoleread.
    rewrite (consoleread_loop_upto_eof ok user_dst cs); try done.
    - lia.
    - by rewrite Hr1.
    - rewrite Hw1, Hr1. uint_arith.
    - by rewrite Hr1.
    - by apply plain_not_end. }
  split; [done|].
  destruct cs as [|c cs].
  { simpl. by rewrite Hw1, Hr1. }
  intros user_dst' dst' n' Hint' Hn'.
  set (l := c :: cs) in *.
  unfold consoleread. destruct (Z.to_nat n') as [|f] eqn:Hf; [lia|].
  apply con_span_last in Hspan1 as (_ & Heof); [|done].
  rewrite consoleread_loop_eof.
  - destruct (Z.ltb_spec (to_uint n') (to_uint n')); [lia|].
    eexists. split.
    + do 3 f_equal.
      replace n' with (n' - 0) at 2 by lia.
      apply consoleread_ret_count; [done|lia].
    + simpl. rewrite Hw1, Hr1. split; [|done]. unfold l. simpl length. uint_arith.
  - lia.
  - simpl. rewrite Hw1, Hr1. unfold l. simpl length. uint_arith.
  - simpl. rewrite Hr1. rewrite con_buf_get_wrap.
    etrans; [|exact Heof]. unfold l. simpl length.
    rewrite Z.add_0_r. by apply con_buf_get_ext.
Qed.

(** X26.  A line longer than the caller's buffer is delivered in pieces.
    A read for [n] bytes of a committed line of more than [n] characters
    returns the first [n] and leaves the rest; the next read returns the
    rest up to and including the newline, and empties the buffer. *)
Theorem long_line_in_pieces (ok : Z -> Z -> bool) user_dst dst n dst' n' cs s :
  cons_inv s -> c_w s = c_r s -> c_e s = c_r s ->
  Forall plain_char cs -> (length cs <= 127)%nat ->
  0 < n <= Z.of_nat (length cs) ->
  int_ok n' -> Z.of_nat (length cs) - n < n' ->
  0 <= dst < 18446744073709551616 -> 0 <= dst' < 18446744073709551616 ->
  (forall a, ok user_dst a = true) ->
  exists s1 s2 s3,
    consoleintrs (cs ++ [10]) s = Some s1 /\
    consoleread ok user_dst dst n s1 = Some (RDone n, s2) /\
    c_out s2 = c_out s1 ++ copyouts dst (take (Z.to_nat n) cs) /\
    consoleread ok user_dst dst' n' s2 =
      Some (RDone (Z.of_nat (length cs) - n + 1), s3) /\
    c_out s3 = c_out s2 ++ copyouts dst' (drop (Z.to_nat n) cs ++ [10]) /\
    c_r s3 = c_w s3.
Proof.
  intros (Hlen & Hr & Hw & He & Hsum & Hcap & Hpend) Hwr Her Hcs Hk
    Hn Hint' Hn' Hdst Hdst' Hok.
  destruct (typed_line cs 10 s) as
    (s1 & Hrun & Hr1 & Hw1 & He1 & Hout1 & Hk1 & Hspan1); try done; auto.
  simpl in Hspan1.
  assert (0 <= c_w s1 < 4294967296) as Hw1r.
  { rewrite Hw1. apply Z.mod_pos_bound. lia. }
  set (k := Z.to_nat n).
  assert (Hk' : (k <= length cs)%nat) by lia.
  replace (length cs + 1)%nat with (k + (length cs - k + 1))%nat in Hspan1 by lia.
  apply con_span_split in Hspan1 as (Hhead & Htail).
  rewrite take_app_le in Hhead by done.
  rewrite drop_app_le in Htail by done.
  assert (Hlk : length (take k cs) = k) by (rewrite length_take; lia).
  assert (Hld : length (drop k cs) = (length cs - k)%nat) by apply length_drop.
  assert (Hends := plain_not_end _ Hcs).
  eexists s1, _, _. split; [done|]. split.
  { unfold consoleread. fold k.
    rewrite (consoleread_loop_exact ok user_dst _ (take k cs)); try done.
    - do 3 f_equal. replace 0 with (n - n) by lia.
      apply consoleread_ret_count; unfold int_ok; lia.
    - lia.
    - lia.
    - by rewrite Hr1.
    - rewrite Hw1, Hr1, Hlk. uint_arith.
    - by rewrite Hr1, Hlk.
    - by apply Forall_take.
    - unfold int_ok. lia. }
  split; [done|]. split.
  { unfold consoleread.
    rewrite (consoleread_loop_line ok user_dst _ (drop k cs)); simpl; try done.
    - do 3 f_equal.
      replace (n' - (Z.of_nat (length (drop k cs)) + 1))
        with (n' - (Z.of_nat (length cs) - n + 1)) by lia.
      apply consoleread_ret_count; [done|lia].
    - lia.
    - apply Z.mod_pos_bound. lia.
    - rewrite Hw1, Hr1, Hlk, Hld. uint_arith.
    - rewrite con_span_wrap, Hr1, Hlk, Hld. etrans; [|exact Htail].
      apply con_span_ext. intros i Hi. by apply con_buf_get_ext.
    - by apply Forall_drop.
    - lia. }
  simpl. split; [done|]. rewrite Hw1, Hr1, Hlk, Hld. uint_arith.
Qed.

(** X27.  A byte whose copy to the caller fails is lost.  [consoleread]
    takes the byte out of the buffer before it copies it; when
    [either_copyout] then fails, the read returns the number of bytes
    delivered before, and the read index is already past the byte. *)
Theorem failed_copyout_loses_byte (ok : Z -> Z -> bool) user_dst dst n l c s :
  0 <= c_r s < 4294967296 -> 0 <= c_w s < 4294967296 ->
  Z.of_nat (length l) < to_uint (c_w s - c_r s) ->
  con_span s (c_r s) (length l + 1) = l ++ [c] ->
  Forall (fun c => c <> 10 /\ c <> 4) l -> c <> 4 ->
  (forall j, 0 <= j < Z.of_nat (length l) ->
     ok user_dst ((dst + j) mod 18446744073709551616) = true) ->
  ok user_dst ((dst + Z.of_nat (length l)) mod 18446744073709551616) = false ->
  0 <= dst < 18446744073709551616 ->
  int_ok n -> Z.of_nat (length l) < n ->
  consoleread ok user_dst dst n s =
    Some (RDone (Z.of_nat (length l)),
          Con (c_buf s) (to_uint (c_r s + Z.of_nat (length l) + 1)) (c_w s) (c_e s)
              (c_out s ++ copyouts dst l) (c_killed s)).
Proof.
  intros Hr Hw Hlen Hspan Hl Hc Hok Hbad Hdst Hint Hn.
  apply con_span_last in Hspan as (Hspan & Hlast); [|done].
  unfold consoleread.
  rewrite (consoleread_loop_take ok user_dst (to_uint n) l); try done; try lia.
  destruct (Z.to_nat n - length l)%nat as [|f] eqn:Hf; [lia|].
  rewrite consoleread_loop_fail; simpl.
  - rewrite consoleread_ret_count by (done || lia).
    unfold con_set_r. simpl. do 3 f_equal. uint_arith.
  - lia.
  - uint_arith.
  - rewrite con_buf_get_wrap.
    rewrite (con_buf_get_ext _ s) by done. by rewrite Hlast.
  - done.
Qed.

(** X28.  A reader that uses up the committed input before a newline goes
    back to sleep with the bytes it has copied so far, and when its
    process has been killed it returns -1 although those bytes were
    copied; with nothing committed this is the behaviour on an empty
    buffer. *)
Theorem read_runs_dry (ok : Z -> Z -> bool) user_dst dst n l s :
  0 <= c_r s < 4294967296 -> 0 <= c_w s < 4294967296 ->
  to_uint (c_w s - c_r s) = Z.of_nat (length l) ->
  con_span s (c_r s) (length l) = l ->
  Forall (fun c => c <> 10 /\ c <> 4) l ->
  (forall j, 0 <= j < Z.of_nat (length l) ->
     ok user_dst ((dst + j) mod 18446744073709551616) = true) ->
  0 <= dst < 18446744073709551616 ->
  int_ok n -> Z.of_nat (length l) < n ->
  consoleread ok user_dst dst n s =
    let s' := Con (c_buf s) (c_w s) (c_w s) (c_e s)
                  (c_out s ++ copyouts dst l) (c_killed s) in
    if c_killed s then Some (RDone (-1), s')
    else Some (RSleep (n - Z.of_nat (length l))
                      ((dst + Z.of_nat (length l)) mod 18446744073709551616),
               con_emit CoSleep s').
Proof.
  intros Hr Hw Hlen Hspan Hl Hok Hdst Hint Hn.
  unfold consoleread.
  rewrite (consoleread_loop_take ok user_dst (to_uint n) l); try done; try lia.
  rewrite consoleread_loop_empty; simpl; [|lia|uint_arith].
  replace (to_uint (c_r s + Z.of_nat (length l))) with (c_w s) by uint_arith.
  done.
Qed.

(** ** [consolewrite] *)

Lemma consolewrite_loop_spec (cin : Z -> Z -> option Z) user_src src l :
  forall iters i s,
  0 <= i -> i + Z.of_nat (length l) < 2147483648 ->
  0 <= src < 18446744073709551616 ->
  (forall j, (j < length l)%nat ->
     cin user_src ((src + (i + Z.of_nat j)) mod 18446744073709551616) = l !! j) ->
  (length l = iters \/
   (length l < iters)%nat /\
   cin user_src ((src + (i + Z.of_nat (length l))) mod 18446744073709551616) = None) ->
  consolewrite_loop cin iters user_src src i s =
    (i + Z.of_nat (length l),
     Con (c_buf s) (c_r s) (c_w s) (c_e s) (c_out s ++ (CoPutc <$> l)) (c_killed s)).
Proof.
  induction l as [|c l IH]; intros iters i s Hi Hmax Hsrc Hl Hend.
  - simpl. rewrite Z.add_0_r, app_nil_r in *.
    destruct Hend as [<-|(Hlt & Hnone)]; simpl.
    + by destruct s.
    + destruct iters; [simpl in Hlt; lia|]. simpl. rewrite Hnone. by destruct s.
  - simpl length in *. destruct iters as [|iters]; [lia|].
    simpl. pose proof (Hl 0%nat ltac:(lia)) as H0.
    rewrite Z.add_0_r in H0. simpl in H0. rewrite H0.
    rewrite int_wrap_id by (unfold int_ok; lia).
    rewrite IH; simpl.
    + f_equal; [lia|]. by rewrite <- app_assoc.
    + lia.
    + lia.
    + done.
    + intros j Hj. specialize (Hl (S j) ltac:(lia)). simpl in Hl.
      rewrite <- Hl. do 2 f_equal. lia.
    + destruct Hend as [Heq|(Hlt & Hnone)]; [left; lia|right].
      split; [lia|]. rewrite <- Hnone. do 2 f_equal. lia.
Qed.

(** X29.  [consolewrite] sends the caller's bytes to the UART in order and
    stops at the first address it cannot read: it returns the number of
    bytes sent, which is [n] when every address is readable, and it sends
    nothing and returns 0 when [n] is zero or negative. *)
Theorem consolewrite_stops_at_bad_address (cin : Z -> Z -> option Z)
    user_src src n l s :
  int_ok n -> 0 <= src < 18446744073709551616 ->
  (forall j, (j < length l)%nat ->
     cin user_src ((src + Z.of_nat j) mod 18446744073709551616) = l !! j) ->
  (length l = Z.to_nat n \/
   Z.of_nat (length l) < n /\
   cin user_src ((src + Z.of_nat (length l)) mod 18446744073709551616) = None) ->
  consolewrite cin user_src src n s =
    (Z.of_nat (length l),
     Con (c_buf s) (c_r s) (c_w s) (c_e s) (c_out s ++ (CoPutc <$> l)) (c_killed s)).
Proof.
  intros Hint Hsrc Hl Hend. unfold consolewrite.
  rewrite (consolewrite_loop_spec cin user_src src l); try done.
  - unfold int_ok in Hint. lia.
  - destruct Hend as [Heq|(Hlt & Hnone)]; [by left|right]. split; [lia|done].
Qed.

(** ** Device numbers *)

Lemma lor_shiftl16 m n :
  0 <= m -> 0 <= n < 65536 -> Z.lor (Z.shiftl m 16) n = m * 65536 + n.
Proof.
  intros Hm Hn.
  assert (Hdisj : Z.land (Z.shiftl m 16) n = 0).
  { apply Z.bits_inj'. intros i Hi. rewrite Z.land_spec, Z.bits_0.
    destruct (Z.lt_ge_cases i 16) as [Hlt|Hge].
    - by rewrite Z.shiftl_spec_low.
    - replace n with (n mod 2 ^ 16) by (apply Z.mod_small; lia).
      rewrite Z.mod_pow2_bits_high by lia. apply andb_false_r. }
  rewrite <- Z.lxor_lor by done. rewrite <- Z.add_nocarry_lxor by done.
  rewrite Z.shiftl_mul_pow2 by lia. done.
Qed.

Lemma land_65535 z : Z.land z 65535 = z mod 65536.
Proof. change 65535 with (Z.ones 16). rewrite Z.land_ones by lia. done. Qed.

(** X30.  Device numbers are a round trip: [mkdev] packs a major number
    below 2^15 and a minor number below 2^16 into a [uint] from which
    [major] and [minor] give them back, and a device number below 2^31 is
    rebuilt by [mkdev] from its two parts. *)
Theorem device_number_round_trip :
  (forall m n, 0 <= m < 32768 -> 0 <= n < 65536 ->
     major (mkdev m n) = m /\ minor (mkdev m n) = n) /\
  (forall dev, 0 <= dev < 2147483648 -> mkdev (major dev) (minor dev) = dev).
Proof.
  split.
  - intros m n Hm Hn. unfold major, minor, mkdev.
    rewrite Z.shiftl_mul_pow2 by lia.
    rewrite int_wrap_id by (unfold int_ok; lia).
    rewrite <- Z.shiftl_mul_pow2 by lia.
    rewrite lor_shiftl16 by lia. rewrite to_uint_id by lia.
    rewrite !land_65535, Z.shiftr_div_pow2 by lia.
    change (2 ^ 16) with 65536. split.
    + Z.to_euclidean_division_equations. lia.
    + Z.to_euclidean_division_equations. lia.
  - intros dev Hdev. unfold major, minor, mkdev.
    rewrite !land_65535, Z.shiftr_div_pow2 by lia. change (2 ^ 16) with 65536.
    assert (0 <= dev / 65536 < 32768) by (Z.to_euclidean_division_equations; lia).
    rewrite (Z.mod_small (dev / 65536)) by lia.
    rewrite Z.shiftl_mul_pow2 by lia.
    rewrite int_wrap_id by (unfold int_ok; lia).
    rewrite <- Z.shiftl_mul_pow2 by lia.
    rewrite lor_shiftl16 by (Z.to_euclidean_division_equations; lia).
    rewrite to_uint_id by (Z.to_euclidean_division_equations; lia).
    Z.to_euclidean_division_equations. lia.
Qed.

(** ** The further properties at work on the small machine *)

Lemma header_round_trip_witness :
  0 <= log_start (k_log ex_s1) < 4294967296 /\
  exists s1, write_head ex_s1 = Ok (tt, s1) /\
    exists r', read_head (mounted 3 1 20 4 (k_disk s1)) = Ok (tt, r') /\
      lh_n (log_lh (k_log r')) = 2 /\ logged (k_log r') = [5; 9].
Proof.
  split; [vm_compute; split; [discriminate|reflexivity]|].
  destruct (header_round_trip ex_s1
              ltac:(vm_compute; split; [discriminate|reflexivity])
              ltac:(vm_compute; lia) ltac:(vm_compute; lia))
    as (s1 & Hw & Hr).
  exists s1. split; [exact Hw|].
  destruct (Hr (mounted 3 1 20 4 (k_disk s1)) eq_refl
              (bview_mounted 3 1 20 4 (k_disk s1) 20) ltac:(vm_compute; lia))
    as (r' & Hread & Hn & Hlg).
  exists r'. split; [exact Hread|]. split; [exact Hn|exact Hlg].
Defined.

Lemma read_head_count_unchecked_witness :
  bview (mounted 3 1 20 4 ex_bad_count) 20 !! O = Some 7 /\
  Z.of_nat (length (lh_block (log_lh (k_log (mounted 3 1 20 4 ex_bad_count))))) < 7 /\
  read_head (mounted 3 1 20 4 ex_bad_count) = Fault.
Proof.
  split; [reflexivity|]. split; [reflexivity|].
  exact (read_head_count_unchecked (mounted 3 1 20 4 ex_bad_count) 7
           ltac:(vm_compute; split; [discriminate|reflexivity]) eq_refl eq_refl).
Defined.

Lemma recover_nonpositive_count_witness :
  bview (mounted 3 1 20 4 ex_neg_count) 20 !! O = Some (-1) /\
  exists s', recover_from_log (mounted 3 1 20 4 ex_neg_count) = Ok (tt, s') /\
    k_trace s' = [EvBwrite 20 [0; 5; 9; 0; 0; 0; 0; 0]] /\
    lh_n (log_lh (k_log s')) = 0.
Proof.
  split; [reflexivity|].
  destruct (recover_nonpositive_count (mounted 3 1 20 4 ex_neg_count) (-1)
              ltac:(vm_compute; split; [discriminate|reflexivity]) eq_refl
              ltac:(discriminate))
    as (s' & Hrec & Ht & _ & _ & _ & Hn & _).
  exists s'. split; [exact Hrec|]. split; [exact Ht|exact Hn].
Defined.

Lemma log_write_defers_io_witness :
  log_write 3 5 ex_k1 = Ok (tt, ex_k2) /\
  k_disk ex_k2 = k_disk ex_k1 /\ k_bcache ex_k2 = k_bcache ex_k1 /\
  (k_trace ex_k2 = k_trace ex_k1 \/ k_trace ex_k2 = k_trace ex_k1 ++ [EvBpin 5]).
Proof.
  split; [reflexivity|].
  exact (log_write_defers_io 3 5 ex_k1 ex_k2 eq_refl).
Defined.

Lemma commit_twice_witness :
  commit_ready ex_s1 /\
  exists s', commit ex_s1 = Ok (tt, s') /\
    lh_n (log_lh (k_log s')) = 0 /\ commit s' = Ok (tt, s').
Proof.
  assert (Hready : commit_ready ex_s1)
    by exact (log_wf_commit_ready 3 ex_s1 ex_s1_wf ex_s1_hdr).
  split; [exact Hready|]. exact (commit_twice ex_s1 Hready).
Defined.

Lemma empty_transaction_witness :
  log_committing (k_log ex_k0) = 0 /\ log_outstanding (k_log ex_k0) = 0 /\
  lh_n (log_lh (k_log ex_k0)) = 0 /\
  exists s1, begin_op_iter 3 1 ex_k0 = Ok (true, s1) /\
             end_op s1 = Ok (tt, emit EvWakeup ex_k0).
Proof.
  split; [reflexivity|]. split; [reflexivity|]. split; [reflexivity|].
  exact (empty_transaction 3 1 ex_k0 eq_refl eq_refl eq_refl
           ltac:(vm_compute; split; [discriminate|reflexivity]) ltac:(discriminate)).
Defined.

Lemma committed_survives_reboot_witness :
  log_wf 3 (k_log ex_s1) /\ 0 < lh_n (log_lh (k_log ex_s1)) /\
  exists s', commit ex_s1 = Ok (tt, s') /\
    exists sf,
      initlog 3 32 1 20 4 (boot_state 3 (k_disk s')) = Ok (tt, sf) /\
      k_disk sf 5 = replicate 8 90 /\ k_disk sf 9 = replicate 8 80 /\
      lh_n (log_lh (k_log sf)) = 0.
Proof.
  assert (Hpos : 0 < lh_n (log_lh (k_log ex_s1))) by (vm_compute; reflexivity).
  split; [exact ex_s1_wf|]. split; [exact Hpos|].
  destruct (committed_survives_reboot 3 32 ex_s1 ex_s1_wf Hpos eq_refl ex_s1_hdr)
    as (s' & Hc & sf & Hinit & _ & Hhome & Hn).
  exists s'. split; [exact Hc|]. exists sf. split; [exact Hinit|].
  pose proof (Hhome 0 ltac:(vm_compute; split; [discriminate|reflexivity])) as H5.
  pose proof (Hhome 1 ltac:(vm_compute; split; [discriminate|reflexivity])) as H9.
  vm_compute in H5. vm_compute in H9.
  split; [exact H5|]. split; [exact H9|exact Hn].
Defined.

Lemma ex_three_open_wf : log_wf 3 (k_log ex_three_open).
Proof.
  unfold log_wf. change (logged (k_log ex_three_open)) with [5].
  change (lh_n (log_lh (k_log ex_three_open))) with 1.
  change (lh_block (log_lh (k_log ex_three_open))) with [5; 0; 0].
  change (log_size (k_log ex_three_open)) with 3.
  change (log_start (k_log ex_three_open)) with 20.
  split; [lia|]. split; [done|]. split; [lia|]. split; [apply NoDup_singleton|].
  split; [right; lia|]. intros b Hb. apply list_elem_of_singleton in Hb. lia.
Qed.

Lemma group_commit_witness :
  log_wf 3 (k_log ex_three_open) /\
  log_outstanding (k_log ex_three_open) = 3 /\
  exists sf, end_ops 3 ex_three_open = Ok (tt, sf) /\
    k_trace sf = k_trace ex_three_open ++
      [EvWakeup; EvWakeup; EvBwrite 21 (replicate 8 5);
       EvBwrite 20 [1; 5; 0; 0; 0; 0; 0; 0];
       EvBwrite 5 (replicate 8 5); EvBunpin 5;
       EvBwrite 20 [0; 5; 0; 0; 0; 0; 0; 0]; EvWakeup] /\
    log_outstanding (k_log sf) = 0 /\ log_committing (k_log sf) = 0.
Proof.
  split; [exact ex_three_open_wf|]. split; [reflexivity|].
  destruct (group_commit 3 2 ex_three_open ex_three_open_wf
              ltac:(vm_compute; lia) ltac:(vm_compute; reflexivity) eq_refl eq_refl
              eq_refl)
    as (sf & Hrun & Ht & _ & _ & Ho & Hc).
  exists sf. split; [exact Hrun|]. split; [|split; [exact Ho|exact Hc]].
  rewrite Ht. vm_compute. reflexivity.
Defined.

Lemma end_op_unmatched_witness :
  log_outstanding (k_log ex_k0) = 0 /\
  exists s1 s2,
    end_op ex_k0 = Ok (tt, s1) /\
    log_outstanding (k_log s1) = -1 /\
    begin_op_iter 3 1 s1 = Ok (true, s2) /\
    log_outstanding (k_log s2) = 0 /\
    log_write 3 5 s2 = Panic "log_write outside of trans".
Proof.
  split; [reflexivity|].
  destruct (end_op_unmatched 3 1 5 ex_k0 eq_refl eq_refl
              ltac:(vm_compute; split; [discriminate|reflexivity]) eq_refl eq_refl)
    as (s1 & s2 & He & Hs1 & Hb & Ho & Hw).
  exists s1, s2. split; [exact He|]. split; [by rewrite Hs1|].
  split; [exact Hb|]. split; [exact Ho|exact Hw].
Defined.

Lemma initlog_mounts_witness :
  sizeof_logheader 3 < 32 /\ ex_crashed 20 !! O = Some 2 /\
  (forall j, 0 <= j < 2 -> hdr_blk (ex_crashed 20) j <> 20 + j + 1) /\
  (exists k, initlog 3 32 1 20 4 (boot_state 3 ex_crashed) = Ok (tt, k) /\
     log_start (k_log k) = 20 /\ log_size (k_log k) = 4 /\
     lh_n (log_lh (k_log k)) = 0 /\ k_disk k 20 !! O = Some 0) /\
  ex_self_home 20 !! O = Some 1 /\ hdr_blk (ex_self_home 20) 0 = 20 + 0 + 1 /\
  initlog 3 32 1 20 4 (boot_state 3 ex_self_home) = Blocked.
Proof.
  assert (Hself : forall j, 0 <= j < 2 -> hdr_blk (ex_crashed 20) j <> 20 + j + 1).
  { intros j Hj. rewrite <- (bview_mounted 3 1 20 4 ex_crashed 20).
    by apply ex_crashed_no_self_home. }
  assert (Hsized : forall b, Z.of_nat (length (ex_self_home b)) * 4 = 32).
  { intros b. unfold ex_self_home. destruct (b =? 20); [done|].
    by rewrite length_replicate. }
  split; [reflexivity|]. split; [reflexivity|]. split; [exact Hself|].
  split.
  - destruct (proj1 (proj2 (initlog_mounts 3 32 1 20 4 ex_crashed 2)) eq_refl
                ltac:(intros b; rewrite <- (bview_mounted 3 1 20 4 ex_crashed b);
                      apply ex_crashed_sized)
                eq_refl ltac:(discriminate) ltac:(discriminate) ltac:(discriminate)
                eq_refl Hself)
      as (k & Hinit & Hst & Hsz & _ & Hn & H0 & _).
    exists k. split; [exact Hinit|]. split; [exact Hst|]. split; [exact Hsz|].
    split; [exact Hn|exact H0].
  - split; [reflexivity|]. split; [reflexivity|].
    exact (proj2 (proj2 (initlog_mounts 3 32 1 20 4 ex_self_home 1)) eq_refl Hsized
             eq_refl ltac:(discriminate) ltac:(discriminate) ltac:(discriminate)
             eq_refl
             (ex_intro _ 0 (conj (conj (Z.le_refl 0) eq_refl) eq_refl))).
Defined.


Lemma ex_crashed_targets b :
  b ∈ hdr_blocks 2 (ex_crashed 20) -> b < 20 \/ 20 + 2 < b.
Proof.
  change (hdr_blocks 2 (ex_crashed 20)) with [5; 9].
  rewrite !elem_of_cons. intros [->|[->|Hb]]; try lia.
  by apply elem_of_nil in Hb.
Qed.

Lemma ex_crashed_distinct : NoDup (hdr_blocks 2 (ex_crashed 20)).
Proof.
  change (hdr_blocks 2 (ex_crashed 20)) with [5; 9].
  apply NoDup_cons. split; [|apply NoDup_singleton].
  intros H. apply list_elem_of_singleton in H. lia.
Qed.

Lemma recovery_restartable_witness :
  ex_crashed 20 !! O = Some 2 /\
  exists sf, recover_from_log (mounted 3 1 20 4 ex_crashed) = Ok (tt, sf) /\
    forall pre post,
      k_trace sf = pre ++ post ->
      (forall e, e ∈ pre -> ~ writes_block 20 e) ->
      exists sf',
        recover_from_log (mounted 3 1 20 4 (crash_disk ex_crashed pre)) = Ok (tt, sf') /\
        forall b, k_disk sf' b = k_disk sf b.
Proof.
  split; [reflexivity|].
  exact (recovery_restartable 3 1 20 4 ex_crashed 2 eq_refl
           ltac:(split; discriminate) ltac:(vm_compute; lia) ltac:(discriminate)
           eq_refl ex_crashed_distinct ex_crashed_targets).
Defined.

(** ** The allocator on five pages *)

Lemma ex_page_12288 : page_ok ex_kend ex_PHYSTOP 12288.
Proof. unfold page_ok, ex_kend, ex_PHYSTOP. split; [reflexivity|lia]. Qed.

Lemma ex_page_16384 : page_ok ex_kend ex_PHYSTOP 16384.
Proof. unfold page_ok, ex_kend, ex_PHYSTOP. split; [reflexivity|lia]. Qed.

Lemma ex_kmem0_inv : kmem_inv ex_kend ex_PHYSTOP ex_kmem0 [].
Proof. split; [reflexivity|]. split; constructor. Qed.

Lemma ex_kmem1_inv : kmem_inv ex_kend ex_PHYSTOP ex_kmem1 [12288].
Proof.
  apply (kfree_inv ex_kend ex_PHYSTOP 12288 ex_kmem0 []).
  - reflexivity.
  - discriminate.
  - exact ex_kmem0_inv.
  - exact ex_page_12288.
  - apply not_elem_of_nil.
Qed.

Lemma kfree_pushes_witness :
  kmem_inv ex_kend ex_PHYSTOP ex_kmem1 [12288] /\
  page_ok ex_kend ex_PHYSTOP 16384 /\
  exists s', kfree ex_kend ex_PHYSTOP 16384 ex_kmem1 = Ok (tt, s') /\
    kmem_inv ex_kend ex_PHYSTOP s' [16384; 12288].
Proof.
  split; [exact ex_kmem1_inv|]. split; [exact ex_page_16384|].
  destruct (kfree_pushes ex_kend ex_PHYSTOP 16384 ex_kmem1 [12288] eq_refl
              ltac:(discriminate) ex_kmem1_inv ex_page_16384
              ltac:(intros H; apply list_elem_of_singleton in H; discriminate))
    as (s' & Hf & Hinv & _).
  exists s'. split; [exact Hf|exact Hinv].
Defined.

Lemma kalloc_pops_witness :
  kmem_inv ex_kend ex_PHYSTOP ex_kmem1 [12288] /\
  kalloc ex_kmem0 = Ok (0, ex_kmem0) /\
  exists s', kalloc ex_kmem1 = Ok (12288, s') /\
    kmem_inv ex_kend ex_PHYSTOP s' [] /\ km_mem s' 12288 = 5.
Proof.
  split; [exact ex_kmem1_inv|].
  split; [exact (kalloc_pops ex_kend ex_PHYSTOP ex_kmem0 [] ex_kmem0_inv)|].
  destruct (kalloc_pops ex_kend ex_PHYSTOP ex_kmem1 [12288] ex_kmem1_inv)
    as (s' & Ha & _ & _ & Hinv & H5 & _).
  exists s'. split; [exact Ha|]. split; [exact Hinv|].
  apply H5. unfold PGSIZE. lia.
Defined.

Lemma kfree_kalloc_round_trip_witness :
  page_ok ex_kend ex_PHYSTOP 16384 /\
  exists s1 s2,
    kfree ex_kend ex_PHYSTOP 16384 ex_kmem1 = Ok (tt, s1) /\
    kalloc s1 = Ok (16384, s2) /\
    km_freelist s2 = 12288.
Proof.
  split; [exact ex_page_16384|].
  destruct (kfree_kalloc_round_trip ex_kend ex_PHYSTOP 16384 ex_kmem1 eq_refl
              ex_page_16384 ltac:(vm_compute; split; [discriminate|reflexivity]))
    as (s1 & s2 & Hf & Ha & Hl & _).
  exists s1, s2. split; [exact Hf|]. split; [exact Ha|exact Hl].
Defined.

Lemma double_free_hands_out_twice_witness :
  page_ok ex_kend ex_PHYSTOP 12288 /\
  exists s1 s2 s3 s4,
    kfree ex_kend ex_PHYSTOP 12288 ex_kmem0 = Ok (tt, s1) /\
    kfree ex_kend ex_PHYSTOP 12288 s1 = Ok (tt, s2) /\
    kalloc s2 = Ok (12288, s3) /\
    kalloc s3 = Ok (12288, s4).
Proof.
  split; [exact ex_page_12288|].
  destruct (double_free_hands_out_twice ex_kend ex_PHYSTOP 12288 ex_kmem0 eq_refl
              ltac:(discriminate) ex_page_12288)
    as (s1 & s2 & s3 & s4 & H1 & H2 & _ & H3 & H4 & _).
  exists s1, s2, s3, s4. split; [exact H1|]. split; [exact H2|].
  split; [exact H3|exact H4].
Defined.

Lemma kalloc_exhausts_witness :
  kmem_inv ex_kend ex_PHYSTOP ex_kmem1 [12288] /\
  exists s', kallocs 3 ex_kmem1 = ([12288; 0; 0], s') /\
             kmem_inv ex_kend ex_PHYSTOP s' [].
Proof.
  split; [exact ex_kmem1_inv|].
  destruct (kalloc_exhausts ex_kend ex_PHYSTOP 3 ex_kmem1 [12288] ex_kmem1_inv)
    as (s' & Hk & Hinv & _).
  exists s'. split; [exact Hk|exact Hinv].
Defined.

Lemma freerange_fills_witness :
  kmem_inv ex_kend ex_PHYSTOP ex_kmem0 [] /\
  ex_PGROUNDUP (8292 mod 18446744073709551616) = 12288 /\
  exists s',
    freerange ex_kend ex_PHYSTOP ex_PGROUNDUP 8292 20000 ex_kmem0 = Some (Ok (tt, s')) /\
    kmem_inv ex_kend ex_PHYSTOP s' [12288].
Proof.
  split; [exact ex_kmem0_inv|]. split; [reflexivity|].
  destruct (freerange_fills ex_kend ex_PHYSTOP ex_PGROUNDUP 8292 20000 1 ex_kmem0 []
              eq_refl eq_refl ltac:(discriminate) eq_refl ltac:(discriminate)
              ltac:(vm_compute; split; [discriminate|reflexivity])
              ex_kmem0_inv
              ltac:(intros q Hq; by apply elem_of_nil in Hq))
    as (s' & Hf & Hinv).
  exists s'. split; [exact Hf|exact Hinv].
Defined.

Lemma kinit_frees_all_witness :
  ex_PGROUNDUP ex_kend = 12288 /\
  exists s',
    kinit ex_kend ex_PHYSTOP ex_PGROUNDUP ex_kmem0 = Some (Ok (tt, s')) /\
    kmem_inv ex_kend ex_PHYSTOP s' [16384; 12288] /\
    exists s'', kalloc s' = Ok (16384, s'').
Proof.
  split; [reflexivity|].
  destruct (kinit_frees_all ex_kend ex_PHYSTOP ex_PGROUNDUP 2 ex_kmem0
              ltac:(vm_compute; split; reflexivity) eq_refl eq_refl
              ltac:(discriminate) eq_refl eq_refl)
    as (s' & Hk & Hinv & _ & Htop).
  exists s'. split; [exact Hk|]. split; [exact Hinv|].
  exact (Htop ltac:(lia)).
Defined.

(** ** The console at work *)

Lemma ex_con0_inv : cons_inv ex_con0.
Proof.
  unfold cons_inv, ex_con0. simpl.
  split; [done|]. split; [lia|]. split; [lia|]. split; [lia|].
  split; [done|]. split; [done|]. intros i Hi. vm_compute in Hi.
  destruct Hi as [H1 H2]. destruct i; try discriminate; by destruct H1.
Qed.

Lemma ex_con_pending_inv : cons_inv ex_con_pending.
Proof.
  unfold cons_inv, ex_con_pending. simpl c_buf. simpl c_r. simpl c_w. simpl c_e.
  split; [done|]. split; [lia|]. split; [lia|]. split; [lia|].
  split; [done|]. split; [done|]. intros i Hi.
  change (to_uint (2 - 0)) with 2 in Hi.
  assert (i = 0 \/ i = 1) as [-> | ->] by lia; vm_compute; split; discriminate.
Qed.

Lemma ex_hi_plain : Forall plain_char ex_hi.
Proof. repeat constructor; unfold plain_char; lia. Qed.

Lemma ex_copyout_900 j :
  0 <= j <= 2 -> ex_copyout_ok 1 ((900 + j) mod 18446744073709551616) = true.
Proof.
  intros Hj. unfold ex_copyout_ok. rewrite Z.mod_small by lia.
  apply Z.ltb_lt. lia.
Qed.

Lemma consoleintr_keeps_input_witness :
  cons_inv ex_con0 /\
  exists s', consoleintr 104 ex_con0 = Some s' /\ cons_inv s' /\
    c_r s' = 4294967295.
Proof.
  split; [exact ex_con0_inv|].
  destruct (consoleintr_keeps_input 104 ex_con0 ltac:(lia) ex_con0_inv)
    as (s' & Hi & Hinv & Hr & _).
  exists s'. split; [exact Hi|]. split; [exact Hinv|exact Hr].
Defined.

Lemma backspace_undoes_witness :
  cons_inv ex_con0 /\ Forall plain_char ex_hi /\
  exists s', consoleintrs (ex_hi ++ [8; 127]) ex_con0 = Some s' /\
    c_e s' = 4294967295 /\
    c_out s' = [CoPutcSync 104; CoPutcSync 105;
                CoPutcSync 8; CoPutcSync 32; CoPutcSync 8;
                CoPutcSync 8; CoPutcSync 32; CoPutcSync 8].
Proof.
  split; [exact ex_con0_inv|]. split; [exact ex_hi_plain|].
  destruct (backspace_undoes ex_hi [8; 127] ex_con0 ex_con0_inv ex_hi_plain
              ltac:(constructor; [by left|constructor; [by right|constructor]])
              eq_refl eq_refl)
    as (s' & Hrun & _ & _ & He & Hout & _).
  exists s'. split; [exact Hrun|]. split; [exact He|exact Hout].
Defined.

Lemma kill_line_erases_pending_witness :
  cons_inv ex_con_pending /\
  consoleintr 21 ex_con_pending =
    Some (Con (c_buf ex_con_pending) 0 0 0
              [CoPutcSync 8; CoPutcSync 32; CoPutcSync 8;
               CoPutcSync 8; CoPutcSync 32; CoPutcSync 8] false).
Proof.
  split; [exact ex_con_pending_inv|].
  exact (kill_line_erases_pending ex_con_pending ex_con_pending_inv).
Defined.

Lemma full_buffer_drops_witness :
  cons_inv ex_con0 /\
  exists s', consoleintrs (replicate 127 104 ++ 105 :: [106; 10]) ex_con0 = Some s' /\
    c_r s' = 4294967295 /\ c_w s' = 127 /\ c_e s' = 127.
Proof.
  split; [exact ex_con0_inv|].
  destruct (full_buffer_drops (replicate 127 104) 105 [106; 10] ex_con0 ex_con0_inv
              ltac:(apply Forall_replicate; unfold plain_char; lia)
              ltac:(unfold plain_char; lia) eq_refl
              ltac:(repeat constructor; discriminate))
    as (s' & Hrun & Hr & Hw & He & _).
  exists s'. split; [exact Hrun|]. split; [exact Hr|]. split; [exact Hw|exact He].
Defined.

Lemma line_reaches_reader_witness :
  cons_inv ex_con0 /\ Forall plain_char ex_hi /\
  exists s1 s2,
    consoleread ex_copyout_ok 1 900 10 ex_con0 =
      Some (RSleep 10 900, con_emit CoSleep ex_con0) /\
    consoleintrs (ex_hi ++ [13]) (con_emit CoSleep ex_con0) = Some s1 /\
    consoleread_loop ex_copyout_ok (Z.to_nat 10) 1 (to_uint 10) 10 900 s1 =
      Some (RDone 3, s2) /\
    c_out s2 = [CoSleep; CoPutcSync 104; CoPutcSync 105; CoPutcSync 10; CoWakeup;
                CoCopyout 900 104; CoCopyout 901 105; CoCopyout 902 10].
Proof.
  split; [exact ex_con0_inv|]. split; [exact ex_hi_plain|].
  destruct (line_reaches_reader ex_copyout_ok 1 900 10 ex_hi 13 ex_con0 ex_con0_inv
              eq_refl eq_refl eq_refl ex_hi_plain ltac:(simpl; lia)
              ltac:(right; reflexivity)
              ltac:(vm_compute; split; [discriminate|reflexivity]) eq_refl
              ltac:(lia) ex_copyout_900)
    as (s1 & s2 & Hsleep & Hrun & Hread & Hout & _).
  exists s1, s2. split; [exact Hsleep|]. split; [exact Hrun|].
  split; [exact Hread|exact Hout].
Defined.

Lemma eof_gives_zero_byte_read_witness :
  cons_inv ex_con0 /\ Forall plain_char ex_hi /\
  exists s1 s2 s3,
    consoleintrs (ex_hi ++ [4]) ex_con0 = Some s1 /\
    consoleread ex_copyout_ok 1 900 10 s1 = Some (RDone 2, s2) /\
    consoleread ex_copyout_ok 1 900 10 s2 = Some (RDone 0, s3) /\
    c_r s3 = c_w s3.
Proof.
  split; [exact ex_con0_inv|]. split; [exact ex_hi_plain|].
  destruct (eof_gives_zero_byte_read ex_copyout_ok 1 900 10 ex_hi ex_con0 ex_con0_inv
              eq_refl eq_refl ex_hi_plain ltac:(simpl; lia)
              ltac:(vm_compute; split; [discriminate|reflexivity]) eq_refl
              ltac:(lia) ltac:(intros j Hj; apply ex_copyout_900; simpl in Hj; lia))
    as (s1 & s2 & Hrun & Hread & _ & Hnext).
  destruct (Hnext 1 900 10 ltac:(vm_compute; split; [discriminate|reflexivity])
              eq_refl) as (s3 & Hread' & Hr & _).
  exists s1, s2, s3. split; [exact Hrun|]. split; [exact Hread|].
  split; [exact Hread'|exact Hr].
Defined.

Lemma long_line_in_pieces_witness :
  cons_inv ex_con0 /\ Forall plain_char ex_hi /\
  exists s1 s2 s3,
    consoleintrs (ex_hi ++ [10]) ex_con0 = Some s1 /\
    consoleread (fun _ _ => true) 1 900 1 s1 = Some (RDone 1, s2) /\
    c_out s2 = c_out s1 ++ [CoCopyout 900 104] /\
    consoleread (fun _ _ => true) 1 900 5 s2 = Some (RDone 2, s3) /\
    c_out s3 = c_out s2 ++ [CoCopyout 900 105; CoCopyout 901 10].
Proof.
  split; [exact ex_con0_inv|]. split; [exact ex_hi_plain|].
  destruct (long_line_in_pieces (fun _ _ => true) 1 900 1 900 5 ex_hi ex_con0
              ex_con0_inv eq_refl eq_refl ex_hi_plain ltac:(simpl; lia)
              ltac:(simpl; lia)
              ltac:(vm_compute; split; [discriminate|reflexivity]) eq_refl
              ltac:(lia) ltac:(lia) ltac:(reflexivity))
    as (s1 & s2 & s3 & Hrun & Hr1 & Ho1 & Hr2 & Ho2 & _).
  exists s1, s2, s3. split; [exact Hrun|]. split; [exact Hr1|].
  split; [exact Ho1|]. split; [exact Hr2|exact Ho2].
Defined.

Lemma failed_copyout_loses_byte_witness :
  con_span ex_con_line 0 2 = [104; 105] /\
  ex_copyout_ok 1 1001 = true /\ ex_copyout_ok 1 1002 = false /\
  consoleread ex_copyout_ok 1 1001 5 ex_con_line =
    Some (RDone 1,
          Con (c_buf ex_con_line) 2 3 3 [CoCopyout 1001 104] false).
Proof.
  split; [reflexivity|]. split; [reflexivity|]. split; [reflexivity|].
  exact (failed_copyout_loses_byte ex_copyout_ok 1 1001 5 [104] 105 ex_con_line
           ltac:(simpl; lia) ltac:(simpl; lia) eq_refl eq_refl
           ltac:(repeat constructor; discriminate) ltac:(discriminate)
           ltac:(intros j Hj; simpl in Hj; by replace j with 0 by lia)
           eq_refl ltac:(lia)
           ltac:(vm_compute; split; [discriminate|reflexivity]) eq_refl).
Defined.

Lemma read_runs_dry_witness :
  con_span ex_con_dry 0 2 = [104; 105] /\ c_killed ex_con_dry = true /\
  consoleread ex_copyout_ok 1 900 5 ex_con_dry =
    Some (RDone (-1),
          Con (c_buf ex_con_dry) 2 2 2 [CoCopyout 900 104; CoCopyout 901 105] true).
Proof.
  split; [reflexivity|]. split; [reflexivity|].
  exact (read_runs_dry ex_copyout_ok 1 900 5 [104; 105] ex_con_dry
           ltac:(simpl; lia) ltac:(simpl; lia) eq_refl eq_refl
           ltac:(repeat constructor; discriminate)
           ltac:(intros j Hj; apply ex_copyout_900; simpl in Hj; lia)
           ltac:(lia)
           ltac:(vm_compute; split; [discriminate|reflexivity]) eq_refl).
Defined.

Lemma consolewrite_stops_at_bad_address_witness :
  ex_copyin 1 1002 = None /\
  consolewrite ex_copyin 1 1000 5 ex_con0 =
    (2, Con (c_buf ex_con0) 4294967295 4294967295 4294967295
            [CoPutc 100; CoPutc 101] false).
Proof.
  split; [reflexivity|].
  exact (consolewrite_stops_at_bad_address ex_copyin 1 1000 5 [100; 101] ex_con0
           ltac:(vm_compute; split; [discriminate|reflexivity]) ltac:(lia)
           ltac:(intros [|[|j]] Hj; [reflexivity|reflexivity|simpl in Hj; lia])
           ltac:(right; split; [reflexivity|reflexivity])).
Defined.

Lemma device_number_round_trip_witness :
  major (mkdev 1 7) = 1 /\ minor (mkdev 1 7) = 7 /\
  mkdev (major 65543) (minor 65543) = 65543.
Proof.
  destruct (proj1 device_number_round_trip 1 7 ltac:(lia) ltac:(lia)) as (Hma & Hmi).
  split; [exact Hma|]. split; [exact Hmi|].
  exact (proj2 device_number_round_trip 65543 ltac:(lia)).
Defined.
